(** * bga-ladder-scraper: a shallow embedding of [scrape_bga.py]

    The scraper pages through the ladder's scoring endpoint, resolves the
    entities of every flight record against a sqlite database, archives the
    flight trace under its SHA-256 digest and inserts one flight row per
    record.  This file embeds that pipeline as state-passing functions over
    an explicit world (database connection, archive file system, request
    log, clock) and proves the properties the specification states. *)

From Stdlib Require Import ZArith Lia List Bool.
From Stdlib Require Import Strings.String Strings.Ascii Strings.Byte.
From stdpp Require Import base option list gmap sets strings pretty.

Local Open Scope string_scope.
Local Open Scope list_scope.
Local Open Scope Z_scope.

(* ===================================================================== *)
(** * [hashlib.sha256]: the digest the archiver addresses traces by       *)
(* ===================================================================== *)

(** [hashlib] is a library, not code of the repository; the digest is
    written out after FIPS 180-4 so that archive paths can be computed.
    Words are 32-bit, held in [Z] and reduced modulo [2^32]. *)
Module SHA256.

Definition w32 (x : Z) : Z := Z.land x 4294967295.
Definition add32 (a b : Z) : Z := w32 (a + b).
Definition rotr (n x : Z) : Z :=
  Z.lor (Z.shiftr x n) (w32 (Z.shiftl x (32 - n))).
Definition shr (n x : Z) : Z := Z.shiftr x n.
Definition not32 (x : Z) : Z := Z.lxor x 4294967295.

Definition Ch (x y z : Z) : Z := Z.lxor (Z.land x y) (Z.land (not32 x) z).
Definition Maj (x y z : Z) : Z :=
  Z.lxor (Z.lxor (Z.land x y) (Z.land x z)) (Z.land y z).
Definition Sigma0 (x : Z) : Z := Z.lxor (Z.lxor (rotr 2 x) (rotr 13 x)) (rotr 22 x).
Definition Sigma1 (x : Z) : Z := Z.lxor (Z.lxor (rotr 6 x) (rotr 11 x)) (rotr 25 x).
Definition sigma0 (x : Z) : Z := Z.lxor (Z.lxor (rotr 7 x) (rotr 18 x)) (shr 3 x).
Definition sigma1 (x : Z) : Z := Z.lxor (Z.lxor (rotr 17 x) (rotr 19 x)) (shr 10 x).

(** The constants of FIPS 180-4 are roots of the first primes: a round
    constant is the first 32 bits of the fractional part of the cube root
    of a prime, an initial hash word that of its square root.
    [int_root k n] is the largest [r] below [2^36] with [r^k <= n]. *)
Fixpoint bisect (fuel : nat) (k n lo hi : Z) : Z :=
  match fuel with
  | O => lo
  | S fuel' =>
      let mid := (lo + hi) / 2 in
      if mid ^ k <=? n then bisect fuel' k n mid hi
      else bisect fuel' k n lo mid
  end.

Definition int_root (k n : Z) : Z := bisect 36 k n 0 (2 ^ 36).

Definition frac_root (k p : Z) : Z := w32 (int_root k (p * 2 ^ (32 * k))).

Definition primes : list Z :=
  [2; 3; 5; 7; 11; 13; 17; 19; 23; 29; 31; 37; 41; 43; 47; 53; 59; 61; 67;
   71; 73; 79; 83; 89; 97; 101; 103; 107; 109; 113; 127; 131; 137; 139; 149;
   151; 157; 163; 167; 173; 179; 181; 191; 193; 197; 199; 211; 223; 227;
   229; 233; 239; 241; 251; 257; 263; 269; 271; 277; 281; 283; 293; 307;
   311].

Definition K : list Z := Eval vm_compute in map (frac_root 3) primes.

(** The eight working words. *)
Record regs := Regs { ra : Z; rb : Z; rc : Z; rd : Z;
                      re : Z; rf : Z; rg : Z; rh : Z }.

Definition H0 : regs :=
  Eval vm_compute in
    Regs (frac_root 2 2) (frac_root 2 3) (frac_root 2 5) (frac_root 2 7)
         (frac_root 2 11) (frac_root 2 13) (frac_root 2 17) (frac_root 2 19).

(** Padding: a [0x80] byte, zeros up to 56 modulo 64, then the bit length
    as a 64-bit big-endian number. *)
Definition be_bytes (n : nat) (x : Z) : list Z :=
  map (fun i => Z.land (Z.shiftr x (8 * Z.of_nat i)) 255) (rev (seq 0 n)).

Definition pad (msg : list Z) : list Z :=
  let len := Z.of_nat (length msg) in
  let zeros := Z.to_nat ((55 - len) mod 64) in
  msg ++ 128 :: repeat 0 zeros ++ be_bytes 8 (8 * len).

Fixpoint be_word (bs : list Z) (acc : Z) : Z :=
  match bs with
  | [] => acc
  | b :: bs' => be_word bs' (Z.lor (Z.shiftl acc 8) b)
  end.

(** [words n bs]: the first [n] big-endian words of [bs], and the rest. *)
Fixpoint words (n : nat) (bs : list Z) : list Z * list Z :=
  match n with
  | O => ([], bs)
  | S n' =>
      let '(ws, rest) := words n' (skipn 4 bs) in
      (be_word (firstn 4 bs) 0 :: ws, rest)
  end.

(** The message schedule, most recent word first. *)
Fixpoint expand (n : nat) (w : list Z) : list Z :=
  match n with
  | O => w
  | S n' =>
      let x := add32 (add32 (sigma1 (nth 1 w 0)) (nth 6 w 0))
                     (add32 (sigma0 (nth 14 w 0)) (nth 15 w 0)) in
      expand n' (x :: w)
  end.

Definition schedule (block : list Z) : list Z := rev (expand 48 (rev block)).

Definition round (r : regs) (kw : Z * Z) : regs :=
  let t1 := add32 (add32 (add32 (rh r) (Sigma1 (re r)))
                         (add32 (Ch (re r) (rf r) (rg r)) (fst kw))) (snd kw) in
  let t2 := add32 (Sigma0 (ra r)) (Maj (ra r) (rb r) (rc r)) in
  Regs (add32 t1 t2) (ra r) (rb r) (rc r) (add32 (rd r) t1) (re r) (rf r) (rg r).

Definition compress (h : regs) (block : list Z) : regs :=
  let r := fold_left round (combine K (schedule block)) h in
  Regs (add32 (ra h) (ra r)) (add32 (rb h) (rb r)) (add32 (rc h) (rc r))
       (add32 (rd h) (rd r)) (add32 (re h) (re r)) (add32 (rf h) (rf r))
       (add32 (rg h) (rg r)) (add32 (rh h) (rh r)).

Fixpoint blocks (n : nat) (bs : list Z) (h : regs) : regs :=
  match n with
  | O => h
  | S n' => let '(blk, rest) := words 16 bs in blocks n' rest (compress h blk)
  end.

Definition digest (msg : list byte) : regs :=
  let padded := pad (map (fun b => Z.of_N (Byte.to_N b)) msg) in
  blocks (length padded / 64)%nat padded H0.

(** [hexdigest]: eight words, eight lowercase hexadecimal digits each. *)
Definition hex_digit (x : Z) : ascii :=
  match Z.land x 15 with
  | 0 => "0" | 1 => "1" | 2 => "2" | 3 => "3" | 4 => "4" | 5 => "5"
  | 6 => "6" | 7 => "7" | 8 => "8" | 9 => "9" | 10 => "a" | 11 => "b"
  | 12 => "c" | 13 => "d" | 14 => "e" | _ => "f"
  end%char.

Definition hex_word (x : Z) (rest : string) : string :=
  String (hex_digit (Z.shiftr x 28)) (String (hex_digit (Z.shiftr x 24))
 (String (hex_digit (Z.shiftr x 20)) (String (hex_digit (Z.shiftr x 16))
 (String (hex_digit (Z.shiftr x 12)) (String (hex_digit (Z.shiftr x 8))
 (String (hex_digit (Z.shiftr x 4)) (String (hex_digit x) rest))))))).

Definition hexdigest (msg : list byte) : string :=
  let r := digest msg in
  hex_word (ra r) (hex_word (rb r) (hex_word (rc r) (hex_word (rd r)
 (hex_word (re r) (hex_word (rf r) (hex_word (rg r) (hex_word (rh r) ""))))))).

End SHA256.

Definition bytes_of (s : string) : list byte := list_byte_of_string s.


(* ===================================================================== *)
(** * Values                                                              *)
(* ===================================================================== *)

(** The scalar values a JSON flight record carries once [r.json()] has
    decoded it.  A float is the dyadic number [m * 2^e]. *)
Inductive pyval :=
  | PNone
  | PBool (b : bool)
  | PInt (n : Z)
  | PFloat (m e : Z)
  | PStr (s : string).

Global Instance pyval_eq_dec : EqDecision pyval.
Proof. solve_decision. Defined.

(** [flight_details: Dict] *)
Abbreviation flight_record := (gmap string pyval).

(** Python truthiness, which decides [a or b]. *)
Definition truthy (v : pyval) : bool :=
  match v with
  | PNone => false
  | PBool b => b
  | PInt n => negb (n =? 0)%Z
  | PFloat m _ => negb (m =? 0)%Z
  | PStr s => negb (String.eqb s "")
  end.

(** [datetime] values are opaque instants. *)
Definition datetime := Z.

(** What sqlite stores for a bound parameter: [None] is NULL, a [bool] is
    the integer 0 or 1.  Integers are taken to fit sqlite's 64 bits. *)
Inductive sqlval :=
  | VNull
  | VInt (n : Z)
  | VReal (m e : Z)
  | VText (s : string).

Global Instance sqlval_eq_dec : EqDecision sqlval.
Proof. solve_decision. Defined.

Definition to_sql (v : pyval) : sqlval :=
  match v with
  | PNone => VNull
  | PBool b => VInt (if b then 1 else 0)
  | PInt n => VInt n
  | PFloat m e => VReal m e
  | PStr s => VText s
  end.

Definition dyadic_eqb (m1 e1 m2 e2 : Z) : bool :=
  let e := Z.min e1 e2 in
  (m1 * 2 ^ (e1 - e) =? m2 * 2 ^ (e2 - e))%Z.

(** The comparison [column = ?] of a WHERE clause and of a UNIQUE index:
    NULL equals nothing, numbers compare by value, texts by content. *)
Definition sql_eq (a b : sqlval) : bool :=
  match a, b with
  | VInt x, VInt y => (x =? y)%Z
  | VInt x, VReal m e => dyadic_eqb x 0 m e
  | VReal m e, VInt y => dyadic_eqb m e y 0
  | VReal m1 e1, VReal m2 e2 => dyadic_eqb m1 e1 m2 e2
  | VText s, VText t => String.eqb s t
  | _, _ => false
  end.

(* ===================================================================== *)
(** * The database                                                        *)
(* ===================================================================== *)

(** Modelled from the spec: [schema.sql] is not part of the sources.  The
    tables and columns are the ones the statements of [scrape_bga.py] name;
    every table has an integer primary key [id] that sqlite assigns on
    insert, and the columns section 3 of the specification calls unique
    ([pilot.ladder_id], [club.ladder_code], [glider_model.ladder_id],
    [glider.reg], [trace.sha256_hash], [flight.ladder_id]) carry a UNIQUE
    constraint, which NULLs never violate.  Columns hold the value that was
    bound; foreign keys are not enforced. *)
Module Pilot.
Record row := Row {
  id : Z; forename : sqlval; surname : sqlval; ladder_id : sqlval }.
End Pilot.

Module Club.
Record row := Row {
  id : Z; club_name : sqlval; is_university : sqlval; ladder_code : sqlval }.
End Club.

Module GliderModel.
Record row := Row {
  id : Z; model_name : sqlval; seats : sqlval; vintage : sqlval;
  turbo : sqlval; handicap : sqlval; ladder_id : sqlval }.
End GliderModel.

Module Glider.
Record row := Row { id : Z; reg : sqlval; model : sqlval }.
End Glider.

Module Task.
Record row := Row { id : Z; turnpoint_index : Z; turnpoint_code : sqlval }.
End Task.

Module Trace.
Record row := Row {
  id : Z; downloaded_at : datetime; original_filename : sqlval;
  sha256_hash : string }.
End Trace.

Module Flight.
Record row := Row {
  id : Z;
  pilot : Z; club : Z; glider : Z; trace : option Z;
  flight_date : datetime; scraped_at : datetime;
  is_weekend : sqlval; is_junior : sqlval; is_height : sqlval;
  is_two_seater : sqlval; is_wooden : sqlval; has_engine : sqlval;
  penalty : sqlval; task : Z;
  speed : sqlval; handicap_speed : sqlval; scoring_distance : sqlval;
  speed_points : sqlval; height_gain : sqlval; height_points : sqlval;
  total_points : sqlval; ladder_id : sqlval }.
End Flight.

Record tables := Tables {
  pilot : list Pilot.row;
  club : list Club.row;
  glider_model : list GliderModel.row;
  glider : list Glider.row;
  task : list Task.row;
  trace : list Trace.row;
  flight : list Flight.row }.

Definition empty_tables : tables := Tables [] [] [] [] [] [] [].

(** A set of tables with one table replaced. *)
Definition set_pilot (rows : list Pilot.row) (t : tables) : tables :=
  Tables rows (club t) (glider_model t) (glider t) (task t) (trace t) (flight t).
Definition set_club (rows : list Club.row) (t : tables) : tables :=
  Tables (pilot t) rows (glider_model t) (glider t) (task t) (trace t) (flight t).
Definition set_glider_model (rows : list GliderModel.row) (t : tables) : tables :=
  Tables (pilot t) (club t) rows (glider t) (task t) (trace t) (flight t).
Definition set_glider (rows : list Glider.row) (t : tables) : tables :=
  Tables (pilot t) (club t) (glider_model t) rows (task t) (trace t) (flight t).
Definition set_task (rows : list Task.row) (t : tables) : tables :=
  Tables (pilot t) (club t) (glider_model t) (glider t) rows (trace t) (flight t).
Definition set_trace (rows : list Trace.row) (t : tables) : tables :=
  Tables (pilot t) (club t) (glider_model t) (glider t) (task t) rows (flight t).
Definition set_flight (rows : list Flight.row) (t : tables) : tables :=
  Tables (pilot t) (club t) (glider_model t) (glider t) (task t) (trace t) rows.

(** The rowid sqlite gives to a new row: one more than the largest in the
    table, 1 in an empty table. *)
Definition next_rowid (ids : list Z) : Z := 1 + foldr Z.max 0 ids.

(** [cur.fetchone()] after [select (id) from t where ...]: the id of the
    first matching row, if any. *)
Definition fetchone {R} (rowid : R -> Z) (cond : R -> bool) (rows : list R)
  : option Z := rowid <$> find cond rows.

(** A UNIQUE column rejects a value that equals one already stored. *)
Definition unique_ok {R} (col : R -> sqlval) (v : sqlval) (rows : list R) : bool :=
  negb (existsb (fun r => sql_eq (col r) v) rows).

(* ===================================================================== *)
(** * The world a run acts on                                             *)
(* ===================================================================== *)

Definition path := list string.

Record response := Response {
  content : list byte;                        (* r.content *)
  json_rows : option (list flight_record) }.  (* r.json()["rows"] *)

Abbreviation query := (gmap string Z).

(** What the program cannot compute by itself: the ladder service (a
    response, or [None] for a status other than 200), the clock behind
    [datetime.now()], [datetime.strptime] with the format
    ["%Y-%m-%dT%H:%M:%S"], and the text of a float in an f-string. *)
Record env := Env {
  http : string -> query -> option response;
  clock : nat -> datetime;
  strptime : string -> option datetime;
  repr_float : Z -> Z -> string }.

(** [durable] is what has been committed, [session] what the open
    connection sees; [requests] lists the requests issued, oldest first,
    and [ticks] counts the clock readings. *)
Record world := World {
  durable : tables;
  session : tables;
  files : gmap path (list byte);
  dirs : gset path;
  requests : list (string * query);
  ticks : nat }.

Inductive exn :=
  | NotFound
  | ExistingFlight
  | KeyError (key : string)
  | IndexError
  | TypeError
  | ValueError
  | IntegrityError.

Global Instance exn_eq_dec : EqDecision exn.
Proof. solve_decision. Defined.

(** A call returns, raises, or is cut off by the fuel of a loop. *)
Inductive outcome (A : Type) :=
  | Ok (a : A)
  | Raise (e : exn)
  | OutOfFuel.
Arguments Ok {A} a.
Arguments Raise {A} e.
Arguments OutOfFuel {A}.

Definition M (A : Type) : Type := world -> outcome A * world.

Definition ret {A} (a : A) : M A := fun w => (Ok a, w).
Definition raise {A} (e : exn) : M A := fun w => (Raise e, w).
Definition bind {A B} (m : M A) (k : A -> M B) : M B :=
  fun w =>
    match m w with
    | (Ok a, w') => k a w'
    | (Raise e, w') => (Raise e, w')
    | (OutOfFuel, w') => (OutOfFuel, w')
    end.

Notation "x <- m ;; k" := (bind m (fun x => k))
  (at level 100, m at next level, right associativity).
Notation "m ;;; k" := (bind m (fun _ => k))
  (at level 100, right associativity).

(** [try: m except e: h] *)
Definition try_except {A} (m : M A) (e : exn) (h : M A) : M A :=
  fun w =>
    match m w with
    | (Raise e', w') => if decide (e' = e) then h w' else (Raise e', w')
    | r => r
    end.

(** The connection after a statement has changed its tables. *)
Definition with_session (t : tables) (w : world) : world :=
  World (durable w) t (files w) (dirs w) (requests w) (ticks w).

Definition get_session : M tables := fun w => (Ok (session w), w).
Definition put_session (t : tables) : M unit :=
  fun w => (Ok tt, with_session t w).

(** [db.commit()] *)
Definition commit : M unit :=
  fun w => (Ok tt, World (session w) (session w) (files w) (dirs w)
                         (requests w) (ticks w)).

(** [fd[key]] *)
Definition getitem (fd : flight_record) (key : string) : M pyval :=
  match fd !! key with
  | Some v => ret v
  | None => raise (KeyError key)
  end.

(** The text of a value inside an f-string. *)
Definition py_str (E : env) (v : pyval) : string :=
  match v with
  | PNone => "None"
  | PBool true => "True"
  | PBool false => "False"
  | PInt n => pretty n
  | PFloat m e => repr_float E m e
  | PStr s => s
  end.

(** [datetime.now()] *)
Definition now (E : env) : M datetime :=
  fun w => (Ok (clock E (ticks w)),
            World (durable w) (session w) (files w) (dirs w) (requests w)
                  (S (ticks w))).

(** [requests_get]: the request is issued (the throttle only delays it),
    and a status other than 200 raises [NotFound]. *)
Definition requests_get (E : env) (url : string) (params : query) : M response :=
  fun w =>
    let w' := World (durable w) (session w) (files w) (dirs w)
                    (requests w ++ [(url, params)]) (ticks w) in
    match http E url params with
    | Some r => (Ok r, w')
    | None => (Raise NotFound, w')
    end.

(* ===================================================================== *)
(** * Entity resolution: [get_or_create_*]                                *)
(* ===================================================================== *)

Definition insert_pilot (forename surname ladder_id : sqlval) : M unit :=
  t <- get_session ;;
  if unique_ok Pilot.ladder_id ladder_id (pilot t) then
    put_session
      (set_pilot (pilot t ++ [Pilot.Row (next_rowid (Pilot.id <$> pilot t))
                                        forename surname ladder_id]) t)
  else raise IntegrityError.

Definition get_or_create_pilot (forename surname ladder_id : pyval) : M Z :=
  t <- get_session ;;
  match fetchone Pilot.id
          (fun r => sql_eq (Pilot.forename r) (to_sql forename)
                    && sql_eq (Pilot.surname r) (to_sql surname)
                    && sql_eq (Pilot.ladder_id r) (to_sql ladder_id))
          (pilot t) with
  | Some existing => ret existing
  | None =>
      insert_pilot (to_sql forename) (to_sql surname) (to_sql ladder_id) ;;;
      t' <- get_session ;;
      match fetchone Pilot.id
              (fun r => sql_eq (Pilot.ladder_id r) (to_sql ladder_id))
              (pilot t') with
      | Some i => ret i
      | None => raise TypeError       (* [cur.fetchone()[0]] on [None] *)
      end
  end.

Definition insert_club (ladder_code : sqlval) : M unit :=
  t <- get_session ;;
  if unique_ok Club.ladder_code ladder_code (club t) then
    put_session
      (set_club (club t ++ [Club.Row (next_rowid (Club.id <$> club t))
                                     VNull VNull ladder_code]) t)
  else raise IntegrityError.

Definition get_or_create_club (bgal_club_code : pyval) : M Z :=
  t <- get_session ;;
  match fetchone Club.id
          (fun r => sql_eq (Club.ladder_code r) (to_sql bgal_club_code))
          (club t) with
  | Some existing => ret existing
  | None =>
      insert_club (to_sql bgal_club_code) ;;;
      t' <- get_session ;;
      match fetchone Club.id
              (fun r => sql_eq (Club.ladder_code r) (to_sql bgal_club_code))
              (club t') with
      | Some i => ret i
      | None => raise TypeError
      end
  end.

Definition insert_glider_model (model_name ladder_id : sqlval) : M unit :=
  t <- get_session ;;
  if unique_ok GliderModel.ladder_id ladder_id (glider_model t) then
    put_session
      (set_glider_model
         (glider_model t ++
            [GliderModel.Row (next_rowid (GliderModel.id <$> glider_model t))
                             model_name VNull VNull VNull VNull ladder_id]) t)
  else raise IntegrityError.

Definition get_or_create_glider_model (model_name bgal_model_id : pyval) : M Z :=
  t <- get_session ;;
  match fetchone GliderModel.id
          (fun r => sql_eq (GliderModel.model_name r) (to_sql model_name))
          (glider_model t) with
  | Some existing => ret existing
  | None =>
      insert_glider_model (to_sql model_name) (to_sql bgal_model_id) ;;;
      t' <- get_session ;;
      match fetchone GliderModel.id
              (fun r => sql_eq (GliderModel.ladder_id r) (to_sql bgal_model_id))
              (glider_model t') with
      | Some i => ret i
      | None => raise TypeError
      end
  end.

Definition insert_glider (reg model : sqlval) : M unit :=
  t <- get_session ;;
  if unique_ok Glider.reg reg (glider t) then
    put_session
      (set_glider (glider t ++ [Glider.Row (next_rowid (Glider.id <$> glider t))
                                           reg model]) t)
  else raise IntegrityError.

Definition get_or_create_glider (reg : pyval) (model_id : Z) : M Z :=
  t <- get_session ;;
  match fetchone Glider.id (fun r => sql_eq (Glider.reg r) (to_sql reg))
          (glider t) with
  | Some existing => ret existing
  | None =>
      insert_glider (to_sql reg) (VInt model_id) ;;;
      t' <- get_session ;;
      match fetchone Glider.id (fun r => sql_eq (Glider.reg r) (to_sql reg))
              (glider t') with
      | Some i => ret i
      | None => raise TypeError
      end
  end.

(* ===================================================================== *)
(** * Task decomposition: [insert_task]                                   *)
(* ===================================================================== *)

(** [flight_details.get(key)]: [None] for a missing key. *)
Definition dict_get (fd : flight_record) (key : string) : pyval :=
  default PNone (fd !! key).

(** The closure [maybe_append], with the list [turnpoint_codes] it appends
    to passed in and out. *)
Definition maybe_append (code : pyval) (turnpoint_codes : list pyval)
  : bool * list pyval :=
  match code with
  | PNone => (false, turnpoint_codes)
  | PStr "" => (false, turnpoint_codes)
  | _ => (true, turnpoint_codes ++ [code])
  end.

(** [f"TP{i}"] *)
Definition tp_key (i : nat) : string := "TP" +:+ pretty i.

(** [for i in itertools.count(1)]: the loop over [TP1], [TP2], ...; it ends
    at the first [break], or with [None] when the fuel runs out first. *)
Fixpoint tp_loop (fuel : nat) (fd : flight_record) (i : nat)
    (turnpoint_codes : list pyval) : option (list pyval) :=
  match fuel with
  | O => None
  | S fuel' =>
      let '(appended, codes) :=
        maybe_append (dict_get fd (tp_key i)) turnpoint_codes in
      if appended then tp_loop fuel' fd (S i) codes else Some codes
  end.

(** The three appends of [insert_task].  A record of [n] keys holds at most
    [n] of the keys [TP1], [TP2], ..., so [S n] rounds reach the [break]
    ([tp_loop_terminates] below). *)
Definition turnpoints (fd : flight_record) : option (list pyval) :=
  let codes := snd (maybe_append (dict_get fd "StartPoint") []) in
  match tp_loop (S (size fd)) fd 1 codes with
  | Some codes' => Some (snd (maybe_append (dict_get fd "FinishPoint") codes'))
  | None => None
  end.

(** [select count(distinct id) from task] *)
Definition count_distinct_task_ids (t : tables) : Z :=
  Z.of_nat (size (list_to_set (Task.id <$> task t) : gset Z)).

(** The rows [executemany] inserts: [(task_id, i, code)] over
    [enumerate(turnpoint_codes)]. *)
Definition task_rows (task_id : Z) (turnpoint_codes : list pyval)
  : list Task.row :=
  imap (fun i code => Task.Row task_id (Z.of_nat i) (to_sql code))
       turnpoint_codes.

Definition insert_task (fd : flight_record) : M Z :=
  t <- get_session ;;
  let task_id := count_distinct_task_ids t in
  match turnpoints fd with
  | None => fun w => (OutOfFuel, w)
  | Some turnpoint_codes =>
      put_session (set_task (task t ++ task_rows task_id turnpoint_codes) t) ;;;
      ret task_id
  end.

(* ===================================================================== *)
(** * Trace archiving: [download_and_archive_trace]                       *)
(* ===================================================================== *)

(** [s[i]] on a [str]: the one-character string at index [i]. *)
Definition str_index (s : string) (i : nat) : M string :=
  match String.get i s with
  | Some c => ret (String c "")
  | None => raise IndexError
  end.

(** The directories [mkdir(parents=True, exist_ok=True)] leaves in place:
    the path itself and every ancestor of it. *)
Definition with_parents (p : path) : list path :=
  (fun n => take n p) <$> seq 1 (length p).

(** [full_path.parent.mkdir(...)] followed by writing [data] to
    [full_path], which replaces whatever the file held. *)
Definition write_file (full_path : path) (data : list byte) : M unit :=
  fun w =>
    (Ok tt,
     World (durable w) (session w)
           (<[full_path := data]> (files w))
           (dirs w ∪ list_to_set (with_parents (removelast full_path)))
           (requests w) (ticks w)).

Definition select_trace (sha256_hash : string) (t : tables) : option Z :=
  fetchone Trace.id (fun r => String.eqb (Trace.sha256_hash r) sha256_hash)
           (trace t).

Definition insert_trace (downloaded_at : datetime) (original_filename : sqlval)
    (sha256_hash : string) : M unit :=
  t <- get_session ;;
  if existsb (fun r => String.eqb (Trace.sha256_hash r) sha256_hash) (trace t)
  then raise IntegrityError
  else
    put_session
      (set_trace
         (trace t ++ [Trace.Row (next_rowid (Trace.id <$> trace t))
                                downloaded_at original_filename sha256_hash]) t).

Definition trace_url (E : env) (flight_id : pyval) : string :=
  "https://www.bgaladder.net/FlightIGC/" +:+ py_str E flight_id.

(** The part of [download_and_archive_trace] after the download. *)
Definition archive_trace (archive_root : path) (downloaded_at : datetime)
    (original_filename : pyval) (data : list byte) : M (option Z) :=
  let sha256_hash := SHA256.hexdigest data in
  t <- get_session ;;
  match select_trace sha256_hash t with
  | Some existing => ret (Some existing)
  | None =>
      h0 <- str_index sha256_hash 0 ;;
      h1 <- str_index sha256_hash 1 ;;
      let archive_path := [h0; h1; sha256_hash] in
      let full_path := archive_root ++ archive_path in
      write_file full_path data ;;;
      insert_trace downloaded_at (to_sql original_filename) sha256_hash ;;;
      t' <- get_session ;;
      match select_trace sha256_hash t' with
      | Some i => ret (Some i)
      | None => raise TypeError
      end
  end.

Definition download_and_archive_trace (E : env) (archive_root : path)
    (fd : flight_record) : M (option Z) :=
  flight_id <- getitem fd "FlightID" ;;
  let url := trace_url E flight_id in
  original_filename <- getitem fd "LoggerFile" ;;
  downloaded_at <- now E ;;
  got <- try_except (r <- requests_get E url ∅ ;; ret (Some r))
                    NotFound (ret None) ;;
  match got with
  | None => ret None                  (* [except NotFound: return None] *)
  | Some r =>
      archive_trace archive_root downloaded_at original_filename (content r)
  end.

(* ===================================================================== *)
(** * Flight ingestion: [insert_bga_flight]                               *)
(* ===================================================================== *)

Definition select_flight (ladder_id : sqlval) (t : tables) : option Z :=
  fetchone Flight.id (fun r => sql_eq (Flight.ladder_id r) ladder_id) (flight t).

(** The INSERT of a flight row, given every column but [id]. *)
Definition insert_flight (r : Z -> Flight.row) (ladder_id : sqlval) : M unit :=
  t <- get_session ;;
  if unique_ok Flight.ladder_id ladder_id (flight t) then
    put_session
      (set_flight (flight t ++ [r (next_rowid (Flight.id <$> flight t))]) t)
  else raise IntegrityError.

(** [datetime.strptime(v, "%Y-%m-%dT%H:%M:%S")] *)
Definition parse_flight_date (E : env) (v : pyval) : M datetime :=
  match v with
  | PStr s =>
      match strptime E s with
      | Some d => ret d
      | None => raise ValueError
      end
  | _ => raise TypeError
  end.

Definition insert_bga_flight (E : env) (archive_root : path)
    (flight_details : flight_record) (scraped_at : datetime) : M unit :=
  let fd := flight_details in
  ladder_id <- getitem fd "FlightID" ;;
  t <- get_session ;;
  match select_flight (to_sql ladder_id) t with
  | Some _ => raise ExistingFlight
  | None =>
      forename <- getitem fd "Forename" ;;
      surname <- getitem fd "Surname" ;;
      pilot_ladder_id <- getitem fd "PilotID" ;;
      pilot_id <- get_or_create_pilot forename surname pilot_ladder_id ;;
      club_code <- getitem fd "ClubID" ;;
      club_id <- get_or_create_club club_code ;;
      glider_name <- getitem fd "Glider" ;;
      glider_code <- getitem fd "GliderCode" ;;
      glider_model_id <- get_or_create_glider_model glider_name glider_code ;;
      registration <- getitem fd "Registration" ;;
      glider_id <- get_or_create_glider registration glider_model_id ;;
      trace_id <- download_and_archive_trace E archive_root flight_details ;;
      task_id <- insert_task fd ;;
      date_text <- getitem fd "FlightDate" ;;
      flight_date <- parse_flight_date E date_text ;;
      weekend <- getitem fd "Weekend" ;;
      junior <- getitem fd "Junior" ;;
      height <- getitem fd "Height" ;;
      two_seater <- getitem fd "TwoSeater" ;;
      wood <- getitem fd "Wood" ;;
      wooden <- (if truthy wood then ret wood else getitem fd "Wooden") ;;
      engine <- getitem fd "Engine" ;;
      penalty <- getitem fd "Penalty" ;;
      speed <- getitem fd "Speed" ;;
      handicap_speed <- getitem fd "HandicapSpeed" ;;
      scoring_distance <- getitem fd "ScoringDistance" ;;
      speed_points <- getitem fd "SpeedPoints" ;;
      height_gain <- getitem fd "HeightGain" ;;
      height_points <- getitem fd "HeightPoints" ;;
      total_points <- getitem fd "TotalPoints" ;;
      insert_flight
        (fun id =>
           Flight.Row id pilot_id club_id glider_id trace_id flight_date
             scraped_at (to_sql weekend) (to_sql junior) (to_sql height)
             (to_sql two_seater) (to_sql wooden) (to_sql engine)
             (to_sql penalty) task_id (to_sql speed) (to_sql handicap_speed)
             (to_sql scoring_distance) (to_sql speed_points)
             (to_sql height_gain) (to_sql height_points)
             (to_sql total_points) (to_sql ladder_id))
        (to_sql ladder_id) ;;;
      commit
  end.

(* ===================================================================== *)
(** * Pagination: [get_daily_flights], [scrape_day], [scrape_season]      *)
(* ===================================================================== *)

Definition base_url : string := "https://www.bgaladder.net/API/DailyScores".

Definition set_if (key : string) (v : option Z) (params : query) : query :=
  match v with
  | Some x => <[key := x]> params
  | None => params
  end.

(** The [params] dict before the loop sets ["page"]. *)
Definition query_params (query_season query_month query_day : option Z)
    (page_size : nat) : query :=
  set_if "Day" query_day
    (set_if "Month" query_month
       (set_if "Season" query_season {[ "rows" := Z.of_nat page_size ]})).

Section Pagination.
(** The callback [process] is a closure; [U] is the state it captures
    ([nonlocal new_flights]), handed from one call to the next. *)
Context {U : Type}.
Variable E : env.
Variable process : datetime -> flight_record -> U -> M U.

(** [for flight in flights: process(scraped_at, flight)] *)
Fixpoint for_flights (scraped_at : datetime) (flights : list flight_record)
    (u : U) : M U :=
  match flights with
  | [] => ret u
  | flight :: rest =>
      u' <- process scraped_at flight u ;;
      for_flights scraped_at rest u'
  end.

(** [r.json()["rows"]] on the JSON object the scoring endpoint answers
    with; an object without the key makes the subscript raise
    [KeyError]. *)
Definition rows_of (r : response) : M (list flight_record) :=
  match json_rows r with
  | Some flights => ret flights
  | None => raise (KeyError "rows")
  end.

(** [for page in itertools.count(1)], cut off after [fuel] pages. *)
Fixpoint page_loop (fuel : nat) (params : query) (page_size : nat)
    (page : nat) (total_found : nat) (u : U) : M (nat * U) :=
  match fuel with
  | O => fun w => (OutOfFuel, w)
  | S fuel' =>
      let params := <["page" := Z.of_nat page]> params in
      r <- requests_get E base_url params ;;
      scraped_at <- now E ;;
      flights <- rows_of r ;;
      u' <- for_flights scraped_at flights u ;;
      let total_found := (total_found + length flights)%nat in
      if (length flights <? page_size)%nat
      then ret (total_found, u')
      else page_loop fuel' params page_size (S page) total_found u'
  end.

Definition get_daily_flights (fuel : nat) (u : U)
    (query_season query_month query_day : option Z) (page_size : nat)
  : M (nat * U) :=
  page_loop fuel (query_params query_season query_month query_day page_size)
            page_size 1 0 u.
End Pagination.

Record date := Date { year : Z; month : Z; day : Z }.

(** The closure [process] of [scrape_day] and [scrape_season]. *)
Definition process_flight (E : env) (archive_root : path)
    (scraped_at : datetime) (flight_details : flight_record)
    (new_flights : nat) : M nat :=
  try_except
    (insert_bga_flight E archive_root flight_details scraped_at ;;;
     ret (new_flights + 1)%nat)
    ExistingFlight
    (ret new_flights).

Definition scrape_day (E : env) (archive_root : path) (query_date : date)
    (fuel : nat) : M (nat * nat) :=
  get_daily_flights E (process_flight E archive_root) fuel 0%nat
    (Some (year query_date)) (Some (day query_date)) (Some (day query_date))
    100.

Definition scrape_season (E : env) (archive_root : path) (season : Z)
    (fuel : nat) : M unit :=
  get_daily_flights E (process_flight E archive_root) fuel 0%nat
    (Some season) None None 100 ;;;
  ret tt.

(* ===================================================================== *)
(** * Notions the statements below are phrased in                         *)
(* ===================================================================== *)

(** A stored value equals itself in SQL exactly when it is not NULL. *)
Definition non_null (v : sqlval) : Prop := v <> VNull.

(** A turnpoint code counts when the key is there and holds neither
    [None] nor the empty string. *)
Definition has_code (v : pyval) : bool :=
  match v with
  | PNone => false
  | PStr "" => false
  | _ => true
  end.

(** The code under [key] "if present and non-empty": one code or none. *)
Definition code_at (fd : flight_record) (key : string) : list pyval :=
  match fd !! key with
  | Some v => if has_code v then [v] else []
  | None => []
  end.

(** The characters of a lowercase hexadecimal number. *)
Definition lower_hex (c : ascii) : bool :=
  match c with
  | "0" | "1" | "2" | "3" | "4" | "5" | "6" | "7" | "8" | "9"
  | "a" | "b" | "c" | "d" | "e" | "f" => true
  | _ => false
  end%char.

(** [h[i]] as a one-character string (empty past the end of [h]). *)
Definition nth_char (h : string) (i : nat) : string :=
  match String.get i h with
  | Some c => String c ""
  | None => ""
  end.

(** [<archive_root>/<h[0]>/<h[1]>/<h>]: the file a digest [h] is kept in. *)
Definition archive_file (archive_root : path) (h : string) : path :=
  archive_root ++ [nth_char h 0; nth_char h 1; h].

(** The world once the trace of a flight has been asked for: one more
    clock reading, one more request, nothing else. *)
Definition after_download (url : string) (w : world) : world :=
  World (durable w) (session w) (files w) (dirs w)
        (requests w ++ [(url, ∅)]) (S (ticks w)).

(** The UNIQUE constraint on [trace.sha256_hash], as a property of a
    table. *)
Definition unique_hashes (t : tables) : Prop :=
  NoDup (Trace.sha256_hash <$> trace t).

(** The trace rows that carry digest [h]. *)
Definition traces_with (h : string) (t : tables) : list Trace.row :=
  filter (fun r => Trace.sha256_hash r = h) (trace t).

(** A UNIQUE column, as a property of a table: no two rows hold values
    that are equal in SQL (NULLs never are). *)
Fixpoint unique_col {R} (col : R -> sqlval) (rows : list R) : bool :=
  match rows with
  | [] => true
  | r :: rest =>
      forallb (fun r' => negb (sql_eq (col r) (col r'))) rest
      && unique_col col rest
  end.

(** The rows a WHERE clause selects. *)
Definition selected {R} (cond : R -> bool) (rows : list R) : list R :=
  List.filter cond rows.

(** The WHERE clauses of the pilot and club lookups. *)
Definition is_pilot (forename surname ladder_id : sqlval) (r : Pilot.row)
  : bool :=
  sql_eq (Pilot.forename r) forename && sql_eq (Pilot.surname r) surname
  && sql_eq (Pilot.ladder_id r) ladder_id.

Definition is_club (ladder_code : sqlval) (r : Club.row) : bool :=
  sql_eq (Club.ladder_code r) ladder_code.


(** What a step of an ingestion before the task and flight inserts leaves
    alone: the flight and task tables of the session, and everything
    committed. *)
Definition keeps (w w' : world) : Prop :=
  flight (session w') = flight (session w)
  /\ task (session w') = task (session w)
  /\ durable w' = durable w.

(** The task ids in use are [0 .. n-1] for some [n]: what the task table
    looks like when only [insert_task] has written to it. *)
Definition task_ids_dense (t : tables) : Prop :=
  forall i : Z,
    i ∈ (Task.id <$> task t) <-> 0 <= i < count_distinct_task_ids t.

(** The flight rows that carry ladder id [v]. *)
Definition flights_with (v : sqlval) (t : tables) : list Flight.row :=
  selected (fun r => sql_eq (Flight.ladder_id r) v) (flight t).

(** The keys [insert_bga_flight] reads whatever the record holds. *)
Definition required_keys : list string :=
  ["FlightID"; "Forename"; "Surname"; "PilotID"; "ClubID"; "Glider";
   "GliderCode"; "Registration"; "LoggerFile"; "FlightDate"; "Weekend";
   "Junior"; "Height"; "TwoSeater"; "Wood"; "Engine"; "Penalty"; "Speed";
   "HandicapSpeed"; "ScoringDistance"; "SpeedPoints"; "HeightGain";
   "HeightPoints"; "TotalPoints"].

Definition has_key (fd : flight_record) (key : string) : bool :=
  match fd !! key with
  | Some _ => true
  | None => false
  end.

(** The record has every required key, and ["Wooden"] too unless
    ["Wood"] is truthy and decides the flag alone. *)
Definition has_keys (fd : flight_record) : bool :=
  forallb (has_key fd) required_keys
  && (truthy (dict_get fd "Wood") || has_key fd "Wooden").

(** The flight date is a string that [strptime] accepts. *)
Definition date_parses (E : env) (fd : flight_record) : bool :=
  match fd !! "FlightDate" with
  | Some (PStr s) =>
      match strptime E s with
      | Some _ => true
      | None => false
      end
  | _ => false
  end.

(** A get-or-create goes through: the lookup finds a row, or the value of
    the unique column is free and not NULL, so that the insert is accepted
    and the re-select finds the new row. *)
Definition resolves {R} (rowid : R -> Z) (lookup : R -> bool)
    (col : R -> sqlval) (v : sqlval) (rows : list R) : bool :=
  match fetchone rowid lookup rows with
  | Some _ => true
  | None => unique_ok col v rows && negb (bool_decide (v = VNull))
  end.

Definition entities_resolve (fd : flight_record) (t : tables) : bool :=
  resolves Pilot.id
    (is_pilot (to_sql (dict_get fd "Forename")) (to_sql (dict_get fd "Surname"))
              (to_sql (dict_get fd "PilotID")))
    Pilot.ladder_id (to_sql (dict_get fd "PilotID")) (pilot t)
  && resolves Club.id (is_club (to_sql (dict_get fd "ClubID")))
       Club.ladder_code (to_sql (dict_get fd "ClubID")) (club t)
  && resolves GliderModel.id
       (fun r => sql_eq (GliderModel.model_name r) (to_sql (dict_get fd "Glider")))
       GliderModel.ladder_id (to_sql (dict_get fd "GliderCode")) (glider_model t)
  && resolves Glider.id
       (fun r => sql_eq (Glider.reg r) (to_sql (dict_get fd "Registration")))
       Glider.reg (to_sql (dict_get fd "Registration")) (glider t).

(** No flight row carries the record's ladder id yet. *)
Definition is_new_flight (fd : flight_record) (t : tables) : bool :=
  match select_flight (to_sql (dict_get fd "FlightID")) t with
  | Some _ => false
  | None => true
  end.

(** Everything an ingestion needs apart from the trace download. *)
Definition ingestible (E : env) (fd : flight_record) (t : tables) : bool :=
  has_keys fd && date_parses E fd && entities_resolve fd t
  && is_new_flight fd t.

(** The trace id an ingestion stores: none when the download fails, the
    id of the row with the digest of the bytes when there is one, the id
    of the row it inserts otherwise. *)
Definition expected_trace (E : env) (fd : flight_record) (t : tables)
  : option Z :=
  match http E (trace_url E (dict_get fd "FlightID")) ∅ with
  | None => None
  | Some r =>
      match select_trace (SHA256.hexdigest (content r)) t with
      | Some existing => Some existing
      | None => Some (next_rowid (Trace.id <$> trace t))
      end
  end.

(** A computation that never ends by raising [e]. *)
Definition never_raises {A} (e : exn) (m : M A) : Prop :=
  forall w, fst (m w) <> Raise e.

(** Pagination as the specification words it: request the pages with the
    given 1-based numbers in turn, each with the query's filters and page
    size; take the time of the response; hand every record of the page, in
    the order received, to the callback; add up the records seen. *)
Fixpoint visit_pages {U} (E : env)
    (process : datetime -> flight_record -> U -> M U) (params : query)
    (pages : list nat) (total_found : nat) (u : U) : M (nat * U) :=
  match pages with
  | [] => ret (total_found, u)
  | page :: rest =>
      r <- requests_get E base_url (<["page" := Z.of_nat page]> params) ;;
      scraped_at <- now E ;;
      flights <- rows_of r ;;
      u' <- for_flights process scraped_at flights u ;;
      visit_pages E process params rest (total_found + length flights)%nat u'
  end.

(** The count a call of [get_daily_flights] returned. *)
Definition total_of {U} (o : outcome (nat * U)) : option nat :=
  match o with
  | Ok (total_found, _) => Some total_found
  | _ => None
  end.

(** A callback that only notes what it is called with. *)
Definition record_call (scraped_at : datetime) (flight : flight_record)
    (calls : list (datetime * flight_record))
  : M (list (datetime * flight_record)) :=
  ret (calls ++ [(scraped_at, flight)]).

(** The service answers the requests for pages [page], [page+1], ... of
    the query with the pages [pgs], in this order. *)
Fixpoint serves (E : env) (params : query) (page : nat)
    (pgs : list (list flight_record)) : bool :=
  match pgs with
  | [] => true
  | p :: rest =>
      match http E base_url (<["page" := Z.of_nat page]> params) with
      | Some r => bool_decide (json_rows r = Some p)
      | None => false
      end
      && serves E params (S page) rest
  end.

(** The last of the pages is the first with fewer than [page_size]
    records. *)
Fixpoint first_short_is_last (page_size : nat)
    (pgs : list (list flight_record)) : bool :=
  match pgs with
  | [] => false
  | [p] => (length p <? page_size)%nat
  | p :: rest =>
      negb (length p <? page_size)%nat && first_short_is_last page_size rest
  end.

(* ===================================================================== *)
(** * A small ladder to run the code on                                   *)
(* ===================================================================== *)

(** Two flights of one pilot, whose traces both read [hello]; a third
    flight has no trace on the server. *)
Definition sample_record (flight_id : Z) (logger_file : string)
  : flight_record :=
  list_to_map
    [("FlightID", PInt flight_id); ("Forename", PStr "Ann");
     ("Surname", PStr "Lee"); ("PilotID", PInt 3); ("ClubID", PStr "CAM");
     ("Glider", PStr "ASW 27"); ("GliderCode", PInt 12);
     ("Registration", PStr "G-CKLE"); ("LoggerFile", PStr logger_file);
     ("StartPoint", PStr "A"); ("TP1", PStr "B"); ("TP2", PStr "C");
     ("FinishPoint", PStr "D"); ("FlightDate", PStr "2023-05-17T00:00:00");
     ("Weekend", PBool false); ("Junior", PBool false);
     ("Height", PBool false); ("TwoSeater", PBool false);
     ("Wood", PBool false); ("Wooden", PBool false); ("Engine", PBool false);
     ("Penalty", PInt 0); ("Speed", PFloat 187 (-1));
     ("HandicapSpeed", PFloat 171 (-1)); ("ScoringDistance", PInt 306);
     ("SpeedPoints", PInt 1840); ("HeightGain", PInt 0);
     ("HeightPoints", PInt 0); ("TotalPoints", PInt 1840)].

(** The same flight without any turnpoint key. *)
Definition sample_record_no_task (flight_id : Z) : flight_record :=
  delete "StartPoint"
    (delete "TP1" (delete "TP2" (delete "FinishPoint"
       (sample_record flight_id "none.igc")))).

Definition sample_http (url : string) (params : query) : option response :=
  if String.eqb url "https://www.bgaladder.net/FlightIGC/7" then
    Some (Response (bytes_of "hello") None)
  else if String.eqb url "https://www.bgaladder.net/FlightIGC/8" then
    Some (Response (bytes_of "hello") None)
  else if String.eqb url base_url then
    Some (Response [] (Some []))
  else None.

Definition sample_env : env :=
  Env sample_http (fun n => Z.of_nat n) (fun _ => Some 20230517)
      (fun _ _ => "0.0").

Definition empty_world : world :=
  World empty_tables empty_tables ∅ ∅ [] 0.

(** A ladder that holds the flights [1 .. n] and serves them in pages of
    [size]; past the last flight a page is empty. *)
Definition numbered_flights (first n : nat) : list flight_record :=
  (fun i => {[ "FlightID" := PInt (Z.of_nat i) ]}) <$> seq first n.

Definition paged_http (n size : nat) (url : string) (params : query)
  : option response :=
  if String.eqb url base_url then
    match params !! "page" with
    | Some page =>
        let start := ((Z.to_nat page - 1) * size)%nat in
        Some (Response [] (Some (numbered_flights (S start)
                                   (Nat.min size (n - start)))))
    | None => None
    end
  else None.

Definition paged_env (n size : nat) : env :=
  Env (paged_http n size) (fun n => Z.of_nat n) (fun _ => None)
      (fun _ _ => "0.0").

(* ===================================================================== *)
(** * The bulk prefill: [prefill_clubs], [prefill_pilots],                *)
(** * [prefill_glider_models]                                             *)
(* ===================================================================== *)

(** [r.json()] on the answer of a bulk endpoint.  The decoder of the body
    is the library's; [decode] stands for it on the bodies this model
    covers: a JSON array of flat objects decodes to [Some] of its items,
    and a body that is not JSON to [None], on which [r.json()] raises
    the library's [JSONDecodeError], a [ValueError].  JSON of another
    shape is not covered. *)
Definition json_of (decode : list byte -> option (list flight_record))
    (r : response) : M (list flight_record) :=
  match decode (content r) with
  | Some data => ret data
  | None => raise ValueError
  end.

(** The INSERT of [prefill_clubs], with all three columns given. *)
Definition insert_club_row (club_name is_university ladder_code : sqlval)
  : M unit :=
  t <- get_session ;;
  if unique_ok Club.ladder_code ladder_code (club t) then
    put_session
      (set_club (club t ++ [Club.Row (next_rowid (Club.id <$> club t))
                                     club_name is_university ladder_code]) t)
  else raise IntegrityError.

(** [cur.executemany] over a generator: the parameters of a row are
    computed, the row is inserted, and only then the next item is looked
    at; rows inserted before an error stay in the session. *)
Fixpoint executemany_clubs (data : list flight_record) : M unit :=
  match data with
  | [] => ret tt
  | c :: rest =>
      name <- getitem c "Name" ;;
      university <- getitem c "University" ;;
      i <- getitem c "ID" ;;
      insert_club_row (to_sql name) (to_sql university) (to_sql i) ;;;
      executemany_clubs rest
  end.

Definition clubs_url : string := "https://www.bgaladder.net/api/Clubs".

Definition prefill_clubs (decode : list byte -> option (list flight_record))
    (E : env) : M unit :=
  r <- requests_get E clubs_url ∅ ;;
  data <- json_of decode r ;;
  executemany_clubs data.

Fixpoint executemany_pilots (data : list flight_record) : M unit :=
  match data with
  | [] => ret tt
  | p :: rest =>
      forename <- getitem p "ForeName" ;;
      surname <- getitem p "Surname" ;;
      i <- getitem p "ID" ;;
      insert_pilot (to_sql forename) (to_sql surname) (to_sql i) ;;;
      executemany_pilots rest
  end.

Definition pilots_url : string := "https://www.bgaladder.net/api/ActivePilots".

Definition prefill_pilots (decode : list byte -> option (list flight_record))
    (E : env) : M unit :=
  r <- requests_get E pilots_url ∅ ;;
  data <- json_of decode r ;;
  executemany_pilots data.

(** The INSERT of [prefill_glider_models], with all six columns given. *)
Definition insert_glider_model_row
    (model_name seats vintage turbo handicap ladder_id : sqlval) : M unit :=
  t <- get_session ;;
  if unique_ok GliderModel.ladder_id ladder_id (glider_model t) then
    put_session
      (set_glider_model
         (glider_model t ++
            [GliderModel.Row (next_rowid (GliderModel.id <$> glider_model t))
                             model_name seats vintage turbo handicap
                             ladder_id]) t)
  else raise IntegrityError.

Fixpoint executemany_glider_models (data : list flight_record) : M unit :=
  match data with
  | [] => ret tt
  | g :: rest =>
      glider_type <- getitem g "GliderType" ;;
      seats <- getitem g "Seats" ;;
      vintage <- getitem g "Vintage" ;;
      turbo <- getitem g "Turbo" ;;
      handicap <- getitem g "Handicap" ;;
      i <- getitem g "GliderID" ;;
      insert_glider_model_row (to_sql glider_type) (to_sql seats)
        (to_sql vintage) (to_sql turbo) (to_sql handicap) (to_sql i) ;;;
      executemany_glider_models rest
  end.

Definition gliders_url : string := "https://www.bgaladder.net/api/Gliders".

Definition prefill_glider_models
    (decode : list byte -> option (list flight_record)) (E : env) : M unit :=
  r <- requests_get E gliders_url ∅ ;;
  data <- json_of decode r ;;
  executemany_glider_models data.

(* ===================================================================== *)
(** * Notions for the further properties                                  *)
(* ===================================================================== *)

(** Every table of [t'] starts with the rows of the same table of [t]:
    rows were appended, none was removed or changed. *)
Definition grows (t t' : tables) : Prop :=
  pilot t `prefix_of` pilot t'
  /\ club t `prefix_of` club t'
  /\ glider_model t `prefix_of` glider_model t'
  /\ glider t `prefix_of` glider t'
  /\ task t `prefix_of` task t'
  /\ trace t `prefix_of` trace t'
  /\ flight t `prefix_of` flight t'.

(** What every step of a run before a commit does to the world, however
    it ends: the session only gains rows, nothing is committed, requests
    and clock readings are only added, directories and files are only
    created (a file may be rewritten). *)
Definition advances (w w' : world) : Prop :=
  grows (session w) (session w')
  /\ durable w' = durable w
  /\ requests w `prefix_of` requests w'
  /\ (ticks w <= ticks w')%nat
  /\ dirs w ⊆ dirs w'
  /\ dom (files w) ⊆ dom (files w').

(** A computation relates the world it starts in to the world it ends in
    by [P], whatever its outcome. *)
Definition respects {A} (P : world -> world -> Prop) (m : M A) : Prop :=
  forall w r w', m w = (r, w') -> P w w'.

(** A computation that ends with a commit when it returns: the world
    moves on as in [advances], except that on return the session is what
    is committed, while a raise leaves the committed tables alone. *)
Definition settles {A} (m : M A) : Prop :=
  forall w r w',
    m w = (r, w') ->
    grows (session w) (session w')
    /\ requests w `prefix_of` requests w'
    /\ (ticks w <= ticks w')%nat
    /\ dirs w ⊆ dirs w'
    /\ dom (files w) ⊆ dom (files w')
    /\ match r with
       | Ok _ => durable w' = session w'
       | _ => durable w' = durable w
       end.

(** A flight row holds the data of a record scraped at [scraped_at]: the
    parsed flight date, the time of scraping, and in every other column
    the record's field of the corresponding name; [is_wooden] is the
    ["Wood"] field when that is truthy and the ["Wooden"] field
    otherwise. *)
Definition row_holds_record (E : env) (fd : flight_record)
    (scraped_at : datetime) (row : Flight.row) : Prop :=
  (exists date_text,
     fd !! "FlightDate" = Some (PStr date_text)
     /\ strptime E date_text = Some (Flight.flight_date row))
  /\ Flight.scraped_at row = scraped_at
  /\ Flight.is_weekend row = to_sql (dict_get fd "Weekend")
  /\ Flight.is_junior row = to_sql (dict_get fd "Junior")
  /\ Flight.is_height row = to_sql (dict_get fd "Height")
  /\ Flight.is_two_seater row = to_sql (dict_get fd "TwoSeater")
  /\ Flight.is_wooden row
     = to_sql (if truthy (dict_get fd "Wood") then dict_get fd "Wood"
               else dict_get fd "Wooden")
  /\ Flight.has_engine row = to_sql (dict_get fd "Engine")
  /\ Flight.penalty row = to_sql (dict_get fd "Penalty")
  /\ Flight.speed row = to_sql (dict_get fd "Speed")
  /\ Flight.handicap_speed row = to_sql (dict_get fd "HandicapSpeed")
  /\ Flight.scoring_distance row = to_sql (dict_get fd "ScoringDistance")
  /\ Flight.speed_points row = to_sql (dict_get fd "SpeedPoints")
  /\ Flight.height_gain row = to_sql (dict_get fd "HeightGain")
  /\ Flight.height_points row = to_sql (dict_get fd "HeightPoints")
  /\ Flight.total_points row = to_sql (dict_get fd "TotalPoints")
  /\ Flight.ladder_id row = to_sql (dict_get fd "FlightID").

(** The pilot, club and glider a flight row refers to, and its trace if
    it has one, are rows of the tables [t]. *)
Definition references_resolve (row : Flight.row) (t : tables) : Prop :=
  Flight.pilot row ∈ (Pilot.id <$> pilot t)
  /\ Flight.club row ∈ (Club.id <$> club t)
  /\ Flight.glider row ∈ (Glider.id <$> glider t)
  /\ (forall i, Flight.trace row = Some i -> i ∈ (Trace.id <$> trace t)).

(** The requests, among those issued, that went to the scoring endpoint
    [base_url]; the others fetch traces or prefill data. *)
Definition page_requests (w : world) : list (string * query) :=
  filter (fun q => q.1 = base_url) (requests w).

(** The two worlds have seen the same requests to the scoring endpoint. *)
Definition same_pages (w w' : world) : Prop :=
  page_requests w' = page_requests w.

(** The record has a flight id, and a flight row carries it already. *)
Definition already_stored (fd : flight_record) (t : tables) : bool :=
  has_key fd "FlightID" && negb (is_new_flight fd t).

(** A ladder with three score records on its only page, two of them for
    the same flight; the traces are those of [sample_http]. *)
Definition season_page : list flight_record :=
  [sample_record 7 "a.igc"; sample_record 8 "b.igc"; sample_record 7 "a.igc"].

Definition season_http (url : string) (params : query) : option response :=
  if String.eqb url base_url then
    Some (Response []
            (Some (if bool_decide (params !! "page" = Some 1)
                   then season_page else [])))
  else sample_http url params.

Definition season_env : env :=
  Env season_http (fun n => Z.of_nat n) (fun _ => Some 20230517)
      (fun _ _ => "0.0").

(** A ladder that refuses every request. *)
Definition offline_env : env :=
  Env (fun _ _ => None) (fun n => Z.of_nat n) (fun _ => Some 20230517)
      (fun _ _ => "0.0").

(** The club list of a small ladder, the service that hands it out and
    the decoder of its answer. *)
Definition sample_clubs : list flight_record :=
  [ list_to_map [("Name", PStr "Cambridge"); ("University", PBool false);
                 ("ID", PStr "CAM")];
    list_to_map [("Name", PStr "Imperial College"); ("University", PBool true);
                 ("ID", PStr "ICL")] ].

Definition sample_pilots : list flight_record :=
  [ list_to_map [("ForeName", PStr "Ann"); ("Surname", PStr "Lee");
                 ("ID", PInt 3)];
    list_to_map [("ForeName", PStr "Bob"); ("Surname", PStr "Day");
                 ("ID", PInt 4)] ].

Definition sample_glider_models : list flight_record :=
  [ list_to_map [("GliderType", PStr "ASW 27"); ("Seats", PInt 1);
                 ("Vintage", PBool false); ("Turbo", PBool false);
                 ("Handicap", PInt 104); ("GliderID", PInt 12)];
    list_to_map [("GliderType", PStr "K 21"); ("Seats", PInt 2);
                 ("Vintage", PBool false); ("Turbo", PBool false);
                 ("Handicap", PInt 85); ("GliderID", PInt 40)] ].

Definition prefill_http (url : string) (params : query) : option response :=
  if String.eqb url clubs_url || String.eqb url pilots_url
     || String.eqb url gliders_url
  then Some (Response (bytes_of "[...]") None)
  else None.

Definition prefill_env : env :=
  Env prefill_http (fun n => Z.of_nat n) (fun _ => None) (fun _ _ => "0.0").

Definition sample_decode (body : list byte) : option (list flight_record) :=
  match body with
  | [] => None
  | _ => Some sample_clubs
  end.

(** A get-or-create runs into a uniqueness conflict: its lookup finds no
    row, yet the value it is about to insert into the unique column is
    stored already. *)
Definition id_taken {R} (rowid : R -> Z) (lookup : R -> bool)
    (col : R -> sqlval) (v : sqlval) (rows : list R) : bool :=
  match fetchone rowid lookup rows with
  | Some _ => false
  | None => negb (unique_ok col v rows)
  end.

(** The club row a prefilled item becomes, but for its id. *)
Definition club_of (c : flight_record) (i : Z) : Club.row :=
  Club.Row i (to_sql (dict_get c "Name")) (to_sql (dict_get c "University"))
           (to_sql (dict_get c "ID")).

(** The pilot row a prefilled item becomes, but for its id. *)
Definition pilot_of (p : flight_record) (i : Z) : Pilot.row :=
  Pilot.Row i (to_sql (dict_get p "ForeName")) (to_sql (dict_get p "Surname"))
            (to_sql (dict_get p "ID")).

(** The glider model row a prefilled item becomes, but for its id. *)
Definition glider_model_of (g : flight_record) (i : Z) : GliderModel.row :=
  GliderModel.Row i (to_sql (dict_get g "GliderType"))
    (to_sql (dict_get g "Seats")) (to_sql (dict_get g "Vintage"))
    (to_sql (dict_get g "Turbo")) (to_sql (dict_get g "Handicap"))
    (to_sql (dict_get g "GliderID")).

(* ===================================================================== *)
(** * Basic facts                                                         *)
(* ===================================================================== *)

(** Projections out of a world or a set of tables that has just been
    built reduce to the field. *)
Ltac simpl_world :=
  cbn [durable session files dirs requests ticks with_session
       pilot club glider_model glider task trace flight
       set_pilot set_club set_glider_model set_glider set_task set_trace
       set_flight] in *.

Lemma bind_ok {A B} (m : M A) (k : A -> M B) w a w' :
  m w = (Ok a, w') -> bind m k w = k a w'.
Proof. intros H. unfold bind. by rewrite H. Qed.

Lemma bind_raise {A B} (m : M A) (k : A -> M B) w e w' :
  m w = (Raise e, w') -> bind m k w = (Raise e, w').
Proof. intros H. unfold bind. by rewrite H. Qed.

Lemma bind_ok_inv {A B} (m : M A) (k : A -> M B) w b w2 :
  bind m k w = (Ok b, w2) ->
  exists a w1, m w = (Ok a, w1) /\ k a w1 = (Ok b, w2).
Proof.
  unfold bind. destruct (m w) as [[a|e|] w1]; intros H; try discriminate.
  by exists a, w1.
Qed.

Lemma getitem_ok fd key v w :
  fd !! key = Some v -> getitem fd key w = (Ok v, w).
Proof. intros H. unfold getitem. by rewrite H. Qed.

Lemma getitem_ok_inv fd key v w w' :
  getitem fd key w = (Ok v, w') -> fd !! key = Some v /\ w' = w.
Proof.
  unfold getitem. destruct (fd !! key); cbv [ret raise]; intros H; by inversion H.
Qed.

Lemma dyadic_eqb_refl m e : dyadic_eqb m e m e = true.
Proof. unfold dyadic_eqb. apply Z.eqb_refl. Qed.

Lemma sql_eq_refl v : non_null v -> sql_eq v v = true.
Proof.
  destruct v; simpl; intros H; try done.
  - apply Z.eqb_refl.
  - apply dyadic_eqb_refl.
  - apply String.eqb_refl.
Qed.

Lemma sql_eq_non_null_r a b : sql_eq a b = true -> non_null b.
Proof. by destruct a, b. Qed.

Lemma fetchone_None {R} (rowid : R -> Z) cond (rows : list R) :
  fetchone rowid cond rows = None <-> Forall (fun r => cond r = false) rows.
Proof.
  unfold fetchone. induction rows as [|r rows IH]; simpl.
  - split; [constructor | done].
  - destruct (cond r) eqn:Hc; simpl.
    + split; [done | intros H; inversion H; congruence].
    + rewrite IH. split; [by constructor | by inversion 1].
Qed.

Lemma fetchone_app_new {R} (rowid : R -> Z) cond (rows : list R) r :
  fetchone rowid cond rows = None -> cond r = true ->
  fetchone rowid cond (rows ++ [r]) = Some (rowid r).
Proof.
  unfold fetchone. induction rows as [|r' rows IH]; simpl; intros Hn Hc.
  - by rewrite Hc.
  - destruct (cond r'); [done | by apply IH].
Qed.

Lemma fetchone_app_old {R} (rowid : R -> Z) cond (rows more : list R) i :
  fetchone rowid cond rows = Some i ->
  fetchone rowid cond (rows ++ more) = Some i.
Proof.
  unfold fetchone. induction rows as [|r' rows IH]; simpl; [done|].
  destruct (cond r'); [done | apply IH].
Qed.

Lemma unique_ok_fetchone {R} (rowid : R -> Z) (col : R -> sqlval) v (rows : list R) :
  unique_ok col v rows = true <->
  fetchone rowid (fun r => sql_eq (col r) v) rows = None.
Proof.
  unfold unique_ok, fetchone. induction rows as [|r rows IH]; simpl; [done|].
  destruct (sql_eq (col r) v); simpl; [done | apply IH].
Qed.

(* ===================================================================== *)
(** * Task decomposition                                                  *)
(* ===================================================================== *)

Lemma maybe_append_spec code codes :
  maybe_append code codes
  = (has_code code, if has_code code then codes ++ [code] else codes).
Proof. destruct code as [| | | |[|c s]]; reflexivity. Qed.

Lemma code_at_dict_get fd key :
  code_at fd key
  = if has_code (dict_get fd key) then [dict_get fd key] else [].
Proof.
  unfold code_at, dict_get. destruct (fd !! key) as [v|]; simpl; reflexivity.
Qed.

Lemma has_code_in_dom fd key :
  has_code (dict_get fd key) = true -> key ∈ dom fd.
Proof.
  unfold dict_get. intros H. apply elem_of_dom.
  destruct (fd !! key); [eauto | discriminate].
Qed.

Global Instance tp_key_inj : Inj (=) (=) tp_key.
Proof.
  intros i j H. unfold tp_key in H. simpl in H.
  injection H as H. by apply (inj pretty).
Qed.

(** The loop stops: the keys it consumes are distinct keys of the record,
    so a fuel above their number is never used up. *)
Lemma tp_loop_fuel fd : forall fuel (D : gset string) i codes,
  (forall j, (i <= j)%nat -> has_code (dict_get fd (tp_key j)) = true ->
             tp_key j ∈ D) ->
  (size D < fuel)%nat ->
  exists k,
    tp_loop fuel fd i codes
    = Some (codes ++ ((fun j => dict_get fd (tp_key j)) <$> seq i k))
    /\ (forall j, (i <= j < i + k)%nat ->
                  has_code (dict_get fd (tp_key j)) = true)
    /\ has_code (dict_get fd (tp_key (i + k))) = false.
Proof.
  induction fuel as [|fuel IH]; intros D i codes HD Hlt; [lia|].
  simpl. rewrite maybe_append_spec.
  destruct (has_code (dict_get fd (tp_key i))) eqn:Hi.
  - assert (Hin : tp_key i ∈ D) by (apply (HD i); [lia | done]).
    destruct (IH (D ∖ {[tp_key i]}) (S i) (codes ++ [dict_get fd (tp_key i)]))
      as (k & Hk & Hall & Hstop).
    + intros j Hj Hc. apply elem_of_difference. split.
      * apply HD; [lia | done].
      * rewrite elem_of_singleton. intros Heq. apply (inj tp_key) in Heq. lia.
    + assert (size (D ∖ {[tp_key i]}) = size D - 1)%nat as Hsz.
      { rewrite size_difference, size_singleton; [done|].
        by apply singleton_subseteq_l. }
      assert (size D <> 0)%nat; [|lia].
      apply size_non_empty_iff. intros He. by apply He in Hin.
    + exists (S k). split; [|split].
      * rewrite Hk. simpl. by rewrite <- app_assoc.
      * intros j Hj. destruct (decide (j = i)) as [->|]; [done|].
        apply Hall. lia.
      * by replace (i + S k)%nat with (S i + k)%nat by lia.
  - exists 0%nat. split; [|split].
    + simpl. by rewrite app_nil_r.
    + intros j Hj. lia.
    + by rewrite Nat.add_0_r.
Qed.

Lemma tp_loop_terminates fd i codes :
  exists k,
    tp_loop (S (size fd)) fd i codes
    = Some (codes ++ ((fun j => dict_get fd (tp_key j)) <$> seq i k))
    /\ (forall j, (i <= j < i + k)%nat ->
                  has_code (dict_get fd (tp_key j)) = true)
    /\ has_code (dict_get fd (tp_key (i + k))) = false.
Proof.
  apply (tp_loop_fuel fd (S (size fd)) (dom fd)).
  - intros j _. apply has_code_in_dom.
  - rewrite size_dom. lia.
Qed.

(** [turnpoints] always yields a list: start code, the run of [TP] codes
    up to the first gap, finish code. *)
Lemma turnpoints_spec fd :
  exists k,
    turnpoints fd
    = Some (code_at fd "StartPoint"
            ++ ((fun j => dict_get fd (tp_key j)) <$> seq 1 k)
            ++ code_at fd "FinishPoint")
    /\ (forall j, (1 <= j <= k)%nat -> code_at fd (tp_key j) = [dict_get fd (tp_key j)])
    /\ code_at fd (tp_key (S k)) = [].
Proof.
  unfold turnpoints.
  destruct (tp_loop_terminates fd 1 (snd (maybe_append (dict_get fd "StartPoint") [])))
    as (k & Hk & Hall & Hstop).
  exists k. rewrite Hk. rewrite !maybe_append_spec. simpl.
  split; [|split].
  - f_equal. rewrite !code_at_dict_get.
    destruct (has_code (dict_get fd "StartPoint")),
             (has_code (dict_get fd "FinishPoint")); simpl;
      rewrite ?app_nil_r, <- ?app_assoc; reflexivity.
  - intros j Hj. rewrite code_at_dict_get, Hall; [done | lia].
  - rewrite code_at_dict_get. simpl in Hstop. by rewrite Hstop.
Qed.

Lemma insert_task_run fd w :
  exists codes,
    turnpoints fd = Some codes /\
    insert_task fd w
    = (Ok (count_distinct_task_ids (session w)),
       with_session
         (set_task (task (session w)
                    ++ task_rows (count_distinct_task_ids (session w)) codes)
                   (session w)) w).
Proof.
  destruct (turnpoints_spec fd) as (k & Hk & _).
  eexists. split; [exact Hk|].
  unfold insert_task, bind, get_session. rewrite Hk. reflexivity.
Qed.

Lemma task_rows_length id codes : length (task_rows id codes) = length codes.
Proof. unfold task_rows. apply length_imap. Qed.

Lemma task_rows_lookup id codes i code :
  codes !! i = Some code ->
  task_rows id codes !! i = Some (Task.Row id (Z.of_nat i) (to_sql code)).
Proof. intros H. unfold task_rows. rewrite list_lookup_imap, H. reflexivity. Qed.

Lemma concat_code_at fd (js : list nat) :
  (forall j, j ∈ js -> code_at fd (tp_key j) = [dict_get fd (tp_key j)]) ->
  concat ((fun j => code_at fd (tp_key j)) <$> js)
  = (fun j => dict_get fd (tp_key j)) <$> js.
Proof.
  induction js as [|j js IH]; intros H; simpl; [done|].
  rewrite (H j) by constructor. simpl. f_equal.
  apply IH. intros j' Hj'. apply H. by constructor.
Qed.

(** C4.  The turnpoint sequence of a record is its start code (if present
    and non-empty), then the codes of [TP1], [TP2], ... up to the first key
    [TP(k+1)] that is missing or empty, whatever later keys hold, then its
    finish code (if present and non-empty); [insert_task] appends exactly
    one row per captured code, carrying the code and its 0-based position. *)
Theorem insert_task_turnpoint_sequence (fd : flight_record) (w : world) :
  exists (k : nat) (codes : list pyval) (w' : world) (rows : list Task.row),
    (forall j, (1 <= j <= k)%nat -> code_at fd (tp_key j) <> [])
    /\ code_at fd (tp_key (S k)) = []
    /\ codes = code_at fd "StartPoint"
               ++ concat ((fun j => code_at fd (tp_key j)) <$> seq 1 k)
               ++ code_at fd "FinishPoint"
    /\ turnpoints fd = Some codes
    /\ insert_task fd w = (Ok (count_distinct_task_ids (session w)), w')
    /\ task (session w') = task (session w) ++ rows
    /\ length rows = length codes
    /\ (forall i code, codes !! i = Some code ->
          rows !! i = Some (Task.Row (count_distinct_task_ids (session w))
                                     (Z.of_nat i) (to_sql code))).
Proof.
  destruct (turnpoints_spec fd) as (k & Hk & Hall & Hstop).
  destruct (insert_task_run fd w) as (codes & Hc & Hrun).
  rewrite Hk in Hc. injection Hc as Hc.
  exists k, codes, (snd (insert_task fd w)),
         (task_rows (count_distinct_task_ids (session w)) codes).
  repeat split.
  - intros j Hj. by rewrite Hall.
  - exact Hstop.
  - rewrite <- Hc. f_equal. f_equal. symmetry. apply concat_code_at.
    intros j Hj. apply Hall. apply elem_of_seq in Hj. lia.
  - by rewrite Hk, Hc.
  - by rewrite Hrun.
  - by rewrite Hrun.
  - apply task_rows_length.
  - intros i code. apply task_rows_lookup.
Qed.

(** The two records of the specification's section 8. *)
Example turnpoints_ABCD :
  turnpoints (list_to_map [("StartPoint", PStr "A"); ("TP1", PStr "B");
                           ("TP2", PStr "C"); ("FinishPoint", PStr "D")])
  = Some [PStr "A"; PStr "B"; PStr "C"; PStr "D"]
  /\ task_rows 0 [PStr "A"; PStr "B"; PStr "C"; PStr "D"]
     = [Task.Row 0 0 (VText "A"); Task.Row 0 1 (VText "B");
        Task.Row 0 2 (VText "C"); Task.Row 0 3 (VText "D")].
Proof. split; vm_compute; reflexivity. Qed.

Example turnpoints_gap :
  turnpoints (list_to_map [("TP1", PStr "B"); ("TP3", PStr "X")])
  = Some [PStr "B"].
Proof. vm_compute. reflexivity. Qed.

(** C2, as amended.  [insert_task] always returns, and the id it allocates
    is the number of distinct ids in the task table, not that number plus
    one: the first task of an empty table is task 0. *)
Theorem insert_task_id_is_count (fd : flight_record) (w : world) :
  exists w',
    insert_task fd w
    = (Ok (Z.of_nat (size (list_to_set (Task.id <$> task (session w)) : gset Z))),
       w').
Proof.
  destruct (insert_task_run fd w) as (codes & _ & Hrun).
  eexists. exact Hrun.
Qed.

(** C2, as stated, fails: on an empty task table the count is 0 and the
    claim asks for id 1, while [insert_task] returns 0. *)
Lemma insert_task_id_not_count_plus_one :
  let w := empty_world in
  let fd : flight_record := {[ "StartPoint" := PStr "A" ]} in
  count_distinct_task_ids (session w) + 1 = 1
  /\ fst (insert_task fd w) = Ok 0
  /\ fst (insert_task fd w) <> Ok (count_distinct_task_ids (session w) + 1).
Proof. vm_compute. repeat split. discriminate. Qed.

(* ===================================================================== *)
(** * Trace archiving                                                     *)
(* ===================================================================== *)

(** The digest agrees with the published test vectors. *)
Example sha256_empty :
  SHA256.hexdigest []
  = "e3b0c44298fc1c149afbf4c8996fb92427ae41e4649b934ca495991b7852b855".
Proof. vm_compute. reflexivity. Qed.

Example sha256_abc :
  SHA256.hexdigest (bytes_of "abc")
  = "ba7816bf8f01cfea414140de5dae2223b00361a396177a9cb410ff61f20015ad".
Proof. vm_compute. reflexivity. Qed.

Example sha256_two_blocks :
  SHA256.hexdigest
    (bytes_of "abcdbcdecdefdefgefghfghighijhijkijkljklmklmnlmnomnopnopq")
  = "248d6a61d20638b8e5c026930c3e6039a33ce45964ff2167f6ecedd419db06c1".
Proof. vm_compute. reflexivity. Qed.

Lemma hex_digit_lower x : lower_hex (SHA256.hex_digit x) = true.
Proof.
  unfold SHA256.hex_digit.
  change 15 with (Z.ones 4). rewrite Z.land_ones by lia.
  pose proof (Z.mod_pos_bound x (2 ^ 4) eq_refl) as Hb.
  destruct (x mod 2 ^ 4) as [|p|p]; [reflexivity | | lia].
  do 4 (destruct p as [p|p|]; try reflexivity); simpl in Hb; lia.
Qed.

Lemma hex_word_lower x rest :
  Forall (fun c => lower_hex c = true) (list_ascii_of_string rest) ->
  Forall (fun c => lower_hex c = true)
         (list_ascii_of_string (SHA256.hex_word x rest)).
Proof.
  intros H. unfold SHA256.hex_word. simpl.
  repeat (constructor; [apply hex_digit_lower|]). exact H.
Qed.

Lemma hexdigest_lower data :
  Forall (fun c => lower_hex c = true)
         (list_ascii_of_string (SHA256.hexdigest data)).
Proof.
  unfold SHA256.hexdigest. repeat apply hex_word_lower. constructor.
Qed.

Lemma hexdigest_length data : String.length (SHA256.hexdigest data) = 64%nat.
Proof.
  unfold SHA256.hexdigest. generalize (SHA256.digest data). intros r.
  reflexivity.
Qed.

Lemma hexdigest_index data i w :
  (i < 64)%nat ->
  str_index (SHA256.hexdigest data) i w
  = (Ok (nth_char (SHA256.hexdigest data) i), w).
Proof.
  intros Hi. unfold str_index, nth_char.
  destruct (String.get i (SHA256.hexdigest data)) eqn:Hg; [reflexivity|].
  exfalso. revert Hg. rewrite <- (hexdigest_length data) in Hi.
  generalize dependent (SHA256.hexdigest data). intros s. revert i.
  induction s as [|c s IH]; intros [|i] Hi; simpl in *; try lia; try done.
  apply IH. lia.
Qed.

Lemma select_trace_None h t :
  select_trace h t = None ->
  existsb (fun r => String.eqb (Trace.sha256_hash r) h) (trace t) = false
  /\ h ∉ (Trace.sha256_hash <$> trace t).
Proof.
  unfold select_trace. rewrite fetchone_None.
  induction (trace t) as [|r rows IH]; intros H; simpl.
  - split; [done | apply not_elem_of_nil].
  - inversion H as [|? ? Hr Hrows]; subst. destruct (IH Hrows) as [He Hn].
    rewrite Hr, He. split; [done|].
    rewrite not_elem_of_cons. split; [|done].
    intros ->. by rewrite String.eqb_refl in Hr.
Qed.

Lemma select_trace_Some h t i :
  select_trace h t = Some i ->
  exists r, r ∈ trace t /\ Trace.sha256_hash r = h /\ Trace.id r = i.
Proof.
  unfold select_trace, fetchone.
  destruct (find _ (trace t)) as [r|] eqn:Hf; simpl; [|done].
  intros [= <-]. apply find_some in Hf as [Hin Heq].
  exists r. split; [by apply list_elem_of_In|].
  split; [by apply String.eqb_eq | done].
Qed.

(** What archiving downloaded bytes does: with a row of that digest in the
    trace table it returns the row's id and changes nothing; otherwise it
    writes the file, inserts the row and returns the new id. *)
Lemma archive_trace_run archive_root downloaded_at name data w :
  archive_trace archive_root downloaded_at name data w
  = match select_trace (SHA256.hexdigest data) (session w) with
    | Some existing => (Ok (Some existing), w)
    | None =>
        (Ok (Some (next_rowid (Trace.id <$> trace (session w)))),
         World (durable w)
               (set_trace
                  (trace (session w)
                   ++ [Trace.Row (next_rowid (Trace.id <$> trace (session w)))
                                 downloaded_at (to_sql name)
                                 (SHA256.hexdigest data)])
                  (session w))
               (<[archive_file archive_root (SHA256.hexdigest data) := data]>
                  (files w))
               (dirs w ∪ list_to_set
                  (with_parents
                     (removelast (archive_file archive_root
                                               (SHA256.hexdigest data)))))
               (requests w) (ticks w))
    end.
Proof.
  unfold archive_trace. unfold bind at 1. unfold get_session at 1.
  destruct (select_trace (SHA256.hexdigest data) (session w)) eqn:Hsel;
    [reflexivity|].
  destruct (select_trace_None _ _ Hsel) as [Hex _].
  rewrite (bind_ok _ _ _ _ _ (hexdigest_index data 0 w ltac:(lia))).
  rewrite (bind_ok _ _ _ _ _ (hexdigest_index data 1 w ltac:(lia))).
  unfold bind, write_file, insert_trace, bind, get_session, put_session.
  simpl_world. rewrite Hex. simpl_world.
  unfold select_trace in *. simpl_world.
  rewrite (fetchone_app_new _ _ _ _ Hsel) by apply String.eqb_refl.
  reflexivity.
Qed.

Lemma download_run E archive_root fd w flight_id name :
  fd !! "FlightID" = Some flight_id ->
  fd !! "LoggerFile" = Some name ->
  download_and_archive_trace E archive_root fd w
  = match http E (trace_url E flight_id) ∅ with
    | None => (Ok None, after_download (trace_url E flight_id) w)
    | Some r =>
        archive_trace archive_root (clock E (ticks w)) name (content r)
                      (after_download (trace_url E flight_id) w)
    end.
Proof.
  intros Hid Hname. unfold download_and_archive_trace.
  rewrite (bind_ok _ _ _ _ _ (getitem_ok _ _ _ w Hid)).
  rewrite (bind_ok _ _ _ _ _ (getitem_ok _ _ _ w Hname)).
  unfold bind at 1. unfold now at 1.
  unfold bind at 1. unfold try_except, bind, requests_get, after_download, ret.
  simpl_world.
  destruct (http E (trace_url E flight_id) ∅) as [r|]; reflexivity.
Qed.

Lemma filter_absent {A B} `{EqDecision B} (f : A -> B) (l : list A) b :
  b ∉ f <$> l -> filter (fun r => f r = b) l = [].
Proof.
  induction l as [|a l IH]; intros Hn; [reflexivity|].
  rewrite fmap_cons, not_elem_of_cons in Hn. destruct Hn as [Hne Hn].
  rewrite filter_cons, decide_False by congruence. by apply IH.
Qed.

Lemma NoDup_filter_one {A B} `{EqDecision B} (f : A -> B) (l : list A) x :
  NoDup (f <$> l) -> x ∈ l ->
  length (filter (fun r => f r = f x) l) = 1%nat.
Proof.
  induction l as [|a l IH]; intros Hnd Hin; [by apply elem_of_nil in Hin|].
  rewrite fmap_cons in Hnd. apply NoDup_cons in Hnd as [Hnotin Hnd].
  rewrite filter_cons. apply elem_of_cons in Hin as [->|Hin].
  - rewrite decide_True by done. simpl. by rewrite filter_absent.
  - rewrite decide_False.
    + by apply IH.
    + intros Heq. apply Hnotin. rewrite Heq. by apply list_elem_of_fmap_2.
Qed.

(** Archiving keeps the digests of the trace table distinct. *)
Lemma archive_trace_unique archive_root downloaded_at name data w r w' :
  unique_hashes (session w) ->
  archive_trace archive_root downloaded_at name data w = (r, w') ->
  unique_hashes (session w').
Proof.
  intros Hu. rewrite archive_trace_run.
  destruct (select_trace _ _) eqn:Hsel; intros [= <- <-]; [done|].
  unfold unique_hashes in *. simpl_world.
  rewrite fmap_app. apply NoDup_app. split; [done|]. split.
  - intros h Hin Hin'. simpl in Hin'. apply list_elem_of_singleton in Hin'.
    subst h. by apply select_trace_None in Hsel as [_ Hn].
  - simpl. apply NoDup_singleton.
Qed.

(** C5.  Two archive calls that download the same bytes, for the same or
    for different flight records: the first returns a trace id; the second,
    run after it, finds the row by the SHA-256 digest of the bytes and
    returns the same id, leaving the database (session and committed), the
    files and the directories as the first call left them.  The trace
    table, whose digests were distinct, then holds exactly one row with
    that digest and its digests are still distinct. *)
Theorem archive_same_bytes_once (E : env) (archive_root : path)
    (fd1 fd2 : flight_record) (id1 id2 name1 name2 : pyval)
    (r1 r2 : response) (w : world) :
  fd1 !! "FlightID" = Some id1 -> fd1 !! "LoggerFile" = Some name1 ->
  fd2 !! "FlightID" = Some id2 -> fd2 !! "LoggerFile" = Some name2 ->
  http E (trace_url E id1) ∅ = Some r1 ->
  http E (trace_url E id2) ∅ = Some r2 ->
  content r1 = content r2 ->
  unique_hashes (session w) ->
  exists (i : Z) (w1 w2 : world),
    download_and_archive_trace E archive_root fd1 w = (Ok (Some i), w1)
    /\ download_and_archive_trace E archive_root fd2 w1 = (Ok (Some i), w2)
    /\ select_trace (SHA256.hexdigest (content r1)) (session w1) = Some i
    /\ session w2 = session w1
    /\ durable w2 = durable w1
    /\ files w2 = files w1
    /\ dirs w2 = dirs w1
    /\ length (traces_with (SHA256.hexdigest (content r1)) (session w2)) = 1%nat
    /\ unique_hashes (session w2).
Proof.
  intros Hid1 Hn1 Hid2 Hn2 Hr1 Hr2 Hc Hu.
  pose proof (download_run E archive_root fd1 w _ _ Hid1 Hn1) as H1.
  rewrite Hr1 in H1.
  assert (exists i w1,
    download_and_archive_trace E archive_root fd1 w = (Ok (Some i), w1)
    /\ select_trace (SHA256.hexdigest (content r1)) (session w1) = Some i
    /\ unique_hashes (session w1)) as (i & w1 & Hrun1 & Hsel1 & Hu1).
  { rewrite H1.
    pose proof (archive_trace_unique archive_root (clock E (ticks w)) name1
                  (content r1) (after_download (trace_url E id1) w)) as Hpres.
    revert Hpres. rewrite archive_trace_run. unfold after_download.
    simpl_world.
    destruct (select_trace _ (session w)) as [i|] eqn:Hsel; intros Hpres.
    - exists i. eexists. split; [reflexivity|]. simpl_world.
      by split.
    - eexists. eexists. split; [reflexivity|]. simpl_world. split.
      + unfold select_trace in *. simpl_world.
        by rewrite (fetchone_app_new _ _ _ _ Hsel) by apply String.eqb_refl.
      + exact (Hpres _ _ Hu eq_refl). }
  pose proof (download_run E archive_root fd2 w1 _ _ Hid2 Hn2) as H2.
  rewrite Hr2, archive_trace_run, <- Hc in H2.
  unfold after_download in H2. simpl_world. rewrite Hsel1 in H2.
  exists i, w1. eexists. split; [exact Hrun1|]. split; [exact H2|].
  simpl_world. repeat split; try done.
  destruct (select_trace_Some _ _ _ Hsel1) as (row & Hin & Hh & _).
  unfold traces_with. rewrite <- Hh.
  by apply (NoDup_filter_one Trace.sha256_hash).
Qed.

Lemma archive_same_bytes_once_witness :
  exists (i : Z) (w1 w2 : world),
    download_and_archive_trace sample_env ["traces"]
      (sample_record 7 "a.igc") empty_world = (Ok (Some i), w1)
    /\ download_and_archive_trace sample_env ["traces"]
         (sample_record 8 "b.igc") w1 = (Ok (Some i), w2)
    /\ select_trace (SHA256.hexdigest (bytes_of "hello")) (session w1) = Some i
    /\ session w2 = session w1
    /\ durable w2 = durable w1
    /\ files w2 = files w1
    /\ dirs w2 = dirs w1
    /\ length (traces_with (SHA256.hexdigest (bytes_of "hello")) (session w2))
       = 1%nat
    /\ unique_hashes (session w2).
Proof.
  apply (archive_same_bytes_once sample_env ["traces"]
           (sample_record 7 "a.igc") (sample_record 8 "b.igc")
           (PInt 7) (PInt 8) (PStr "a.igc") (PStr "b.igc")
           (Response (bytes_of "hello") None)
           (Response (bytes_of "hello") None) empty_world);
    try (vm_compute; reflexivity).
  vm_compute. constructor.
Defined.

(** C6.  Bytes that were downloaded for a flight have a digest [h] of 64
    lowercase hexadecimal characters, and the call returns a trace id.
    With no trace row of that digest yet, the bytes are stored: the files
    afterwards are those of before, with
    [<archive_root>/<h[0]>/<h[1]>/<h>] holding exactly the downloaded
    bytes.  With a trace row of that digest, the id returned is that
    row's and nothing is written: files and directories are as before,
    whether or not the archive holds the bytes. *)
Theorem archive_path_and_contents (E : env) (archive_root : path)
    (fd : flight_record) (flight_id name : pyval) (r : response) (w : world) :
  fd !! "FlightID" = Some flight_id ->
  fd !! "LoggerFile" = Some name ->
  http E (trace_url E flight_id) ∅ = Some r ->
  let h := SHA256.hexdigest (content r) in
  String.length h = 64%nat
  /\ Forall (fun c => lower_hex c = true) (list_ascii_of_string h)
  /\ exists (i : Z) (w' : world),
       download_and_archive_trace E archive_root fd w = (Ok (Some i), w')
       /\ match select_trace h (session w) with
          | None =>
              files w'
              = <[archive_root ++ [nth_char h 0; nth_char h 1; h] := content r]>
                  (files w)
          | Some existing =>
              i = existing /\ files w' = files w /\ dirs w' = dirs w
          end.
Proof.
  intros Hid Hname Hr h.
  split; [apply hexdigest_length|]. split; [apply hexdigest_lower|].
  rewrite (download_run E archive_root fd w _ _ Hid Hname), Hr.
  rewrite archive_trace_run. unfold after_download. simpl_world. fold h.
  destruct (select_trace h (session w)) as [i|] eqn:Hsel.
  - exists i. eexists. split; [reflexivity|]. by simpl_world.
  - eexists. eexists. split; [reflexivity|]. by simpl_world.
Qed.

Lemma archive_path_and_contents_witness :
  let h := SHA256.hexdigest (bytes_of "hello") in
  String.length h = 64%nat
  /\ Forall (fun c => lower_hex c = true) (list_ascii_of_string h)
  /\ exists (i : Z) (w' : world),
       download_and_archive_trace sample_env ["traces"]
         (sample_record 7 "a.igc") empty_world = (Ok (Some i), w')
       /\ files w'
          = <[["traces"] ++ [nth_char h 0; nth_char h 1; h] := bytes_of "hello"]>
              (files empty_world).
Proof.
  intros h.
  destruct (archive_path_and_contents sample_env ["traces"]
              (sample_record 7 "a.igc") (PInt 7) (PStr "a.igc")
              (Response (bytes_of "hello") None) empty_world)
    as (Hlen & Hlow & i & w' & Hrun & Hfiles);
    [vm_compute; reflexivity..|].
  split; [exact Hlen|]. split; [exact Hlow|].
  exists i, w'. split; [exact Hrun | exact Hfiles].
Defined.

(** C6 does not hold as it is stated.  Once the bytes [hello] have been
    archived for flight 7 under [traces], the archiver run for flight 8
    under the root [elsewhere] downloads the same bytes, returns the id
    of the trace row and stores nothing: no file
    [elsewhere/<h[0]>/<h[1]>/<h>] exists afterwards. *)
Lemma archive_skips_stored_digest :
  let h := SHA256.hexdigest (bytes_of "hello") in
  let w1 := snd (download_and_archive_trace sample_env ["traces"]
                   (sample_record 7 "a.igc") empty_world) in
  let run := download_and_archive_trace sample_env ["elsewhere"]
               (sample_record 8 "b.igc") w1 in
  (content <$> http sample_env (trace_url sample_env (PInt 8)) ∅)
  = Some (bytes_of "hello")
  /\ fst run = Ok (Some 1)
  /\ files (snd run) !! (["elsewhere"] ++ [nth_char h 0; nth_char h 1; h])
     = None
  /\ fst <$> map_to_list (files (snd run))
     = [["traces"] ++ [nth_char h 0; nth_char h 1; h]].
Proof. vm_compute. repeat split. Qed.

(** The known input of the specification's section 8. *)
Example archive_hello :
  archive_file ["traces"] (SHA256.hexdigest (bytes_of "hello"))
  = ["traces"; "2"; "c";
     "2cf24dba5fb0a30e26e83b2ac5b9e29e1b161e5c1fa7425e73043362938b9824"]
  /\ map_to_list
       (files (snd (download_and_archive_trace sample_env ["traces"]
                      (sample_record 7 "a.igc") empty_world)))
     = [(["traces"; "2"; "c";
          "2cf24dba5fb0a30e26e83b2ac5b9e29e1b161e5c1fa7425e73043362938b9824"],
         bytes_of "hello")].
Proof. split; vm_compute; reflexivity. Qed.

(* ===================================================================== *)
(** * SQL equality and UNIQUE columns                                     *)
(* ===================================================================== *)

Lemma dyadic_eqb_shift m1 e1 m2 e2 c :
  c <= e1 -> c <= e2 ->
  dyadic_eqb m1 e1 m2 e2 = true <-> m1 * 2 ^ (e1 - c) = m2 * 2 ^ (e2 - c).
Proof.
  intros H1 H2. unfold dyadic_eqb. rewrite Z.eqb_eq.
  set (e := Z.min e1 e2).
  assert (c <= e) by (subst e; lia).
  replace (e1 - c) with ((e1 - e) + (e - c)) by lia.
  replace (e2 - c) with ((e2 - e) + (e - c)) by lia.
  rewrite !Z.pow_add_r by (subst e; lia).
  assert (0 < 2 ^ (e - c)) by (apply Z.pow_pos_nonneg; lia).
  rewrite !Z.mul_assoc. split; [congruence|].
  intros Heq. apply Z.mul_reg_r in Heq; [done | lia].
Qed.

Lemma dyadic_eqb_sym m1 e1 m2 e2 :
  dyadic_eqb m1 e1 m2 e2 = dyadic_eqb m2 e2 m1 e1.
Proof. unfold dyadic_eqb. rewrite (Z.min_comm e1 e2). apply Z.eqb_sym. Qed.

Lemma dyadic_eqb_trans m1 e1 m2 e2 m3 e3 :
  dyadic_eqb m1 e1 m2 e2 = true -> dyadic_eqb m2 e2 m3 e3 = true ->
  dyadic_eqb m1 e1 m3 e3 = true.
Proof.
  set (c := Z.min e1 (Z.min e2 e3)).
  rewrite (dyadic_eqb_shift m1 e1 m2 e2 c), (dyadic_eqb_shift m2 e2 m3 e3 c),
          (dyadic_eqb_shift m1 e1 m3 e3 c) by (subst c; lia).
  congruence.
Qed.

Lemma dyadic_eqb_int x y : dyadic_eqb x 0 y 0 = (x =? y).
Proof. unfold dyadic_eqb. simpl. by rewrite !Z.mul_1_r. Qed.

Lemma sql_eq_sym a b : sql_eq a b = sql_eq b a.
Proof.
  destruct a, b; simpl; try reflexivity;
    auto using Z.eqb_sym, dyadic_eqb_sym, String.eqb_sym.
Qed.

Lemma sql_eq_trans a b c :
  sql_eq a b = true -> sql_eq b c = true -> sql_eq a c = true.
Proof.
  destruct a, b, c; simpl; try discriminate;
    rewrite <- ?dyadic_eqb_int, ?String.eqb_eq; try congruence;
    eauto using dyadic_eqb_trans.
Qed.

Lemma unique_col_app {R} (col : R -> sqlval) (rows : list R) r :
  unique_col col rows = true ->
  unique_ok col (col r) rows = true ->
  unique_col col (rows ++ [r]) = true.
Proof.
  unfold unique_ok. induction rows as [|r' rows IH]; simpl; [done|].
  rewrite !andb_true_iff, negb_true_iff, orb_false_iff.
  intros [Hall Hu] [Hr' Hex]. split.
  - rewrite forallb_app, Hall. simpl. by rewrite Hr'.
  - apply IH; [done | by rewrite Hex].
Qed.

(** Under a UNIQUE column a value selects at most one row. *)
Lemma unique_col_selected {R} (col : R -> sqlval) (rows : list R) v :
  unique_col col rows = true ->
  (length (selected (fun r => sql_eq (col r) v) rows) <= 1)%nat.
Proof.
  unfold selected. induction rows as [|r rows IH]; simpl; [lia|].
  rewrite andb_true_iff. intros [Hall Hu].
  destruct (sql_eq (col r) v) eqn:Hr; [|by apply IH].
  simpl. assert (List.filter (fun r => sql_eq (col r) v) rows = []) as ->;
    [|simpl; lia].
  clear IH Hu. induction rows as [|r' rows IH]; simpl; [done|].
  simpl in Hall. apply andb_true_iff in Hall as [Hne Hall].
  destruct (sql_eq (col r') v) eqn:Hr'; [|by apply IH].
  rewrite sql_eq_sym in Hr'.
  by rewrite (sql_eq_trans _ _ _ Hr Hr') in Hne.
Qed.

Lemma selected_app {R} (cond : R -> bool) (rows more : list R) :
  selected cond (rows ++ more) = selected cond rows ++ selected cond more.
Proof. unfold selected. apply List.filter_app. Qed.

Lemma selected_none {R} (rowid : R -> Z) (cond : R -> bool) (rows : list R) :
  fetchone rowid cond rows = None -> selected cond rows = [].
Proof.
  rewrite fetchone_None. unfold selected.
  induction 1 as [|r rows Hr _ IH]; simpl; [done|]. by rewrite Hr.
Qed.

Lemma selected_some {R} (rowid : R -> Z) (cond : R -> bool) (rows : list R) i :
  fetchone rowid cond rows = Some i ->
  (1 <= length (selected cond rows))%nat.
Proof.
  unfold fetchone, selected. induction rows as [|r rows IH]; simpl; [done|].
  destruct (cond r); simpl; [lia | apply IH].
Qed.

Lemma selected_weaken {R} (c1 c2 : R -> bool) (rows : list R) :
  (forall r, c1 r = true -> c2 r = true) ->
  (length (selected c1 rows) <= length (selected c2 rows))%nat.
Proof.
  intros Himp. unfold selected. induction rows as [|r rows IH]; simpl; [lia|].
  destruct (c1 r) eqn:H1.
  - rewrite (Himp r H1). simpl. lia.
  - destruct (c2 r); simpl; lia.
Qed.

(* ===================================================================== *)
(** * Entity resolution                                                   *)
(* ===================================================================== *)

(** Re-selecting a row that was just appended: the rows before it do not
    match, and the new one does unless the value is NULL. *)
Lemma fetchone_reselect {R} (rowid : R -> Z) (col : R -> sqlval) v
    (rows : list R) r :
  unique_ok col v rows = true -> col r = v ->
  fetchone rowid (fun r => sql_eq (col r) v) (rows ++ [r])
  = if decide (v = VNull) then None else Some (rowid r).
Proof.
  intros Hu Hr. apply (unique_ok_fetchone rowid) in Hu.
  destruct (decide (v = VNull)) as [->|Hv].
  - apply fetchone_None. apply Forall_app. split.
    + by apply fetchone_None in Hu.
    + constructor; [|constructor]. by destruct (col r).
  - apply fetchone_app_new; [done|]. rewrite Hr. by apply sql_eq_refl.
Qed.

Lemma get_or_create_club_run code w :
  get_or_create_club code w
  = match fetchone Club.id (is_club (to_sql code)) (club (session w)) with
    | Some existing => (Ok existing, w)
    | None =>
        let i := next_rowid (Club.id <$> club (session w)) in
        (if decide (to_sql code = VNull) then Raise TypeError else Ok i,
         with_session
           (set_club (club (session w) ++ [Club.Row i VNull VNull (to_sql code)])
                     (session w)) w)
    end.
Proof.
  unfold get_or_create_club, is_club. unfold bind at 1, get_session at 1.
  destruct (fetchone _ _ (club (session w))) as [i|] eqn:Hsel; [reflexivity|].
  pose proof (proj2 (unique_ok_fetchone Club.id Club.ladder_code _ _) Hsel) as Hu.
  unfold insert_club, bind, get_session, put_session. rewrite Hu. simpl_world.
  rewrite (fetchone_reselect Club.id Club.ladder_code) by done.
  by destruct (decide (to_sql code = VNull)).
Qed.

Lemma get_or_create_glider_run reg model_id w :
  get_or_create_glider reg model_id w
  = match fetchone Glider.id (fun r => sql_eq (Glider.reg r) (to_sql reg))
            (glider (session w)) with
    | Some existing => (Ok existing, w)
    | None =>
        let i := next_rowid (Glider.id <$> glider (session w)) in
        (if decide (to_sql reg = VNull) then Raise TypeError else Ok i,
         with_session
           (set_glider (glider (session w)
                        ++ [Glider.Row i (to_sql reg) (VInt model_id)])
                       (session w)) w)
    end.
Proof.
  unfold get_or_create_glider. unfold bind at 1, get_session at 1.
  destruct (fetchone _ _ (glider (session w))) as [i|] eqn:Hsel; [reflexivity|].
  pose proof (proj2 (unique_ok_fetchone Glider.id Glider.reg _ _) Hsel) as Hu.
  unfold insert_glider, bind, get_session, put_session. rewrite Hu. simpl_world.
  rewrite (fetchone_reselect Glider.id Glider.reg) by done.
  by destruct (decide (to_sql reg = VNull)).
Qed.

Lemma get_or_create_pilot_run forename surname ladder_id w :
  get_or_create_pilot forename surname ladder_id w
  = match fetchone Pilot.id
            (is_pilot (to_sql forename) (to_sql surname) (to_sql ladder_id))
            (pilot (session w)) with
    | Some existing => (Ok existing, w)
    | None =>
        if unique_ok Pilot.ladder_id (to_sql ladder_id) (pilot (session w))
        then
          let i := next_rowid (Pilot.id <$> pilot (session w)) in
          (if decide (to_sql ladder_id = VNull) then Raise TypeError else Ok i,
           with_session
             (set_pilot (pilot (session w)
                         ++ [Pilot.Row i (to_sql forename) (to_sql surname)
                                       (to_sql ladder_id)])
                        (session w)) w)
        else (Raise IntegrityError, w)
    end.
Proof.
  unfold get_or_create_pilot, is_pilot. unfold bind at 1, get_session at 1.
  destruct (fetchone _ _ (pilot (session w))) as [i|] eqn:Hsel; [reflexivity|].
  unfold insert_pilot, bind, get_session, put_session.
  destruct (unique_ok Pilot.ladder_id (to_sql ladder_id) (pilot (session w)))
    eqn:Hu; [|reflexivity].
  simpl_world.
  rewrite (fetchone_reselect Pilot.id Pilot.ladder_id) by done.
  by destruct (decide (to_sql ladder_id = VNull)).
Qed.

Lemma get_or_create_glider_model_run model_name bgal_model_id w :
  get_or_create_glider_model model_name bgal_model_id w
  = match fetchone GliderModel.id
            (fun r => sql_eq (GliderModel.model_name r) (to_sql model_name))
            (glider_model (session w)) with
    | Some existing => (Ok existing, w)
    | None =>
        if unique_ok GliderModel.ladder_id (to_sql bgal_model_id)
                     (glider_model (session w))
        then
          let i := next_rowid (GliderModel.id <$> glider_model (session w)) in
          (if decide (to_sql bgal_model_id = VNull) then Raise TypeError
           else Ok i,
           with_session
             (set_glider_model
                (glider_model (session w)
                 ++ [GliderModel.Row i (to_sql model_name) VNull VNull VNull
                                     VNull (to_sql bgal_model_id)])
                (session w)) w)
        else (Raise IntegrityError, w)
    end.
Proof.
  unfold get_or_create_glider_model. unfold bind at 1, get_session at 1.
  destruct (fetchone _ _ (glider_model (session w))) as [i|] eqn:Hsel;
    [reflexivity|].
  unfold insert_glider_model, bind, get_session, put_session.
  destruct (unique_ok GliderModel.ladder_id (to_sql bgal_model_id)
              (glider_model (session w))) eqn:Hu; [|reflexivity].
  simpl_world.
  rewrite (fetchone_reselect GliderModel.id GliderModel.ladder_id) by done.
  by destruct (decide (to_sql bgal_model_id = VNull)).
Qed.

Lemma selected_one_old {R} (rowid : R -> Z) (col : R -> sqlval)
    (cond : R -> bool) v (rows : list R) i :
  unique_col col rows = true ->
  (forall r, cond r = true -> sql_eq (col r) v = true) ->
  fetchone rowid cond rows = Some i ->
  length (selected cond rows) = 1%nat.
Proof.
  intros Hu Himp Hsel.
  pose proof (selected_some _ _ _ _ Hsel).
  pose proof (selected_weaken cond (fun r => sql_eq (col r) v) rows Himp).
  pose proof (unique_col_selected col rows v Hu). lia.
Qed.

Lemma selected_one_new {R} (rowid : R -> Z) (cond : R -> bool)
    (rows : list R) r :
  fetchone rowid cond rows = None -> cond r = true ->
  length (selected cond (rows ++ [r])) = 1%nat.
Proof.
  intros Hsel Hr. rewrite selected_app, (selected_none _ _ _ Hsel).
  unfold selected. simpl. by rewrite Hr.
Qed.





(* ===================================================================== *)
(** * Flight ingestion                                                    *)
(* ===================================================================== *)

Lemma keeps_refl w : keeps w w.
Proof. by repeat split. Qed.

Lemma keeps_trans w1 w2 w3 : keeps w1 w2 -> keeps w2 w3 -> keeps w1 w3.
Proof. unfold keeps. intros (-> & -> & ->) (-> & -> & ->). done. Qed.

Lemma get_or_create_pilot_keeps f s l w r w' :
  get_or_create_pilot f s l w = (r, w') -> keeps w w'.
Proof.
  rewrite get_or_create_pilot_run.
  repeat case_match; intros [= <- <-]; by repeat split.
Qed.

Lemma get_or_create_club_keeps c w r w' :
  get_or_create_club c w = (r, w') -> keeps w w'.
Proof.
  rewrite get_or_create_club_run.
  repeat case_match; intros [= <- <-]; by repeat split.
Qed.

Lemma get_or_create_glider_model_keeps n i w r w' :
  get_or_create_glider_model n i w = (r, w') -> keeps w w'.
Proof.
  rewrite get_or_create_glider_model_run.
  repeat case_match; intros [= <- <-]; by repeat split.
Qed.

Lemma get_or_create_glider_keeps g m w r w' :
  get_or_create_glider g m w = (r, w') -> keeps w w'.
Proof.
  rewrite get_or_create_glider_run.
  repeat case_match; intros [= <- <-]; by repeat split.
Qed.

Lemma archive_trace_keeps root t0 name data w r w' :
  archive_trace root t0 name data w = (r, w') -> keeps w w'.
Proof.
  rewrite archive_trace_run.
  repeat case_match; intros [= <- <-]; by repeat split.
Qed.

Lemma download_keeps E root fd w r w' :
  download_and_archive_trace E root fd w = (r, w') -> keeps w w'.
Proof.
  destruct (fd !! "FlightID") as [flight_id|] eqn:Hid.
  - destruct (fd !! "LoggerFile") as [name|] eqn:Hname.
    + rewrite (download_run _ _ _ _ _ _ Hid Hname).
      destruct (http E _ ∅).
      * intros H. apply archive_trace_keeps in H.
        eapply keeps_trans; [|exact H]. by repeat split.
      * intros [= <- <-]. by repeat split.
    + unfold download_and_archive_trace.
      rewrite (bind_ok _ _ _ _ _ (getitem_ok _ _ _ w Hid)).
      unfold bind, getitem. rewrite Hname. intros [= <- <-]. apply keeps_refl.
  - unfold download_and_archive_trace, bind, getitem. rewrite Hid.
    intros [= <- <-]. apply keeps_refl.
Qed.

(** With a flight row of that ladder id in the session, ingestion stops at
    the existence check: it raises [ExistingFlight] in the very world it
    was called in. *)
Lemma insert_bga_flight_skip E root fd t w v i :
  fd !! "FlightID" = Some v ->
  select_flight (to_sql v) (session w) = Some i ->
  insert_bga_flight E root fd t w = (Raise ExistingFlight, w).
Proof.
  intros Hid Hsel. unfold insert_bga_flight.
  rewrite (bind_ok _ _ _ _ _ (getitem_ok _ _ _ w Hid)).
  unfold bind at 1, get_session at 1. by rewrite Hsel.
Qed.

Ltac inv_bind H x w' Hm := apply bind_ok_inv in H as (x & w' & Hm & H).

Ltac inv_getitem H x :=
  let w' := fresh "w" in
  let Hm := fresh "Hkey" in
  inv_bind H x w' Hm; apply getitem_ok_inv in Hm as [Hm ->].

Lemma parse_flight_date_ok_inv E v d w w' :
  parse_flight_date E v w = (Ok d, w') ->
  w' = w /\ exists s, v = PStr s /\ strptime E s = Some d.
Proof.
  unfold parse_flight_date.
  destruct v as [| | | |s]; try (intros [=]; fail).
  destruct (strptime E s) eqn:Hs; intros [= <- <-]. eauto.
Qed.

Lemma insert_flight_ok_inv r v w w' :
  insert_flight r v w = (Ok tt, w') ->
  unique_ok Flight.ladder_id v (flight (session w)) = true
  /\ w' = with_session
            (set_flight (flight (session w)
                         ++ [r (next_rowid (Flight.id <$> flight (session w)))])
                        (session w)) w.
Proof.
  unfold insert_flight, bind, get_session, put_session.
  destruct (unique_ok _ _ _); intros [= <-]. done.
Qed.

Lemma count_distinct_task_ids_ext t t' :
  task t' = task t -> count_distinct_task_ids t' = count_distinct_task_ids t.
Proof. unfold count_distinct_task_ids. by intros ->. Qed.

(** What a successful ingestion has done. *)
Lemma insert_bga_flight_ok_inv E root fd t w w1 :
  insert_bga_flight E root fd t w = (Ok tt, w1) ->
  exists v row codes,
    fd !! "FlightID" = Some v
    /\ select_flight (to_sql v) (session w) = None
    /\ turnpoints fd = Some codes
    /\ flight (session w1) = flight (session w) ++ [row]
    /\ task (session w1)
       = task (session w) ++ task_rows (count_distinct_task_ids (session w)) codes
    /\ durable w1 = session w1
    /\ Flight.ladder_id row = to_sql v
    /\ Flight.task row = count_distinct_task_ids (session w)
    /\ Flight.scraped_at row = t.
Proof.
  unfold insert_bga_flight. intros H.
  inv_getitem H v.
  unfold bind at 1, get_session at 1 in H.
  destruct (select_flight (to_sql v) (session w)) eqn:Hsel; [discriminate|].
  inv_getitem H forename. inv_getitem H surname. inv_getitem H pilot_ladder_id.
  inv_bind H pilot_id wa Ha. apply get_or_create_pilot_keeps in Ha.
  inv_getitem H club_code.
  inv_bind H club_id wb Hb. apply get_or_create_club_keeps in Hb.
  inv_getitem H glider_name. inv_getitem H glider_code.
  inv_bind H glider_model_id wc Hc. apply get_or_create_glider_model_keeps in Hc.
  inv_getitem H registration.
  inv_bind H glider_id wd Hd. apply get_or_create_glider_keeps in Hd.
  inv_bind H trace_id we He. apply download_keeps in He.
  assert (keeps w we) as (Hfl & Htk & Hdur)
    by eauto using keeps_trans.
  clear Ha Hb Hc Hd He.
  inv_bind H task_id wf Hf.
  destruct (insert_task_run fd we) as (codes & Hcodes & Hrun).
  rewrite Hrun in Hf. injection Hf as <- <-.
  inv_getitem H date_text.
  inv_bind H flight_date wg Hg. apply parse_flight_date_ok_inv in Hg as [-> _].
  inv_getitem H weekend. inv_getitem H junior. inv_getitem H height.
  inv_getitem H two_seater. inv_getitem H wood.
  inv_bind H wooden wh Hh.
  assert (wh = with_session
                 (set_task (task (session we)
                            ++ task_rows (count_distinct_task_ids (session we))
                                         codes) (session we)) we) as ->.
  { destruct (truthy wood); [by injection Hh as _ <-|].
    by apply getitem_ok_inv in Hh as [_ ->]. }
  inv_getitem H engine. inv_getitem H penalty. inv_getitem H speed.
  inv_getitem H handicap_speed. inv_getitem H scoring_distance.
  inv_getitem H speed_points. inv_getitem H height_gain.
  inv_getitem H height_points. inv_getitem H total_points.
  inv_bind H u wi Hi. destruct u. apply insert_flight_ok_inv in Hi as [_ ->].
  unfold commit in H. injection H as <-. simpl_world.
  rewrite (count_distinct_task_ids_ext _ _ Htk), Hfl, Htk.
  eexists v, _, codes. repeat split; try done.
Qed.

Lemma fetchone_found {R} (rowid : R -> Z) (cond : R -> bool) (rows : list R) r :
  r ∈ rows -> cond r = true -> exists i, fetchone rowid cond rows = Some i.
Proof.
  intros Hin Hc. destruct (fetchone rowid cond rows) as [i|] eqn:Hf; [eauto|].
  apply fetchone_None in Hf. rewrite Forall_forall in Hf.
  specialize (Hf r Hin). congruence.
Qed.

(** C1.  A record whose ladder id already has a flight row is skipped:
    [insert_bga_flight] raises [ExistingFlight] and the world it returns
    is the world it was given, so nothing was resolved, downloaded,
    written or inserted.  Hence, once a record has been ingested, ingesting
    it again raises [ExistingFlight], changes nothing, and the flight
    table, in the session and as committed, holds exactly one row with the
    record's ladder id. *)
Theorem insert_bga_flight_skips_existing (E : env) (archive_root : path)
    (fd : flight_record) (v : pyval) (scraped_at scraped_again : datetime)
    (w : world) :
  fd !! "FlightID" = Some v ->
  ((exists r, r ∈ flight (session w)
              /\ sql_eq (Flight.ladder_id r) (to_sql v) = true) ->
   insert_bga_flight E archive_root fd scraped_at w = (Raise ExistingFlight, w))
  /\
  (forall w1,
     to_sql v <> VNull ->
     insert_bga_flight E archive_root fd scraped_at w = (Ok tt, w1) ->
     insert_bga_flight E archive_root fd scraped_again w1
     = (Raise ExistingFlight, w1)
     /\ length (flights_with (to_sql v) (session w1)) = 1%nat
     /\ length (flights_with (to_sql v) (durable w1)) = 1%nat).
Proof.
  intros Hid. split.
  - intros (r & Hin & Heq).
    destruct (fetchone_found Flight.id
                (fun r => sql_eq (Flight.ladder_id r) (to_sql v))
                _ r Hin Heq) as [i Hi].
    by apply (insert_bga_flight_skip E archive_root fd scraped_at w v i).
  - intros w1 Hv Hrun.
    apply insert_bga_flight_ok_inv in Hrun
      as (v' & row & codes & Hid' & Hsel & _ & Hfl & _ & Hdur & Hlid & _).
    rewrite Hid in Hid'. injection Hid' as <-.
    assert (sql_eq (Flight.ladder_id row) (to_sql v) = true) as Hrow
      by (rewrite Hlid; by apply sql_eq_refl).
    split; [|split].
    + apply (insert_bga_flight_skip E archive_root fd scraped_again w1 v
               (Flight.id row)); [done|].
      unfold select_flight in *. rewrite Hfl.
      by apply fetchone_app_new.
    + unfold flights_with. rewrite Hfl.
      by apply (selected_one_new Flight.id).
    + rewrite Hdur. unfold flights_with. rewrite Hfl.
      by apply (selected_one_new Flight.id).
Qed.

Lemma insert_bga_flight_skips_existing_witness :
  let fd := sample_record 7 "a.igc" in
  let w1 := snd (insert_bga_flight sample_env ["traces"] fd 100 empty_world) in
  insert_bga_flight sample_env ["traces"] fd 200 w1 = (Raise ExistingFlight, w1)
  /\ (insert_bga_flight sample_env ["traces"] fd 200 w1
      = (Raise ExistingFlight, w1)
      /\ length (flights_with (VInt 7) (session w1)) = 1%nat
      /\ length (flights_with (VInt 7) (durable w1)) = 1%nat).
Proof.
  intros fd w1. split.
  - destruct (insert_bga_flight_skips_existing sample_env ["traces"] fd
                (PInt 7) 200 200 w1 eq_refl) as [Hskip _].
    apply Hskip. eexists. split; [vm_compute; left | reflexivity].
  - destruct (insert_bga_flight_skips_existing sample_env ["traces"] fd
                (PInt 7) 100 200 empty_world eq_refl) as [_ Htwice].
    apply Htwice; [discriminate|].
    rewrite (surjective_pairing (insert_bga_flight _ _ _ _ _)).
    f_equal; try (vm_compute; reflexivity).
Defined.

Lemma with_session_same w : with_session (session w) w = w.
Proof. by destruct w. Qed.

Lemma set_task_same t : set_task (task t) t = t.
Proof. by destruct t. Qed.

Lemma task_ids_dense_empty : task_ids_dense empty_tables.
Proof.
  intros i.
  assert (count_distinct_task_ids empty_tables = 0) as -> by reflexivity.
  split; [|lia]. intros H. by apply elem_of_nil in H.
Qed.

Lemma task_rows_ids id codes :
  Task.id <$> task_rows id codes = replicate (length codes) id.
Proof.
  unfold task_rows.
  assert (forall (g : nat -> pyval -> Task.row),
            (forall i x, Task.id (g i x) = id) ->
            Task.id <$> imap g codes = replicate (length codes) id) as Hgen.
  { induction codes as [|c codes IH]; intros g Hg; simpl; [done|].
    rewrite Hg. f_equal. apply IH. intros i x. apply Hg. }
  by apply Hgen.
Qed.


(** Appending the rows of a new task keeps the task ids dense: they come
    under the id [n] when the ids in use are [0 .. n-1], or there are
    none of them. *)
Lemma task_ids_dense_append t codes :
  task_ids_dense t ->
  task_ids_dense
    (set_task (task t ++ task_rows (count_distinct_task_ids t) codes) t).
Proof.
  intros Hd. destruct codes as [|c codes].
  { simpl. rewrite app_nil_r. by rewrite set_task_same. }
  set (n := count_distinct_task_ids t) in *.
  assert (n ∉ (Task.id <$> task t)) as Hn by (rewrite (Hd n); lia).
  assert (count_distinct_task_ids
            (set_task (task t ++ task_rows n (c :: codes)) t) = n + 1)
    as Hcount.
  { unfold count_distinct_task_ids. simpl_world.
    rewrite fmap_app, task_rows_ids, list_to_set_app_L.
    assert (list_to_set (replicate (length (c :: codes)) n) =@{gset Z} {[ n ]})
      as ->.
    { apply set_eq. intros x. rewrite elem_of_list_to_set, elem_of_singleton.
      rewrite elem_of_replicate. simpl. split; [tauto | intros ->; split; lia]. }
    rewrite size_union, size_singleton.
    - subst n. unfold count_distinct_task_ids. lia.
    - apply disjoint_singleton_r. by rewrite elem_of_list_to_set. }
  intros i. rewrite Hcount. simpl_world.
  rewrite fmap_app, elem_of_app, task_rows_ids, elem_of_replicate, (Hd i).
  fold n. simpl.
  assert (0 <= n) by (subst n; unfold count_distinct_task_ids; lia).
  split; [intros [?|[-> _]]; lia|].
  intros Hi. destruct (decide (i = n)) as [->|]; [right | left; lia].
  split; [done | discriminate].
Qed.

(** [insert_task], and with it a successful ingestion, keeps the task ids
    dense; they are dense in an empty table. *)
Lemma insert_task_dense fd w r w' :
  task_ids_dense (session w) ->
  insert_task fd w = (r, w') ->
  task_ids_dense (session w').
Proof.
  intros Hd. destruct (insert_task_run fd w) as (codes & _ & ->).
  intros [= _ <-]. simpl_world. by apply task_ids_dense_append.
Qed.


(* ===================================================================== *)
(** * A complete ingestion                                                *)
(* ===================================================================== *)

Lemma set_pilot_same t : set_pilot (pilot t) t = t.
Proof. by destruct t. Qed.
Lemma set_club_same t : set_club (club t) t = t.
Proof. by destruct t. Qed.
Lemma set_glider_model_same t : set_glider_model (glider_model t) t = t.
Proof. by destruct t. Qed.
Lemma set_glider_same t : set_glider (glider t) t = t.
Proof. by destruct t. Qed.

Lemma dict_get_some fd key v : fd !! key = Some v -> dict_get fd key = v.
Proof. unfold dict_get. by intros ->. Qed.

Lemma has_key_some fd key :
  has_key fd key = true -> exists v, fd !! key = Some v.
Proof. unfold has_key. destruct (fd !! key); [eauto | done]. Qed.

Lemma resolves_pilot f s l w :
  resolves Pilot.id (is_pilot (to_sql f) (to_sql s) (to_sql l)) Pilot.ladder_id
           (to_sql l) (pilot (session w)) = true ->
  exists i rows,
    get_or_create_pilot f s l w
    = (Ok i, with_session (set_pilot rows (session w)) w).
Proof.
  unfold resolves. rewrite get_or_create_pilot_run.
  destruct (fetchone _ _ _) as [i|].
  - intros _. exists i, (pilot (session w)).
    by rewrite set_pilot_same, with_session_same.
  - rewrite andb_true_iff, negb_true_iff, bool_decide_eq_false.
    intros [-> Hv]. cbv zeta. destruct (decide (_ = VNull)); [done | eauto].
Qed.

Lemma resolves_club c w :
  resolves Club.id (is_club (to_sql c)) Club.ladder_code (to_sql c)
           (club (session w)) = true ->
  exists i rows,
    get_or_create_club c w = (Ok i, with_session (set_club rows (session w)) w).
Proof.
  unfold resolves. rewrite get_or_create_club_run.
  destruct (fetchone _ _ _) as [i|].
  - intros _. exists i, (club (session w)).
    by rewrite set_club_same, with_session_same.
  - rewrite andb_true_iff, negb_true_iff, bool_decide_eq_false.
    intros [_ Hv]. cbv zeta. destruct (decide (_ = VNull)); [done | eauto].
Qed.

Lemma resolves_glider_model n c w :
  resolves GliderModel.id
           (fun r => sql_eq (GliderModel.model_name r) (to_sql n))
           GliderModel.ladder_id (to_sql c) (glider_model (session w)) = true ->
  exists i rows,
    get_or_create_glider_model n c w
    = (Ok i, with_session (set_glider_model rows (session w)) w).
Proof.
  unfold resolves. rewrite get_or_create_glider_model_run.
  destruct (fetchone _ _ _) as [i|].
  - intros _. exists i, (glider_model (session w)).
    by rewrite set_glider_model_same, with_session_same.
  - rewrite andb_true_iff, negb_true_iff, bool_decide_eq_false.
    intros [-> Hv]. cbv zeta. destruct (decide (_ = VNull)); [done | eauto].
Qed.

Lemma resolves_glider g m w :
  resolves Glider.id (fun r => sql_eq (Glider.reg r) (to_sql g)) Glider.reg
           (to_sql g) (glider (session w)) = true ->
  exists i rows,
    get_or_create_glider g m w
    = (Ok i, with_session (set_glider rows (session w)) w).
Proof.
  unfold resolves. rewrite get_or_create_glider_run.
  destruct (fetchone _ _ _) as [i|].
  - intros _. exists i, (glider (session w)).
    by rewrite set_glider_same, with_session_same.
  - rewrite andb_true_iff, negb_true_iff, bool_decide_eq_false.
    intros [_ Hv]. cbv zeta. destruct (decide (_ = VNull)); [done | eauto].
Qed.

(** The download step always returns when the record names the flight and
    the logger file, and it returns [expected_trace]. *)
Lemma download_ok E root fd w flight_id name :
  fd !! "FlightID" = Some flight_id ->
  fd !! "LoggerFile" = Some name ->
  exists w',
    download_and_archive_trace E root fd w
    = (Ok (expected_trace E fd (session w)), w')
    /\ keeps w w'.
Proof.
  intros Hid Hname.
  destruct (download_and_archive_trace E root fd w) as [r w'] eqn:Hrun.
  exists w'. split; [|by eapply download_keeps].
  rewrite (download_run _ _ _ _ _ _ Hid Hname) in Hrun.
  unfold expected_trace. rewrite (dict_get_some _ _ _ Hid).
  destruct (http E _ ∅) as [resp|].
  - rewrite archive_trace_run in Hrun. unfold after_download in Hrun.
    simpl_world. destruct (select_trace _ _); by injection Hrun as <- <-.
  - by injection Hrun as <- <-.
Qed.

Lemma insert_flight_ok r v w :
  unique_ok Flight.ladder_id v (flight (session w)) = true ->
  insert_flight r v w
  = (Ok tt,
     with_session
       (set_flight (flight (session w)
                    ++ [r (next_rowid (Flight.id <$> flight (session w)))])
                   (session w)) w).
Proof.
  intros Hu. unfold insert_flight, bind, get_session, put_session.
  by rewrite Hu.
Qed.

Ltac in_keys := simpl; repeat (first [left; reflexivity | right]).

Ltac step_get Hkey :=
  rewrite (bind_ok _ _ _ _ _ (getitem_ok _ _ _ _ Hkey)).

(** An ingestible record is ingested: the call returns, appends one flight
    row and commits. *)
Lemma insert_bga_flight_run E root fd t w :
  ingestible E fd (session w) = true ->
  exists w1 row,
    insert_bga_flight E root fd t w = (Ok tt, w1)
    /\ flight (session w1) = flight (session w) ++ [row]
    /\ durable w1 = session w1
    /\ Flight.trace row = expected_trace E fd (session w)
    /\ Flight.ladder_id row = to_sql (dict_get fd "FlightID")
    /\ Flight.task row = count_distinct_task_ids (session w)
    /\ Flight.scraped_at row = t.
Proof.
  unfold ingestible, has_keys, date_parses, entities_resolve, is_new_flight.
  rewrite !andb_true_iff.
  intros ((((Hkeys & Hwooden) & Hdate) & (((Hp & Hc) & Hm) & Hg)) & Hnew).
  assert (forall k, In k required_keys -> exists v, fd !! k = Some v) as Hk.
  { intros k Hin. apply has_key_some.
    rewrite forallb_forall in Hkeys. by apply Hkeys. }
  destruct (Hk "FlightID") as [v Hv]; [in_keys|].
  destruct (Hk "Forename") as [forename Hforename]; [in_keys|].
  destruct (Hk "Surname") as [surname Hsurname]; [in_keys|].
  destruct (Hk "PilotID") as [pid Hpid]; [in_keys|].
  destruct (Hk "ClubID") as [club_code Hclub]; [in_keys|].
  destruct (Hk "Glider") as [glider_name Hglider]; [in_keys|].
  destruct (Hk "GliderCode") as [glider_code Hcode]; [in_keys|].
  destruct (Hk "Registration") as [registration Hreg]; [in_keys|].
  destruct (Hk "LoggerFile") as [logger Hlogger]; [in_keys|].
  destruct (Hk "Weekend") as [weekend Hweekend]; [in_keys|].
  destruct (Hk "Junior") as [junior Hjunior]; [in_keys|].
  destruct (Hk "Height") as [height Hheight]; [in_keys|].
  destruct (Hk "TwoSeater") as [two_seater Htwo]; [in_keys|].
  destruct (Hk "Wood") as [wood Hwood]; [in_keys|].
  destruct (Hk "Engine") as [engine Hengine]; [in_keys|].
  destruct (Hk "Penalty") as [penalty Hpenalty]; [in_keys|].
  destruct (Hk "Speed") as [speed Hspeed]; [in_keys|].
  destruct (Hk "HandicapSpeed") as [hspeed Hhspeed]; [in_keys|].
  destruct (Hk "ScoringDistance") as [dist Hdist]; [in_keys|].
  destruct (Hk "SpeedPoints") as [spoints Hspoints]; [in_keys|].
  destruct (Hk "HeightGain") as [hgain Hhgain]; [in_keys|].
  destruct (Hk "HeightPoints") as [hpoints Hhpoints]; [in_keys|].
  destruct (Hk "TotalPoints") as [tpoints Htpoints]; [in_keys|].
  clear Hk Hkeys.
  rewrite (dict_get_some _ _ _ Hforename), (dict_get_some _ _ _ Hsurname),
          (dict_get_some _ _ _ Hpid) in Hp.
  rewrite (dict_get_some _ _ _ Hclub) in Hc.
  rewrite (dict_get_some _ _ _ Hglider), (dict_get_some _ _ _ Hcode) in Hm.
  rewrite (dict_get_some _ _ _ Hreg) in Hg.
  rewrite (dict_get_some _ _ _ Hv) in Hnew |- *.
  rewrite (dict_get_some _ _ _ Hwood) in Hwooden.
  destruct (fd !! "FlightDate") as [[| | | |date_text]|] eqn:Hdt; try done.
  destruct (strptime E date_text) as [flight_date|] eqn:Hparse; [|done].
  destruct (select_flight (to_sql v) (session w)) eqn:Hsel; [done|].
  unfold insert_bga_flight.
  step_get Hv. unfold bind at 1, get_session at 1. rewrite Hsel.
  step_get Hforename. step_get Hsurname. step_get Hpid.
  destruct (resolves_pilot forename surname pid w Hp) as (pilot_id & ps & Hrun).
  rewrite (bind_ok _ _ _ _ _ Hrun). clear Hrun.
  step_get Hclub.
  destruct (resolves_club club_code (with_session (set_pilot ps (session w)) w)
              Hc) as (club_id & cs & Hrun).
  rewrite (bind_ok _ _ _ _ _ Hrun). clear Hrun.
  step_get Hglider. step_get Hcode.
  match goal with
  | |- context [bind (get_or_create_glider_model _ _) _ ?wx] =>
      destruct (resolves_glider_model glider_name glider_code wx Hm)
        as (model_id & ms & Hrun)
  end.
  rewrite (bind_ok _ _ _ _ _ Hrun). clear Hrun.
  step_get Hreg.
  match goal with
  | |- context [bind (get_or_create_glider _ _) _ ?wx] =>
      destruct (resolves_glider registration model_id wx Hg)
        as (glider_id & gs & Hrun)
  end.
  rewrite (bind_ok _ _ _ _ _ Hrun). clear Hrun.
  match goal with
  | |- context [bind (download_and_archive_trace E root fd) _ ?wd] =>
      destruct (download_ok E root fd wd _ _ Hv Hlogger)
        as (we & Hrun & Hfl & Htk & _)
  end.
  rewrite (bind_ok _ _ _ _ _ Hrun). clear Hrun. simpl_world.
  destruct (insert_task_run fd we) as (codes & _ & Hrun).
  rewrite (bind_ok _ _ _ _ _ Hrun). clear Hrun.
  step_get Hdt.
  unfold bind at 1, parse_flight_date at 1. rewrite Hparse. unfold ret at 1.
  step_get Hweekend. step_get Hjunior. step_get Hheight. step_get Htwo.
  step_get Hwood.
  assert (exists wooden,
            forall w', (if truthy wood then ret wood else getitem fd "Wooden") w'
                       = (Ok wooden, w')) as (wooden & Hrun).
  { destruct (truthy wood); [by exists wood|].
    simpl in Hwooden. apply has_key_some in Hwooden as [x Hx].
    exists x. intros w'. by apply getitem_ok. }
  rewrite (bind_ok _ _ _ _ _ (Hrun _)). clear Hrun.
  step_get Hengine. step_get Hpenalty. step_get Hspeed. step_get Hhspeed.
  step_get Hdist. step_get Hspoints. step_get Hhgain. step_get Hhpoints.
  step_get Htpoints.
  erewrite bind_ok; cycle 1.
  { apply insert_flight_ok. simpl_world. rewrite Hfl.
    by apply (unique_ok_fetchone Flight.id). }
  unfold commit. simpl_world. rewrite Hfl.
  eexists. eexists. split; [reflexivity|]. simpl_world.
  rewrite (count_distinct_task_ids_ext _ _ Htk).
  repeat split; reflexivity.
Qed.

(* ===================================================================== *)
(** * A flight without turnpoints                                         *)
(* ===================================================================== *)



(** The record of the witness ingested into an empty database: its
    flight references task 0 and the task table is empty. *)
Example ingest_without_turnpoints :
  let w1 := snd (insert_bga_flight sample_env ["traces"]
                   (sample_record_no_task 9) 100 empty_world) in
  fst (insert_bga_flight sample_env ["traces"] (sample_record_no_task 9) 100
         empty_world) = Ok tt
  /\ Flight.task <$> flight (session w1) = [0]
  /\ Flight.trace <$> flight (session w1) = [None]
  /\ task (session w1) = [].
Proof. vm_compute. repeat split. Qed.

(* ===================================================================== *)
(** * A missing trace                                                     *)
(* ===================================================================== *)

Lemma never_raises_bind {A B} e (m : M A) (k : A -> M B) :
  never_raises e m -> (forall a, never_raises e (k a)) ->
  never_raises e (bind m k).
Proof.
  intros Hm Hk w. unfold bind. specialize (Hm w).
  destruct (m w) as [[a|e'|] w']; simpl in *; [apply Hk | | done].
  intros [= ->]. by apply Hm.
Qed.

Lemma never_raises_ret {A} e (a : A) : never_raises e (ret a).
Proof. by intros w. Qed.

Lemma never_raises_raise {A} e e' : e' <> e -> never_raises e (@raise A e').
Proof. intros Hne w. simpl. congruence. Qed.

Lemma never_raises_getitem fd key : never_raises NotFound (getitem fd key).
Proof.
  unfold getitem. destruct (fd !! key);
    [apply never_raises_ret | by apply never_raises_raise].
Qed.

Lemma never_raises_try {A} e (m h : M A) :
  never_raises e h -> never_raises e (try_except m e h).
Proof.
  intros Hh w. unfold try_except.
  destruct (m w) as [[a|e'|] w']; simpl; try done.
  destruct (decide (e' = e)); [apply Hh | simpl; congruence].
Qed.

Lemma never_raises_pilot f s l :
  never_raises NotFound (get_or_create_pilot f s l).
Proof. intros w. rewrite get_or_create_pilot_run. by repeat case_match. Qed.

Lemma never_raises_club c : never_raises NotFound (get_or_create_club c).
Proof. intros w. rewrite get_or_create_club_run. by repeat case_match. Qed.

Lemma never_raises_glider_model n c :
  never_raises NotFound (get_or_create_glider_model n c).
Proof.
  intros w. rewrite get_or_create_glider_model_run. by repeat case_match.
Qed.

Lemma never_raises_glider g m :
  never_raises NotFound (get_or_create_glider g m).
Proof. intros w. rewrite get_or_create_glider_run. by repeat case_match. Qed.

Lemma never_raises_archive root t0 name data :
  never_raises NotFound (archive_trace root t0 name data).
Proof. intros w. rewrite archive_trace_run. by repeat case_match. Qed.

(** The [NotFound] of the download is caught, and nothing else in
    [download_and_archive_trace] raises it. *)
Lemma never_raises_download E root fd :
  never_raises NotFound (download_and_archive_trace E root fd).
Proof.
  unfold download_and_archive_trace.
  apply never_raises_bind; [apply never_raises_getitem | intros flight_id].
  apply never_raises_bind; [apply never_raises_getitem | intros name].
  apply never_raises_bind; [by intros w | intros t0].
  apply never_raises_bind.
  - apply never_raises_try, never_raises_ret.
  - intros [r|]; [apply never_raises_archive | apply never_raises_ret].
Qed.

Lemma never_raises_insert_task fd : never_raises NotFound (insert_task fd).
Proof. intros w. by destruct (insert_task_run fd w) as (codes & _ & ->). Qed.

Lemma never_raises_insert_bga_flight E root fd t :
  never_raises NotFound (insert_bga_flight E root fd t).
Proof.
  unfold insert_bga_flight.
  apply never_raises_bind; [apply never_raises_getitem | intros v].
  apply never_raises_bind; [by intros w | intros tb].
  destruct (select_flight _ _); [by apply never_raises_raise|].
  repeat (apply never_raises_bind;
          [first [ apply never_raises_getitem
                 | apply never_raises_pilot
                 | apply never_raises_club
                 | apply never_raises_glider_model
                 | apply never_raises_glider
                 | apply never_raises_download
                 | apply never_raises_insert_task ]
          | intros ? ]).
  apply never_raises_bind.
  { unfold parse_flight_date. repeat case_match;
      first [apply never_raises_ret | by apply never_raises_raise]. }
  intros flight_date.
  repeat (apply never_raises_bind; [apply never_raises_getitem | intros ?]).
  apply never_raises_bind.
  { case_match; [apply never_raises_ret | apply never_raises_getitem]. }
  intros wooden.
  repeat (apply never_raises_bind; [apply never_raises_getitem | intros ?]).
  apply never_raises_bind; [|intros _; by intros w].
  intros w. unfold insert_flight, bind, get_session, put_session.
  by case_match.
Qed.

(** C8.  When the download of a flight's trace ends in [NotFound], the
    archiver returns [None] and nothing is raised: only the request and
    the clock reading are recorded.  [insert_bga_flight] never ends in
    [NotFound]; and for a record that is ingestible apart from its trace,
    it returns, having appended and committed the flight row, whose trace
    reference is NULL. *)
Theorem missing_trace_is_tolerated (E : env) (archive_root : path)
    (fd : flight_record) (v name : pyval) (scraped_at : datetime) (w : world) :
  fd !! "FlightID" = Some v ->
  fd !! "LoggerFile" = Some name ->
  http E (trace_url E v) ∅ = None ->
  download_and_archive_trace E archive_root fd w
  = (Ok None, after_download (trace_url E v) w)
  /\ (forall w', insert_bga_flight E archive_root fd scraped_at w
                 <> (Raise NotFound, w'))
  /\ (ingestible E fd (session w) = true ->
      exists w1 row,
        insert_bga_flight E archive_root fd scraped_at w = (Ok tt, w1)
        /\ flight (session w1) = flight (session w) ++ [row]
        /\ flight (durable w1) = flight (session w) ++ [row]
        /\ Flight.trace row = None
        /\ Flight.ladder_id row = to_sql v).
Proof.
  intros Hv Hname Hhttp. split; [|split].
  - by rewrite (download_run _ _ _ _ _ _ Hv Hname), Hhttp.
  - intros w' Hrun.
    apply (never_raises_insert_bga_flight E archive_root fd scraped_at w).
    by rewrite Hrun.
  - intros Hing.
    destruct (insert_bga_flight_run E archive_root fd scraped_at w Hing)
      as (w1 & row & Hrun & Hfl & Hdur & Htr & Hlid & _).
    exists w1, row. rewrite Hdur.
    unfold expected_trace in Htr.
    rewrite (dict_get_some _ _ _ Hv) in Htr, Hlid. rewrite Hhttp in Htr.
    done.
Qed.

Lemma missing_trace_is_tolerated_witness :
  let fd := sample_record 9 "c.igc" in
  http sample_env (trace_url sample_env (PInt 9)) ∅ = None
  /\ download_and_archive_trace sample_env ["traces"] fd empty_world
     = (Ok None, after_download (trace_url sample_env (PInt 9)) empty_world)
  /\ (forall w', insert_bga_flight sample_env ["traces"] fd 100 empty_world
                 <> (Raise NotFound, w'))
  /\ exists w1 row,
       insert_bga_flight sample_env ["traces"] fd 100 empty_world = (Ok tt, w1)
       /\ flight (session w1) = flight (session empty_world) ++ [row]
       /\ flight (durable w1) = flight (session empty_world) ++ [row]
       /\ Flight.trace row = None
       /\ Flight.ladder_id row = to_sql (PInt 9).
Proof.
  intros fd.
  assert (http sample_env (trace_url sample_env (PInt 9)) ∅ = None) as Hhttp
    by (vm_compute; reflexivity).
  destruct (missing_trace_is_tolerated sample_env ["traces"] fd (PInt 9)
              (PStr "c.igc") 100 empty_world)
    as (Hnone & Hnever & Hrow); [vm_compute; reflexivity.. | exact Hhttp |].
  split; [exact Hhttp|]. split; [exact Hnone|]. split; [exact Hnever|].
  apply Hrow. vm_compute. reflexivity.
Defined.

(** The record of the witness is ingestible, and its ingestion stores a
    flight without a trace. *)
Example ingest_without_trace :
  let fd := sample_record 9 "c.igc" in
  let w1 := snd (insert_bga_flight sample_env ["traces"] fd 100 empty_world) in
  ingestible sample_env fd (session empty_world) = true
  /\ fst (insert_bga_flight sample_env ["traces"] fd 100 empty_world) = Ok tt
  /\ Flight.trace <$> flight (durable w1) = [None]
  /\ trace (durable w1) = []
  /\ map_to_list (files w1) = [].
Proof. vm_compute. repeat split. Qed.

(* ===================================================================== *)
(** * Pagination                                                          *)
(* ===================================================================== *)

Lemma requests_get_ok E url params r w :
  http E url params = Some r ->
  requests_get E url params w
  = (Ok r, World (durable w) (session w) (files w) (dirs w)
                 (requests w ++ [(url, params)]) (ticks w)).
Proof. intros H. unfold requests_get. by rewrite H. Qed.

Lemma now_run E w :
  now E w
  = (Ok (clock E (ticks w)),
     World (durable w) (session w) (files w) (dirs w) (requests w)
           (S (ticks w))).
Proof. reflexivity. Qed.

Lemma rows_of_ok r flights w :
  json_rows r = Some flights -> rows_of r w = (Ok flights, w).
Proof. intros H. unfold rows_of. by rewrite H. Qed.

Lemma serves_cons E params page p rest :
  serves E params page (p :: rest) = true ->
  exists r, http E base_url (<["page" := Z.of_nat page]> params) = Some r
            /\ json_rows r = Some p
            /\ serves E params (S page) rest = true.
Proof.
  simpl. rewrite andb_true_iff. intros [Hr Hrest].
  destruct (http E base_url _) as [r|]; [|done].
  apply bool_decide_eq_true in Hr. eauto.
Qed.

(** The loop of [get_daily_flights] is the walk over the pages up to the
    first short one, provided the fuel covers them. *)
Lemma page_loop_pages {U} E (process : datetime -> flight_record -> U -> M U)
    base page_size :
  forall pgs fuel params page total u w,
    (forall i, <["page" := i]> params = <["page" := i]> base) ->
    serves E base page pgs = true ->
    first_short_is_last page_size pgs = true ->
    (length pgs <= fuel)%nat ->
    page_loop E process fuel params page_size page total u w
    = visit_pages E process base (seq page (length pgs)) total u w.
Proof.
  induction pgs as [|p rest IH]; intros fuel params page total u w
    Hparams Hserves Hshort Hfuel; [done|].
  destruct fuel as [|fuel]; [simpl in Hfuel; lia|].
  apply serves_cons in Hserves as (r & Hhttp & Hrows & Hserves).
  simpl. rewrite Hparams.
  rewrite !(bind_ok _ _ _ _ _ (requests_get_ok _ _ _ _ _ Hhttp)).
  rewrite !(bind_ok _ _ _ _ _ (now_run _ _)).
  rewrite !(bind_ok _ _ _ _ _ (rows_of_ok _ _ _ Hrows)).
  unfold bind.
  destruct (for_flights process _ p u _) as [[u'| |] w']; try reflexivity.
  destruct rest as [|p' rest'].
  - simpl in Hshort. rewrite Hshort. reflexivity.
  - change (first_short_is_last page_size (p :: p' :: rest'))
      with (negb (length p <? page_size)%nat
            && first_short_is_last page_size (p' :: rest')) in Hshort.
    apply andb_true_iff in Hshort as [Hfull Hshort].
    apply negb_true_iff in Hfull. rewrite Hfull.
    apply IH; [|done|done|simpl in *; lia].
    intros i. by rewrite insert_insert_eq.
Qed.

Lemma for_flights_record t flights calls w :
  for_flights record_call t flights calls w
  = (Ok (calls ++ (pair t <$> flights)), w).
Proof.
  revert calls. induction flights as [|f rest IH]; intros calls; simpl.
  - by rewrite app_nil_r.
  - unfold bind, record_call, ret. rewrite IH. by rewrite <- app_assoc.
Qed.

(** The walk, observed through the recording callback. *)
Lemma visit_pages_record E base :
  forall pgs page total calls w,
    serves E base page pgs = true ->
    visit_pages E record_call base (seq page (length pgs)) total calls w
    = (Ok ((total + length (concat pgs))%nat,
           calls ++ concat (imap (fun i p => pair (clock E (ticks w + i)) <$> p)
                                 pgs)),
       World (durable w) (session w) (files w) (dirs w)
             (requests w
              ++ ((fun i => (base_url, <["page" := Z.of_nat i]> base))
                    <$> seq page (length pgs)))
             (ticks w + length pgs)).
Proof.
  induction pgs as [|p rest IH]; intros page total calls w Hserves.
  - simpl. unfold ret. rewrite !app_nil_r, !Nat.add_0_r. by destruct w.
  - apply serves_cons in Hserves as (r & Hhttp & Hrows & Hserves).
    simpl.
    rewrite (bind_ok _ _ _ _ _ (requests_get_ok _ _ _ _ _ Hhttp)).
    rewrite (bind_ok _ _ _ _ _ (now_run _ _)).
    rewrite (bind_ok _ _ _ _ _ (rows_of_ok _ _ _ Hrows)).
    rewrite (bind_ok _ _ _ _ _ (for_flights_record _ _ _ _)).
    rewrite (IH _ _ _ _ Hserves). simpl_world.
    rewrite length_app, <- !app_assoc, Nat.add_assoc, Nat.add_0_r. simpl.
    assert (imap (fun i p0 => pair (clock E (S (ticks w + i))) <$> p0) rest
            = imap ((fun i p0 => pair (clock E (ticks w + i)) <$> p0) ∘ S) rest)
      as -> by (apply imap_ext; intros i x _; simpl; by rewrite Nat.add_succ_r).
    by rewrite Nat.add_succ_r.
Qed.

Lemma query_params_rows season month day page_size :
  query_params season month day page_size !! "rows"
  = Some (Z.of_nat page_size).
Proof.
  unfold query_params, set_if.
  destruct season, month, day;
    rewrite ?lookup_insert_ne by done; apply lookup_singleton_eq.
Qed.

(** C7.  Against a source that answers the requests for pages 1, 2, ...
    of the query with the pages [pgs], the last of which is the first
    with fewer than 100 records, [get_daily_flights] (given fuel for
    that many pages) asks for 100 rows per page and is the walk over the
    pages [1 .. length pgs] with any callback.  Observed with the
    recording callback: it returns the number of records of all
    the pages; the callback was called once per record, in the order of
    arrival, page after page, each record with the time its page was
    received; and the requests issued are exactly those for pages
    [1 .. length pgs], in this order, so the first short page ended the
    loop. *)
Theorem get_daily_flights_pages (E : env)
    (query_season query_month query_day : option Z)
    (pgs : list (list flight_record)) (fuel : nat) (w : world) :
  let params := query_params query_season query_month query_day 100 in
  serves E params 1 pgs = true ->
  first_short_is_last 100 pgs = true ->
  (length pgs <= fuel)%nat ->
  params !! "rows" = Some 100
  /\ (forall (U : Type) (process : datetime -> flight_record -> U -> M U)
             (u : U),
        get_daily_flights E process fuel u query_season query_month query_day
                          100 w
        = visit_pages E process params (seq 1 (length pgs)) 0 u w)
  /\ get_daily_flights E record_call fuel [] query_season query_month
                       query_day 100 w
     = (Ok (length (concat pgs),
            concat (imap (fun i p => pair (clock E (ticks w + i)) <$> p) pgs)),
        World (durable w) (session w) (files w) (dirs w)
              (requests w
               ++ ((fun i => (base_url, <["page" := Z.of_nat i]> params))
                     <$> seq 1 (length pgs)))
              (ticks w + length pgs)).
Proof.
  intros params Hserves Hshort Hfuel.
  split; [apply (query_params_rows _ _ _ 100)|].
  assert (forall (U : Type) (process : datetime -> flight_record -> U -> M U)
                 (u : U),
            get_daily_flights E process fuel u query_season query_month
                              query_day 100 w
            = visit_pages E process params (seq 1 (length pgs)) 0 u w) as Hwalk.
  { intros U process u. unfold get_daily_flights.
    by apply page_loop_pages. }
  split; [exact Hwalk|].
  rewrite Hwalk. by rewrite visit_pages_record.
Qed.

Lemma get_daily_flights_pages_witness :
  let E := paged_env 247 100 in
  let pgs := [numbered_flights 1 100; numbered_flights 101 100;
              numbered_flights 201 47] in
  let params := query_params (Some 2023) None None 100 in
  params !! "rows" = Some 100
  /\ (forall (U : Type) (process : datetime -> flight_record -> U -> M U)
             (u : U),
        get_daily_flights E process 3 u (Some 2023) None None 100 empty_world
        = visit_pages E process params (seq 1 (length pgs)) 0 u empty_world)
  /\ get_daily_flights E record_call 3 [] (Some 2023) None None 100 empty_world
     = (Ok (length (concat pgs),
            concat (imap (fun i p =>
                            pair (clock E (ticks empty_world + i)) <$> p) pgs)),
        World (durable empty_world) (session empty_world) (files empty_world)
              (dirs empty_world)
              (requests empty_world
               ++ ((fun i => (base_url, <["page" := Z.of_nat i]> params))
                     <$> seq 1 (length pgs)))
              (ticks empty_world + length pgs)).
Proof.
  intros E pgs params.
  apply (get_daily_flights_pages E (Some 2023) None None pgs 3 empty_world).
  - vm_compute. reflexivity.
  - vm_compute. reflexivity.
  - simpl. lia.
Defined.

(** The two sources of the specification's section 8: 247 records come in
    pages of 100, 100 and 47 and take three requests; 300 records come in
    three full pages, and a fourth request is issued, which returns no
    record. *)
Example get_daily_flights_247 :
  let run := get_daily_flights (paged_env 247 100) record_call 10 []
               (Some 2023) None None 100 empty_world in
  total_of (fst run) = Some 247%nat
  /\ (fun q => q !! "page") <$> (snd <$> requests (snd run))
     = [Some 1; Some 2; Some 3].
Proof. vm_compute. split; reflexivity. Qed.

Example get_daily_flights_300 :
  let run := get_daily_flights (paged_env 300 100) record_call 10 []
               (Some 2023) None None 100 empty_world in
  total_of (fst run) = Some 300%nat
  /\ (fun q => q !! "page") <$> (snd <$> requests (snd run))
     = [Some 1; Some 2; Some 3; Some 4]
  /\ length <$> (http (paged_env 300 100) base_url
                    (<["page" := 4]> (query_params (Some 2023) None None 100))
                  ≫= json_rows)
     = Some 0%nat.
Proof. vm_compute. repeat split. Qed.

(* ===================================================================== *)
(** * Scraping one day                                                    *)
(* ===================================================================== *)

(** The filters [scrape_day] hands to [get_daily_flights], for any date:
    the season is the year, the day is the day, and the month filter is
    the day of the month as well. *)
Lemma scrape_day_filters E archive_root query_date fuel :
  scrape_day E archive_root query_date fuel
  = get_daily_flights E (process_flight E archive_root) fuel 0%nat
      (Some (year query_date)) (Some (day query_date))
      (Some (day query_date)) 100.
Proof. reflexivity. Qed.

(** C3 does not hold of the code.  Scraping 17 May 2023 against a ladder
    without flights issues one request, whose season filter is 2023 and
    whose day filter is 17, but whose month filter is 17, the day, and
    not 5, the month. *)
Theorem scrape_day_sends_day_as_month :
  let query_date := Date 2023 5 17 in
  let run := scrape_day sample_env ["traces"] query_date 1 empty_world in
  fst run = Ok (0%nat, 0%nat)
  /\ fst <$> requests (snd run) = [base_url]
  /\ (fun q => q !! "Season") <$> (snd <$> requests (snd run)) = [Some 2023]
  /\ (fun q => q !! "Day") <$> (snd <$> requests (snd run)) = [Some 17]
  /\ (fun q => q !! "Month") <$> (snd <$> requests (snd run)) = [Some 17]
  /\ (fun q => q !! "Month") <$> (snd <$> requests (snd run))
     <> [Some (month query_date)].
Proof. vm_compute. repeat split. discriminate. Qed.


(* ===================================================================== *)
(** * Further properties: what a run never undoes                        *)
(* ===================================================================== *)

Lemma grows_refl t : grows t t.
Proof. by repeat split. Qed.

Lemma grows_trans t1 t2 t3 : grows t1 t2 -> grows t2 t3 -> grows t1 t3.
Proof.
  unfold grows. intros (?&?&?&?&?&?&?) (?&?&?&?&?&?&?).
  repeat split; by etrans.
Qed.

Lemma advances_refl w : advances w w.
Proof. unfold advances. split; [apply grows_refl|]. by repeat split. Qed.

Lemma advances_trans w1 w2 w3 :
  advances w1 w2 -> advances w2 w3 -> advances w1 w3.
Proof.
  unfold advances. intros (?&Hd&?&?&?&?) (?&Hd'&?&?&?&?).
  split; [by eapply grows_trans|]. split; [by rewrite Hd', Hd|].
  split; [by etrans|]. split; [lia|]. split; by etrans.
Qed.

Lemma respects_bind {A B} (P : world -> world -> Prop) (m : M A)
    (k : A -> M B) :
  (forall w1 w2 w3, P w1 w2 -> P w2 w3 -> P w1 w3) ->
  respects P m -> (forall a, respects P (k a)) -> respects P (bind m k).
Proof.
  intros Htrans Hm Hk w r w'. unfold bind.
  destruct (m w) as [[a|e|] w1] eqn:Hmw.
  - intros Hkw. eapply Htrans; [by eapply Hm | by eapply Hk].
  - intros [= <- <-]. by eapply Hm.
  - intros [= <- <-]. by eapply Hm.
Qed.

Lemma advances_bind {A B} (m : M A) (k : A -> M B) :
  respects advances m -> (forall a, respects advances (k a)) ->
  respects advances (bind m k).
Proof. apply respects_bind, advances_trans. Qed.

Lemma advances_ret {A} (a : A) : respects advances (ret a).
Proof. intros w r w' [= <- <-]. apply advances_refl. Qed.

Lemma advances_raise {A} e : respects advances (@raise A e).
Proof. intros w r w' [= <- <-]. apply advances_refl. Qed.

Lemma advances_getitem fd key : respects advances (getitem fd key).
Proof.
  unfold getitem. destruct (fd !! key); [apply advances_ret | apply advances_raise].
Qed.

(** A world that differs from [w] by rows appended to one table. *)
Ltac solve_advances :=
  unfold advances, grows; simpl_world;
  repeat split;
    first [ reflexivity | by apply prefix_app_r | lia | set_solver ].

Lemma advances_pilot f s l : respects advances (get_or_create_pilot f s l).
Proof.
  intros w r w'. rewrite get_or_create_pilot_run.
  repeat case_match; intros [= <- <-]; solve_advances.
Qed.

Lemma advances_club c : respects advances (get_or_create_club c).
Proof.
  intros w r w'. rewrite get_or_create_club_run.
  repeat case_match; intros [= <- <-]; solve_advances.
Qed.

Lemma advances_glider_model n c :
  respects advances (get_or_create_glider_model n c).
Proof.
  intros w r w'. rewrite get_or_create_glider_model_run.
  repeat case_match; intros [= <- <-]; solve_advances.
Qed.

Lemma advances_glider g m : respects advances (get_or_create_glider g m).
Proof.
  intros w r w'. rewrite get_or_create_glider_run.
  repeat case_match; intros [= <- <-]; solve_advances.
Qed.

Lemma advances_archive root t0 name data :
  respects advances (archive_trace root t0 name data).
Proof.
  intros w r w'. rewrite archive_trace_run.
  case_match; intros [= <- <-]; [apply advances_refl|].
  unfold advances, grows. simpl_world.
  repeat split; try reflexivity; try (by apply prefix_app_r); try lia.
  - set_solver.
  - rewrite dom_insert. set_solver.
Qed.

Lemma advances_now E : respects advances (now E).
Proof. intros w r w' [= <- <-]. solve_advances. Qed.

Lemma advances_requests_get E url params :
  respects advances (requests_get E url params).
Proof.
  intros w r w'. unfold requests_get.
  case_match; intros [= <- <-]; solve_advances.
Qed.

Lemma advances_try {A} (m h : M A) e :
  respects advances m -> respects advances h ->
  respects advances (try_except m e h).
Proof.
  intros Hm Hh w r w'. unfold try_except.
  destruct (m w) as [[a|e'|] w1] eqn:Hmw.
  - intros [= <- <-]. by eapply Hm.
  - destruct (decide (e' = e)).
    + intros Hhw. eapply advances_trans; [by eapply Hm | by eapply Hh].
    + intros [= <- <-]. by eapply Hm.
  - intros [= <- <-]. by eapply Hm.
Qed.

Lemma advances_download E root fd :
  respects advances (download_and_archive_trace E root fd).
Proof.
  unfold download_and_archive_trace.
  apply advances_bind; [apply advances_getitem | intros flight_id].
  apply advances_bind; [apply advances_getitem | intros name].
  apply advances_bind; [apply advances_now | intros t0].
  apply advances_bind.
  - apply advances_try; [|apply advances_ret].
    apply advances_bind; [apply advances_requests_get | intros r].
    apply advances_ret.
  - intros [r|]; [apply advances_archive | apply advances_ret].
Qed.

Lemma advances_insert_task fd : respects advances (insert_task fd).
Proof.
  intros w r w'. destruct (insert_task_run fd w) as (codes & _ & ->).
  intros [= <- <-]. solve_advances.
Qed.

Lemma advances_insert_flight row v : respects advances (insert_flight row v).
Proof.
  intros w r w'. unfold insert_flight, bind, get_session, put_session.
  case_match; intros [= <- <-]; solve_advances.
Qed.

Lemma advances_parse E v : respects advances (parse_flight_date E v).
Proof.
  unfold parse_flight_date.
  repeat case_match; first [apply advances_ret | apply advances_raise].
Qed.

Lemma settles_of_advances {A} (m : M A) :
  respects advances m -> (forall w a w', m w <> (Ok a, w')) -> settles m.
Proof.
  intros Hm Hno w r w' Hrun.
  destruct (Hm _ _ _ Hrun) as (?&?&?&?&?&?).
  do 5 (split; [done|]).
  destruct r; [by destruct (Hno _ _ _ Hrun) | done..].
Qed.

Lemma settles_bind {A B} (m : M A) (k : A -> M B) :
  respects advances m -> (forall a, settles (k a)) -> settles (bind m k).
Proof.
  intros Hm Hk w r w'. unfold bind.
  destruct (m w) as [[a|e|] w1] eqn:Hmw.
  - intros Hkw. destruct (Hm _ _ _ Hmw) as (Hg&Hd&Hq&Ht&Hdi&Hf).
    destruct (Hk _ _ _ _ Hkw) as (Hg'&Hq'&Ht'&Hdi'&Hf'&Hr).
    split; [by eapply grows_trans|]. split; [by etrans|].
    split; [lia|]. split; [by etrans|]. split; [by etrans|].
    destruct r; [done | by rewrite Hr, Hd..].
  - intros [= <- <-]. by destruct (Hm _ _ _ Hmw) as (?&?&?&?&?&?).
  - intros [= <- <-]. by destruct (Hm _ _ _ Hmw) as (?&?&?&?&?&?).
Qed.

Lemma settles_commit : settles commit.
Proof.
  intros w r w' [= <- <-]. simpl_world.
  split; [apply grows_refl|]. by do 4 (split; [done|]).
Qed.

Lemma settles_insert_bga_flight E root fd t :
  settles (insert_bga_flight E root fd t).
Proof.
  unfold insert_bga_flight.
  apply settles_bind; [apply advances_getitem | intros v].
  apply settles_bind; [by intros w r w' [= <- <-]; apply advances_refl | intros tb].
  destruct (select_flight _ _).
  { apply settles_of_advances; [apply advances_raise | by intros w a w'].  }
  repeat (apply settles_bind;
          [first [ apply advances_getitem
                 | apply advances_pilot
                 | apply advances_club
                 | apply advances_glider_model
                 | apply advances_glider
                 | apply advances_download
                 | apply advances_insert_task
                 | apply advances_parse ]
          | intros ? ]).
  apply settles_bind.
  { case_match; [apply advances_ret | apply advances_getitem]. }
  intros wooden.
  repeat (apply settles_bind; [apply advances_getitem | intros ?]).
  apply settles_bind; [apply advances_insert_flight | intros _].
  apply settles_commit.
Qed.

(** X1.  Whatever its outcome, an ingestion only appends: every table of
    the session still starts with the rows it had, the request log with
    the requests it had, and no directory or file of the archive is
    removed. *)
Theorem insert_bga_flight_only_appends (E : env) (archive_root : path)
    (fd : flight_record) (scraped_at : datetime) (w : world) :
  let w' := snd (insert_bga_flight E archive_root fd scraped_at w) in
  grows (session w) (session w')
  /\ requests w `prefix_of` requests w'
  /\ dirs w ⊆ dirs w'
  /\ dom (files w) ⊆ dom (files w').
Proof.
  intros w'. subst w'.
  destruct (insert_bga_flight E archive_root fd scraped_at w) as [r w'] eqn:Hrun.
  destruct (settles_insert_bga_flight _ _ _ _ _ _ _ Hrun)
    as (Hg & Hq & _ & Hd & Hf & _).
  done.
Qed.

(** X2.  An ingestion commits all or nothing: when it returns, everything
    the session holds is committed; when it raises, at whatever step, the
    committed tables are those of before the call. *)
Theorem insert_bga_flight_commits_all_or_nothing (E : env)
    (archive_root : path) (fd : flight_record) (scraped_at : datetime)
    (w : world) :
  let run := insert_bga_flight E archive_root fd scraped_at w in
  match fst run with
  | Ok _ => durable (snd run) = session (snd run)
  | _ => durable (snd run) = durable w
  end.
Proof.
  intros run. subst run.
  destruct (insert_bga_flight E archive_root fd scraped_at w) as [r w'] eqn:Hrun.
  by destruct (settles_insert_bga_flight _ _ _ _ _ _ _ Hrun)
    as (_ & _ & _ & _ & _ & Hr).
Qed.

(* ===================================================================== *)
(** * Further properties: the flight row of an ingestion                  *)
(* ===================================================================== *)

Ltac inv_getitem_as H x Hn :=
  let w' := fresh "w" in
  inv_bind H x w' Hn; apply getitem_ok_inv in Hn as [Hn ->];
  pose proof (dict_get_some _ _ _ Hn).

Lemma fetchone_some_in {R} (rowid : R -> Z) cond (rows : list R) i :
  fetchone rowid cond rows = Some i -> i ∈ (rowid <$> rows).
Proof.
  unfold fetchone. destruct (find cond rows) as [r|] eqn:Hf; [|done].
  intros [= <-]. apply find_some in Hf as [Hin _].
  apply list_elem_of_fmap_2. by apply list_elem_of_In.
Qed.

Lemma in_appended {R} (rowid : R -> Z) (rows : list R) r i :
  rowid r = i -> i ∈ (rowid <$> (rows ++ [r])).
Proof. intros <-. rewrite fmap_app, elem_of_app. right. simpl. left. Qed.

Lemma get_or_create_pilot_id f s l w i w' :
  get_or_create_pilot f s l w = (Ok i, w') ->
  i ∈ (Pilot.id <$> pilot (session w')).
Proof.
  rewrite get_or_create_pilot_run.
  destruct (fetchone _ _ _) eqn:Hsel.
  - intros [= <- <-]. by eapply fetchone_some_in.
  - repeat case_match; intros [= <- <-]. simpl_world.
    by apply (in_appended Pilot.id).
Qed.

Lemma get_or_create_club_id c w i w' :
  get_or_create_club c w = (Ok i, w') ->
  i ∈ (Club.id <$> club (session w')).
Proof.
  rewrite get_or_create_club_run.
  destruct (fetchone _ _ _) eqn:Hsel.
  - intros [= <- <-]. by eapply fetchone_some_in.
  - cbv zeta. repeat case_match; intros [= <- <-]. simpl_world.
    by apply (in_appended Club.id).
Qed.

Lemma get_or_create_glider_id g m w i w' :
  get_or_create_glider g m w = (Ok i, w') ->
  i ∈ (Glider.id <$> glider (session w')).
Proof.
  rewrite get_or_create_glider_run.
  destruct (fetchone _ _ _) eqn:Hsel.
  - intros [= <- <-]. by eapply fetchone_some_in.
  - cbv zeta. repeat case_match; intros [= <- <-]. simpl_world.
    by apply (in_appended Glider.id).
Qed.

Lemma download_trace_id E root fd w i w' :
  download_and_archive_trace E root fd w = (Ok (Some i), w') ->
  i ∈ (Trace.id <$> trace (session w')).
Proof.
  destruct (fd !! "FlightID") as [flight_id|] eqn:Hid.
  - destruct (fd !! "LoggerFile") as [name|] eqn:Hname.
    + rewrite (download_run _ _ _ _ _ _ Hid Hname).
      destruct (http E _ ∅); [|done].
      rewrite archive_trace_run. unfold after_download. simpl_world.
      destruct (select_trace _ _) eqn:Hsel; intros [= <- <-]; simpl_world.
      * by eapply fetchone_some_in.
      * by apply (in_appended Trace.id).
    + unfold download_and_archive_trace.
      rewrite (bind_ok _ _ _ _ _ (getitem_ok _ _ _ w Hid)).
      unfold bind, getitem. by rewrite Hname.
  - unfold download_and_archive_trace, bind, getitem. by rewrite Hid.
Qed.

Lemma elem_of_prefix_fmap {R} (rowid : R -> Z) (l1 l2 : list R) i :
  i ∈ (rowid <$> l1) -> l1 `prefix_of` l2 -> i ∈ (rowid <$> l2).
Proof.
  intros Hin [k ->]. rewrite fmap_app, elem_of_app. by left.
Qed.

(** The flight row of a successful ingestion, column by column, and the
    rows its references point to. *)
Lemma insert_bga_flight_row E root fd t w w1 :
  insert_bga_flight E root fd t w = (Ok tt, w1) ->
  exists row date_text,
    flight (session w1) = flight (session w) ++ [row]
    /\ Flight.id row = next_rowid (Flight.id <$> flight (session w))
    /\ Flight.pilot row ∈ (Pilot.id <$> pilot (session w1))
    /\ Flight.club row ∈ (Club.id <$> club (session w1))
    /\ Flight.glider row ∈ (Glider.id <$> glider (session w1))
    /\ (forall i, Flight.trace row = Some i ->
                  i ∈ (Trace.id <$> trace (session w1)))
    /\ fd !! "FlightDate" = Some (PStr date_text)
    /\ strptime E date_text = Some (Flight.flight_date row)
    /\ Flight.scraped_at row = t
    /\ Flight.is_weekend row = to_sql (dict_get fd "Weekend")
    /\ Flight.is_junior row = to_sql (dict_get fd "Junior")
    /\ Flight.is_height row = to_sql (dict_get fd "Height")
    /\ Flight.is_two_seater row = to_sql (dict_get fd "TwoSeater")
    /\ Flight.is_wooden row
       = to_sql (if truthy (dict_get fd "Wood") then dict_get fd "Wood"
                 else dict_get fd "Wooden")
    /\ Flight.has_engine row = to_sql (dict_get fd "Engine")
    /\ Flight.penalty row = to_sql (dict_get fd "Penalty")
    /\ Flight.speed row = to_sql (dict_get fd "Speed")
    /\ Flight.handicap_speed row = to_sql (dict_get fd "HandicapSpeed")
    /\ Flight.scoring_distance row = to_sql (dict_get fd "ScoringDistance")
    /\ Flight.speed_points row = to_sql (dict_get fd "SpeedPoints")
    /\ Flight.height_gain row = to_sql (dict_get fd "HeightGain")
    /\ Flight.height_points row = to_sql (dict_get fd "HeightPoints")
    /\ Flight.total_points row = to_sql (dict_get fd "TotalPoints")
    /\ Flight.ladder_id row = to_sql (dict_get fd "FlightID").
Proof.
  unfold insert_bga_flight. intros H.
  inv_getitem_as H v Hv.
  unfold bind at 1, get_session at 1 in H.
  destruct (select_flight (to_sql v) (session w)) eqn:Hsel; [discriminate|].
  inv_getitem H forename. inv_getitem H surname. inv_getitem H pilot_ladder_id.
  inv_bind H pilot_id wa Ha.
  pose proof (get_or_create_pilot_id _ _ _ _ _ _ Ha) as Hpid.
  pose proof (get_or_create_pilot_keeps _ _ _ _ _ _ Ha) as Hka.
  apply advances_pilot in Ha.
  inv_getitem H club_code.
  inv_bind H club_id wb Hb.
  pose proof (get_or_create_club_id _ _ _ _ Hb) as Hcid.
  pose proof (get_or_create_club_keeps _ _ _ _ Hb) as Hkb.
  apply advances_club in Hb.
  inv_getitem H glider_name. inv_getitem H glider_code.
  inv_bind H glider_model_id wc Hc.
  pose proof (get_or_create_glider_model_keeps _ _ _ _ _ Hc) as Hkc.
  apply advances_glider_model in Hc.
  inv_getitem H registration.
  inv_bind H glider_id wd Hd.
  pose proof (get_or_create_glider_id _ _ _ _ _ Hd) as Hgid.
  pose proof (get_or_create_glider_keeps _ _ _ _ _ Hd) as Hkd.
  apply advances_glider in Hd.
  inv_bind H trace_id we He.
  assert (forall i, trace_id = Some i -> i ∈ (Trace.id <$> trace (session we)))
    as Htid.
  { intros i ->. by eapply download_trace_id. }
  pose proof (download_keeps _ _ _ _ _ _ He) as Hke.
  apply advances_download in He.
  assert (keeps w we) as (Hfl & _ & _) by eauto using keeps_trans.
  clear Hka Hkb Hkc Hkd Hke.
  inv_bind H task_id wf Hf.
  assert (flight (session wf) = flight (session we)) as Hfl'.
  { destruct (insert_task_run fd we) as (codes & _ & Hrun).
    rewrite Hrun in Hf. by injection Hf as _ <-. }
  apply advances_insert_task in Hf.
  inv_getitem_as H date_value Hdate.
  inv_bind H flight_date wg Hg.
  apply parse_flight_date_ok_inv in Hg as (-> & date_text & -> & Hparse).
  inv_getitem_as H weekend Hweekend. inv_getitem_as H junior Hjunior.
  inv_getitem_as H height Hheight. inv_getitem_as H two_seater Htwo.
  inv_getitem_as H wood Hwood.
  inv_bind H wooden wh Hh.
  assert (wh = wf /\ wooden = (if truthy (dict_get fd "Wood")
                               then dict_get fd "Wood"
                               else dict_get fd "Wooden")) as [-> ->].
  { rewrite (dict_get_some _ _ _ Hwood).
    destruct (truthy wood); [by injection Hh as <- <-|].
    apply getitem_ok_inv in Hh as [Hx ->].
    by rewrite (dict_get_some _ _ _ Hx). }
  inv_getitem_as H engine Hengine. inv_getitem_as H penalty Hpenalty.
  inv_getitem_as H speed Hspeed. inv_getitem_as H hspeed Hhspeed.
  inv_getitem_as H dist Hdist. inv_getitem_as H spoints Hspoints.
  inv_getitem_as H hgain Hhgain. inv_getitem_as H hpoints Hhpoints.
  inv_getitem_as H tpoints Htpoints.
  inv_bind H u wi Hi. destruct u. apply insert_flight_ok_inv in Hi as [_ ->].
  unfold commit in H. injection H as <-. simpl_world.
  assert (advances wa wf) as ((Hgp & _) & _)
    by (repeat (eapply advances_trans; [eassumption|]); apply advances_refl).
  assert (advances wb wf) as ((_ & Hgc & _) & _)
    by (repeat (eapply advances_trans; [eassumption|]); apply advances_refl).
  assert (advances wd wf) as ((_ & _ & _ & Hgg & _) & _)
    by (repeat (eapply advances_trans; [eassumption|]); apply advances_refl).
  assert (advances we wf) as ((_ & _ & _ & _ & _ & Hgt & _) & _)
    by (repeat (eapply advances_trans; [eassumption|]); apply advances_refl).
  rewrite Hfl', Hfl.
  eexists _, date_text. split; [reflexivity|]. simpl.
  split; [reflexivity|].
  split; [by eapply elem_of_prefix_fmap|].
  split; [by eapply elem_of_prefix_fmap|].
  split; [by eapply elem_of_prefix_fmap|].
  split; [intros i Hi; eapply elem_of_prefix_fmap; [by apply Htid | done]|].
  repeat split; congruence.
Qed.

Lemma ingestion_commits_on_return E root fd t w w1 :
  insert_bga_flight E root fd t w = (Ok tt, w1) -> durable w1 = session w1.
Proof.
  intros Hrun.
  by destruct (settles_insert_bga_flight _ _ _ _ _ _ _ Hrun)
    as (_ & _ & _ & _ & _ & Hr).
Qed.

Lemma run_ok {A} (m : M A) w a :
  fst (m w) = Ok a -> m w = (Ok a, snd (m w)).
Proof. destruct (m w) as [r w']. simpl. by intros ->. Qed.

(** X3.  The flight row a successful ingestion appends holds the record:
    the flight date is the parse of the ["FlightDate"] string, the
    scraping time is the one passed in, and every flag and score column
    holds the record's field as it was bound; the wooden flag is ["Wood"]
    when that is truthy, ["Wooden"] otherwise. *)
Theorem insert_bga_flight_stores_record (E : env) (archive_root : path)
    (fd : flight_record) (scraped_at : datetime) (w : world) :
  let run := insert_bga_flight E archive_root fd scraped_at w in
  fst run = Ok tt ->
  exists row,
    flight (session (snd run)) = flight (session w) ++ [row]
    /\ Flight.id row = next_rowid (Flight.id <$> flight (session w))
    /\ row_holds_record E fd scraped_at row.
Proof.
  intros run Hok. subst run. apply run_ok in Hok.
  apply insert_bga_flight_row in Hok as (row & date_text & Hfl & Hid & _ & _ & _
                                          & _ & Hdate & Hparse & Hrest).
  exists row. split; [done|]. split; [done|].
  split; [by exists date_text | exact Hrest].
Qed.

Lemma insert_bga_flight_stores_record_witness :
  let run := insert_bga_flight sample_env ["traces"] (sample_record 7 "a.igc")
               100 empty_world in
  exists row,
    flight (session (snd run)) = flight (session empty_world) ++ [row]
    /\ Flight.id row = next_rowid (Flight.id <$> flight (session empty_world))
    /\ row_holds_record sample_env (sample_record 7 "a.igc") 100 row.
Proof.
  apply (insert_bga_flight_stores_record sample_env ["traces"]
           (sample_record 7 "a.igc") 100 empty_world).
  vm_compute. reflexivity.
Defined.

(** X4.  The flight row a successful ingestion appends refers to rows that
    exist: its pilot, club and glider ids, and its trace id when it has
    one, are ids of rows of the session, which is what was committed. *)
Theorem insert_bga_flight_references (E : env) (archive_root : path)
    (fd : flight_record) (scraped_at : datetime) (w : world) :
  let run := insert_bga_flight E archive_root fd scraped_at w in
  fst run = Ok tt ->
  exists row,
    flight (session (snd run)) = flight (session w) ++ [row]
    /\ references_resolve row (session (snd run))
    /\ references_resolve row (durable (snd run)).
Proof.
  intros run Hok. subst run. apply run_ok in Hok.
  pose proof (ingestion_commits_on_return E archive_root fd
                scraped_at w _ Hok) as Hdur.
  apply insert_bga_flight_row in Hok as (row & date_text & Hfl & _ & Hp & Hc
                                          & Hg & Ht & _).
  exists row. split; [done|]. rewrite Hdur. by repeat split.
Qed.

Lemma insert_bga_flight_references_witness :
  let run := insert_bga_flight sample_env ["traces"] (sample_record 7 "a.igc")
               100 empty_world in
  exists row,
    flight (session (snd run)) = flight (session empty_world) ++ [row]
    /\ references_resolve row (session (snd run))
    /\ references_resolve row (durable (snd run)).
Proof.
  apply (insert_bga_flight_references sample_env ["traces"]
           (sample_record 7 "a.igc") 100 empty_world).
  vm_compute. reflexivity.
Defined.

(* ===================================================================== *)
(** * Further properties: gliders, glider models and NULL keys            *)
(* ===================================================================== *)

Lemma sql_eq_null_r v : sql_eq v VNull = false.
Proof. by destruct v. Qed.

Lemma fetchone_null {R} (rowid : R -> Z) (col : R -> sqlval) (rows : list R) :
  fetchone rowid (fun r => sql_eq (col r) VNull) rows = None.
Proof.
  apply fetchone_None, Forall_forall. intros r _. apply sql_eq_null_r.
Qed.

Lemma unique_ok_null {R} (col : R -> sqlval) (rows : list R) :
  unique_ok col VNull rows = true.
Proof. apply (unique_ok_fetchone (fun _ => 0)), fetchone_null. Qed.

(** X5.  A glider is known by its registration alone.  In a table whose
    registrations are distinct, get-or-create of a registration returns
    the same id on a second call, which changes nothing, even when the
    second call names another model: the glider row is neither duplicated
    nor updated, and exactly one row holds the registration. *)
Theorem get_or_create_glider_twice (w : world) (registration : string)
    (model_id other_model_id : Z) :
  unique_col Glider.reg (glider (session w)) = true ->
  exists (i : Z) (w1 : world),
    get_or_create_glider (PStr registration) model_id w = (Ok i, w1)
    /\ get_or_create_glider (PStr registration) other_model_id w1 = (Ok i, w1)
    /\ length (selected (fun r => sql_eq (Glider.reg r) (VText registration))
                        (glider (session w1))) = 1%nat
    /\ unique_col Glider.reg (glider (session w1)) = true.
Proof.
  intros Hu. rewrite get_or_create_glider_run. simpl to_sql.
  destruct (fetchone Glider.id _ (glider (session w))) as [i|] eqn:Hsel.
  - exists i, w. rewrite get_or_create_glider_run. simpl to_sql. rewrite Hsel.
    repeat split; try done.
    by apply (selected_one_old Glider.id Glider.reg _ (VText registration) _ i).
  - eexists. eexists. split; [reflexivity|].
    rewrite get_or_create_glider_run. simpl to_sql. simpl_world.
    rewrite (fetchone_app_new _ _ _ _ Hsel) by (simpl; apply String.eqb_refl).
    repeat split; try done.
    + apply (selected_one_new Glider.id); [done|]. simpl. apply String.eqb_refl.
    + apply unique_col_app; [done|]. by apply (unique_ok_fetchone Glider.id).
Qed.

Lemma get_or_create_glider_twice_witness :
  exists (i : Z) (w1 : world),
    get_or_create_glider (PStr "G-CKLE") 1 empty_world = (Ok i, w1)
    /\ get_or_create_glider (PStr "G-CKLE") 2 w1 = (Ok i, w1)
    /\ length (selected (fun r => sql_eq (Glider.reg r) (VText "G-CKLE"))
                        (glider (session w1))) = 1%nat
    /\ unique_col Glider.reg (glider (session w1)) = true.
Proof.
  apply (get_or_create_glider_twice empty_world "G-CKLE" 1 2). reflexivity.
Defined.

(** X6.  A glider model is looked up by name alone: when a row of that
    name is stored, get-or-create returns the id of the first such row
    and changes nothing, whatever ladder id is passed along, be it that
    of another model. *)
Theorem get_or_create_glider_model_by_name (w : world) (model_name : string)
    (bgal_model_id : pyval) (r : GliderModel.row) :
  r ∈ glider_model (session w) ->
  GliderModel.model_name r = VText model_name ->
  exists i,
    get_or_create_glider_model (PStr model_name) bgal_model_id w = (Ok i, w)
    /\ fetchone GliderModel.id
         (fun r => sql_eq (GliderModel.model_name r) (VText model_name))
         (glider_model (session w)) = Some i.
Proof.
  intros Hin Hname. rewrite get_or_create_glider_model_run. simpl to_sql.
  destruct (fetchone_found GliderModel.id
              (fun r => sql_eq (GliderModel.model_name r) (VText model_name))
              _ r Hin) as [i Hi].
  { rewrite Hname. simpl. apply String.eqb_refl. }
  exists i. by rewrite Hi.
Qed.

Lemma get_or_create_glider_model_by_name_witness :
  let w := with_session
             (set_glider_model
                [GliderModel.Row 1 (VText "ASW 27") VNull VNull VNull VNull
                                 (VInt 12)] empty_tables) empty_world in
  exists i,
    get_or_create_glider_model (PStr "ASW 27") (PInt 99) w = (Ok i, w)
    /\ fetchone GliderModel.id
         (fun r => sql_eq (GliderModel.model_name r) (VText "ASW 27"))
         (glider_model (session w)) = Some i.
Proof.
  intros w.
  apply (get_or_create_glider_model_by_name w "ASW 27" (PInt 99)
           (GliderModel.Row 1 (VText "ASW 27") VNull VNull VNull VNull
                            (VInt 12))).
  - vm_compute. left.
  - reflexivity.
Defined.

(** X7.  A glider model of a name that no row holds, but with a ladder
    id that a row holds already (under another name), cannot be created:
    the insert violates the uniqueness of [ladder_id], the call raises
    [IntegrityError] and the world is as before. *)
Theorem get_or_create_glider_model_conflict (w : world)
    (model_name bgal_model_id : pyval) (r : GliderModel.row) :
  Forall (fun r => sql_eq (GliderModel.model_name r) (to_sql model_name) = false)
         (glider_model (session w)) ->
  r ∈ glider_model (session w) ->
  sql_eq (GliderModel.ladder_id r) (to_sql bgal_model_id) = true ->
  get_or_create_glider_model model_name bgal_model_id w
  = (Raise IntegrityError, w).
Proof.
  intros Hname Hin Hid. rewrite get_or_create_glider_model_run.
  apply (fetchone_None GliderModel.id
           (fun r => sql_eq (GliderModel.model_name r) (to_sql model_name)))
    in Hname.
  rewrite Hname.
  destruct (unique_ok _ _ _) eqn:Hu; [|done].
  apply (unique_ok_fetchone GliderModel.id), fetchone_None in Hu.
  rewrite Forall_forall in Hu. specialize (Hu r Hin). simpl in Hu.
  by rewrite Hu in Hid.
Qed.

Lemma get_or_create_glider_model_conflict_witness :
  let w := with_session
             (set_glider_model
                [GliderModel.Row 1 (VText "ASW 27") VNull VNull VNull VNull
                                 (VInt 12)] empty_tables) empty_world in
  get_or_create_glider_model (PStr "ASW27") (PInt 12) w
  = (Raise IntegrityError, w).
Proof.
  intros w.
  apply (get_or_create_glider_model_conflict w (PStr "ASW27") (PInt 12)
           (GliderModel.Row 1 (VText "ASW 27") VNull VNull VNull VNull
                            (VInt 12))).
  - repeat constructor.
  - left.
  - reflexivity.
Defined.

(** X8.  A pilot without ladder id is never resolved: with [None] for the
    id, the lookup matches no row (NULL equals nothing), a row with a NULL
    ladder id is inserted, the re-select finds nothing either, and the
    call raises [TypeError], leaving the new row in the session.  Calling
    again adds another such row. *)
Theorem get_or_create_pilot_without_id (w : world) (forename surname : pyval) :
  get_or_create_pilot forename surname PNone w
  = (Raise TypeError,
     with_session
       (set_pilot (pilot (session w)
                   ++ [Pilot.Row (next_rowid (Pilot.id <$> pilot (session w)))
                                 (to_sql forename) (to_sql surname) VNull])
                  (session w)) w).
Proof.
  rewrite get_or_create_pilot_run. simpl to_sql.
  assert (fetchone Pilot.id (is_pilot (to_sql forename) (to_sql surname) VNull)
                   (pilot (session w)) = None) as ->.
  { apply fetchone_None, Forall_forall. intros r _. unfold is_pilot.
    by rewrite sql_eq_null_r, andb_false_r. }
  by rewrite unique_ok_null.
Qed.

(* ===================================================================== *)
(** * Further properties: the archiver and the task ids                   *)
(* ===================================================================== *)

(** X9.  The archiver reads the flight id and the logger file name before
    anything else: a record without a logger file name makes it raise
    [KeyError] (for ["FlightID"] when that is missing too) with the world
    untouched; no request is issued and the clock is not read. *)
Theorem download_needs_logger_file (E : env) (archive_root : path)
    (fd : flight_record) (w : world) :
  fd !! "LoggerFile" = None ->
  download_and_archive_trace E archive_root fd w
  = (Raise (KeyError (if has_key fd "FlightID" then "LoggerFile"
                      else "FlightID")), w).
Proof.
  intros Hname. unfold download_and_archive_trace, has_key.
  destruct (fd !! "FlightID") as [v|] eqn:Hv.
  - rewrite (bind_ok _ _ _ _ _ (getitem_ok _ _ _ _ Hv)).
    apply bind_raise. unfold getitem. by rewrite Hname.
  - apply bind_raise. unfold getitem. by rewrite Hv.
Qed.

Lemma download_needs_logger_file_witness :
  download_and_archive_trace sample_env ["traces"]
    (delete "LoggerFile" (sample_record 7 "a.igc")) empty_world
  = (Raise (KeyError
              (if has_key (delete "LoggerFile" (sample_record 7 "a.igc"))
                          "FlightID"
               then "LoggerFile" else "FlightID")), empty_world).
Proof.
  apply (download_needs_logger_file sample_env ["traces"]
           (delete "LoggerFile" (sample_record 7 "a.igc")) empty_world).
  vm_compute. reflexivity.
Defined.

Lemma with_parents_prefix (p q : path) :
  q <> [] -> q `prefix_of` p -> q ∈ with_parents p.
Proof.
  intros Hq [k ->]. unfold with_parents.
  apply list_elem_of_fmap. exists (length q). split.
  - by rewrite take_app_length.
  - apply elem_of_seq. rewrite length_app.
    destruct q; [done | simpl; lia].
Qed.

Lemma next_rowid_above (ids : list Z) (i : Z) :
  i ∈ ids -> i < next_rowid ids.
Proof.
  unfold next_rowid. induction 1 as [i ids|i j ids _ IH]; simpl; lia.
Qed.

Lemma next_rowid_fresh (ids : list Z) : next_rowid ids ∉ ids.
Proof. intros Hin. apply next_rowid_above in Hin. lia. Qed.

Lemma archive_file_parent root h :
  removelast (archive_file root h) = root ++ [nth_char h 0; nth_char h 1].
Proof. unfold archive_file. by rewrite removelast_app. Qed.

(** X10.  Bytes downloaded for a flight whose digest [h] no trace row
    holds yet: the trace table gains exactly one row, whose id is
    returned and which holds the time read before the request was sent,
    the record's logger file name and the digest; the directory
    [<archive_root>/<h[0]>/<h[1]>] and all its ancestors exist afterwards;
    and nothing of this is committed by the archiver. *)
Theorem archive_records_new_trace (E : env) (archive_root : path)
    (fd : flight_record) (flight_id name : pyval) (r : response) (w : world) :
  fd !! "FlightID" = Some flight_id ->
  fd !! "LoggerFile" = Some name ->
  http E (trace_url E flight_id) ∅ = Some r ->
  let h := SHA256.hexdigest (content r) in
  select_trace h (session w) = None ->
  exists (i : Z) (w' : world),
    download_and_archive_trace E archive_root fd w = (Ok (Some i), w')
    /\ trace (session w')
       = trace (session w) ++ [Trace.Row i (clock E (ticks w)) (to_sql name) h]
    /\ (i ∉ (Trace.id <$> trace (session w)))
    /\ (forall p, p <> [] ->
                  p `prefix_of` archive_root ++ [nth_char h 0; nth_char h 1] ->
                  p ∈ dirs w')
    /\ durable w' = durable w.
Proof.
  intros Hid Hname Hr h Hsel.
  rewrite (download_run E archive_root fd w _ _ Hid Hname), Hr.
  rewrite archive_trace_run. unfold after_download. simpl_world. fold h.
  rewrite Hsel. eexists. eexists. split; [reflexivity|]. simpl_world.
  split; [done|]. split; [|split; [|done]].
  - apply next_rowid_fresh.
  - intros p Hp Hpre. apply elem_of_union_r, elem_of_list_to_set.
    rewrite archive_file_parent. by apply with_parents_prefix.
Qed.

Lemma archive_records_new_trace_witness :
  let h := SHA256.hexdigest (bytes_of "hello") in
  exists (i : Z) (w' : world),
    download_and_archive_trace sample_env ["traces"]
      (sample_record 7 "a.igc") empty_world = (Ok (Some i), w')
    /\ trace (session w')
       = trace (session empty_world)
         ++ [Trace.Row i (clock sample_env (ticks empty_world))
                       (to_sql (PStr "a.igc")) h]
    /\ (i ∉ (Trace.id <$> trace (session empty_world)))
    /\ (forall p, p <> [] ->
                  p `prefix_of` ["traces"] ++ [nth_char h 0; nth_char h 1] ->
                  p ∈ dirs w')
    /\ durable w' = durable empty_world.
Proof.
  intros h.
  apply (archive_records_new_trace sample_env ["traces"]
           (sample_record 7 "a.igc") (PInt 7) (PStr "a.igc")
           (Response (bytes_of "hello") None) empty_world);
    vm_compute; reflexivity.
Defined.

Lemma count_after_task t c codes :
  task_ids_dense t ->
  count_distinct_task_ids
    (set_task (task t ++ task_rows (count_distinct_task_ids t) (c :: codes)) t)
  = count_distinct_task_ids t + 1.
Proof.
  intros Hd. set (n := count_distinct_task_ids t).
  assert (n ∉ (Task.id <$> task t)) as Hn by (rewrite (Hd n); lia).
  unfold count_distinct_task_ids. simpl_world.
  rewrite fmap_app, task_rows_ids, list_to_set_app_L.
  assert (list_to_set (replicate (length (c :: codes)) n) =@{gset Z} {[ n ]})
    as ->.
  { apply set_eq. intros x. rewrite elem_of_list_to_set, elem_of_singleton.
    rewrite elem_of_replicate. simpl. split; [tauto | intros ->; split; lia]. }
  rewrite size_union, size_singleton.
  - subst n. unfold count_distinct_task_ids. lia.
  - apply disjoint_singleton_r. by rewrite elem_of_list_to_set.
Qed.

(** X11.  Task ids are handed out in sequence.  With the task ids in use
    dense, the task of a record with at least one turnpoint gets an id no
    row carries yet, and the task inserted next, for any record, gets the
    following id. *)
Theorem insert_task_ids_consecutive (fd1 fd2 : flight_record) (w : world) :
  task_ids_dense (session w) ->
  turnpoints fd1 <> Some [] ->
  exists (w1 w2 : world),
    insert_task fd1 w = (Ok (count_distinct_task_ids (session w)), w1)
    /\ (count_distinct_task_ids (session w) ∉ (Task.id <$> task (session w)))
    /\ (count_distinct_task_ids (session w) ∈ (Task.id <$> task (session w1)))
    /\ insert_task fd2 w1 = (Ok (count_distinct_task_ids (session w) + 1), w2).
Proof.
  intros Hd Hne.
  destruct (insert_task_run fd1 w) as (codes & Hcodes & Hrun).
  destruct codes as [|c codes]; [done|].
  destruct (insert_task_run fd2 (snd (insert_task fd1 w)))
    as (codes2 & _ & Hrun2).
  eexists. eexists. split; [exact Hrun|].
  split; [rewrite (Hd _); lia|]. split.
  - simpl_world. rewrite fmap_app, task_rows_ids. simpl.
    apply elem_of_app. right. left.
  - rewrite Hrun in Hrun2. simpl_world. simpl snd in Hrun2.
    rewrite Hrun2. simpl_world. by rewrite (count_after_task _ _ _ Hd).
Qed.

Lemma insert_task_ids_consecutive_witness :
  exists (w1 w2 : world),
    insert_task (sample_record 7 "a.igc") empty_world
    = (Ok (count_distinct_task_ids (session empty_world)), w1)
    /\ (count_distinct_task_ids (session empty_world)
        ∉ (Task.id <$> task (session empty_world)))
    /\ (count_distinct_task_ids (session empty_world)
        ∈ (Task.id <$> task (session w1)))
    /\ insert_task (sample_record_no_task 8) w1
       = (Ok (count_distinct_task_ids (session empty_world) + 1), w2).
Proof.
  apply (insert_task_ids_consecutive (sample_record 7 "a.igc")
           (sample_record_no_task 8) empty_world).
  - apply task_ids_dense_empty.
  - vm_compute. discriminate.
Defined.

(* ===================================================================== *)
(** * Further properties: a scrape and its counts                         *)
(* ===================================================================== *)

Lemma bind_run {A B} (m : M A) (k : A -> M B) w :
  bind m k w
  = match m w with
    | (Ok a, w') => k a w'
    | (Raise e, w') => (Raise e, w')
    | (OutOfFuel, w') => (OutOfFuel, w')
    end.
Proof. reflexivity. Qed.

Lemma never_raises_try_other {A} e e' (m h : M A) :
  never_raises e m -> never_raises e h -> never_raises e (try_except m e' h).
Proof.
  intros Hm Hh w. unfold try_except. specialize (Hm w).
  destruct (m w) as [[a|e''|] w']; simpl in *; try done.
  destruct (decide (e'' = e')); [apply Hh | done].
Qed.

Lemma no_existing_getitem fd key :
  never_raises ExistingFlight (getitem fd key).
Proof.
  unfold getitem. destruct (fd !! key);
    [apply never_raises_ret | by apply never_raises_raise].
Qed.

Lemma no_existing_pilot f s l :
  never_raises ExistingFlight (get_or_create_pilot f s l).
Proof. intros w. rewrite get_or_create_pilot_run. by repeat case_match. Qed.

Lemma no_existing_club c :
  never_raises ExistingFlight (get_or_create_club c).
Proof. intros w. rewrite get_or_create_club_run. by repeat case_match. Qed.

Lemma no_existing_glider_model n c :
  never_raises ExistingFlight (get_or_create_glider_model n c).
Proof.
  intros w. rewrite get_or_create_glider_model_run. by repeat case_match.
Qed.

Lemma no_existing_glider g m :
  never_raises ExistingFlight (get_or_create_glider g m).
Proof. intros w. rewrite get_or_create_glider_run. by repeat case_match. Qed.

Lemma no_existing_archive root t0 name data :
  never_raises ExistingFlight (archive_trace root t0 name data).
Proof. intros w. rewrite archive_trace_run. by repeat case_match. Qed.

Lemma no_existing_download E root fd :
  never_raises ExistingFlight (download_and_archive_trace E root fd).
Proof.
  unfold download_and_archive_trace.
  apply never_raises_bind; [apply no_existing_getitem | intros flight_id].
  apply never_raises_bind; [apply no_existing_getitem | intros name].
  apply never_raises_bind; [by intros w | intros t0].
  apply never_raises_bind.
  - apply never_raises_try_other; [|apply never_raises_ret].
    apply never_raises_bind; [|intros r; apply never_raises_ret].
    intros w. unfold requests_get. by case_match.
  - intros [r|]; [apply no_existing_archive | apply never_raises_ret].
Qed.

Lemma no_existing_insert_task fd :
  never_raises ExistingFlight (insert_task fd).
Proof. intros w. by destruct (insert_task_run fd w) as (codes & _ & ->). Qed.

(** [ExistingFlight] comes out of the check at the start of
    [insert_bga_flight] and of nothing after it, so it leaves the world
    as it was. *)
Lemma insert_bga_flight_existing_inv E root fd t w w' :
  insert_bga_flight E root fd t w = (Raise ExistingFlight, w') ->
  w' = w /\ already_stored fd (session w) = true.
Proof.
  unfold insert_bga_flight, already_stored, has_key, is_new_flight, dict_get.
  rewrite bind_run. unfold getitem at 1.
  destruct (fd !! "FlightID") as [v|]; [|discriminate]. simpl.
  rewrite bind_run. unfold get_session at 1.
  destruct (select_flight (to_sql v) (session w)); [by intros [= <-]|].
  intros H. exfalso.
  match type of H with
  | ?m w = _ => assert (never_raises ExistingFlight m) as Hn
  end; [|by specialize (Hn w); rewrite H in Hn].
  repeat (apply never_raises_bind;
          [first [ apply no_existing_getitem
                 | apply no_existing_pilot
                 | apply no_existing_club
                 | apply no_existing_glider_model
                 | apply no_existing_glider
                 | apply no_existing_download
                 | apply no_existing_insert_task ]
          | intros ? ]).
  apply never_raises_bind.
  { unfold parse_flight_date. repeat case_match;
      first [apply never_raises_ret | by apply never_raises_raise]. }
  intros flight_date.
  repeat (apply never_raises_bind; [apply no_existing_getitem | intros ?]).
  apply never_raises_bind.
  { case_match; [apply never_raises_ret | apply no_existing_getitem]. }
  intros wooden.
  repeat (apply never_raises_bind; [apply no_existing_getitem | intros ?]).
  apply never_raises_bind; [|intros _; by intros w0].
  intros w0. unfold insert_flight, bind, get_session, put_session.
  by case_match.
Qed.

(** What a call of the callback that returns has done: nothing, for a
    flight that is stored already, or a whole ingestion. *)
Lemma process_flight_ok_inv E root t fd n w n' w' :
  process_flight E root t fd n w = (Ok n', w') ->
  (n' = n /\ w' = w /\ already_stored fd (session w) = true)
  \/ (n' = S n /\ insert_bga_flight E root fd t w = (Ok tt, w')).
Proof.
  unfold process_flight, try_except. rewrite bind_run.
  destruct (insert_bga_flight E root fd t w) as [[[]|e|] w1] eqn:Hrun.
  - intros [= <- <-]. right. split; [lia | done].
  - destruct (decide (e = ExistingFlight)) as [->|]; [|done].
    intros [= <- <-].
    apply insert_bga_flight_existing_inv in Hrun as [-> Hst]. by left.
  - done.
Qed.

Lemma for_flights_counts E root t :
  forall fl n w n' w',
    for_flights (process_flight E root) t fl n w = (Ok n', w') ->
    (n <= n' <= n + length fl)%nat
    /\ length (flight (session w'))
       = (length (flight (session w)) + (n' - n))%nat
    /\ (durable w = session w -> durable w' = session w').
Proof.
  induction fl as [|fd fl IH]; intros n w n' w' H; simpl in H.
  - injection H as <- <-. repeat split; [lia.. | done].
  - inv_bind H n1 w1 H1.
    destruct (IH _ _ _ _ H) as (Hn & Hlen & Hdur).
    apply process_flight_ok_inv in H1 as [(-> & -> & _)|[-> H1]].
    + simpl. repeat split; [lia.. | done | done].
    + apply insert_bga_flight_ok_inv in H1
        as (v & row & codes & _ & _ & _ & Hfl & _ & Hd1 & _).
      rewrite Hlen, Hfl, length_app. simpl.
      repeat split; [lia.. | by intros _; apply Hdur].
Qed.

Lemma page_loop_counts E root size :
  forall fuel params page total n w total' n' w',
    page_loop E (process_flight E root) fuel params size page total n w
    = (Ok (total', n'), w') ->
    (total <= total')%nat /\ (n <= n')%nat
    /\ (n' - n <= total' - total)%nat
    /\ length (flight (session w'))
       = (length (flight (session w)) + (n' - n))%nat
    /\ (durable w = session w -> durable w' = session w').
Proof.
  induction fuel as [|fuel IH]; intros params page total n w total' n' w' H;
    [done|].
  simpl in H.
  inv_bind H r w1 Hr.
  assert (session w1 = session w /\ durable w1 = durable w) as [Hs1 Hd1].
  { unfold requests_get in Hr. by destruct (http E _ _); simplify_eq. }
  inv_bind H t0 w2 Ht. injection Ht as <- <-.
  inv_bind H flights w3 Hrows.
  assert (w3 = World (durable w1) (session w1) (files w1) (dirs w1)
                     (requests w1) (S (ticks w1))) as ->.
  { unfold rows_of, ret, raise in Hrows.
    by destruct (json_rows r); simplify_eq. }
  inv_bind H n1 w4 Hfor.
  apply for_flights_counts in Hfor as (Hn & Hlen & Hdur).
  simpl_world. rewrite Hs1 in Hlen.
  rewrite Hs1, Hd1 in Hdur.
  destruct (length flights <? size)%nat.
  - injection H as <- <- <-. repeat split; [lia.. | done | done].
  - apply IH in H as (Ht & Hn' & Hle & Hlen' & Hdur').
    repeat split; [lia.. | | by intros Hw; apply Hdur', Hdur].
    rewrite Hlen', Hlen. lia.
Qed.

(** X12.  When a day's scrape returns its two counts, the new flights are
    among the flights found, the flight table has grown by exactly as
    many rows as flights were counted new, and, if nothing was
    uncommitted before, nothing is uncommitted afterwards. *)
Theorem scrape_day_counts (E : env) (archive_root : path) (query_date : date)
    (fuel : nat) (w : world) (total_found new_flights : nat) :
  fst (scrape_day E archive_root query_date fuel w)
  = Ok (total_found, new_flights) ->
  let w' := snd (scrape_day E archive_root query_date fuel w) in
  (new_flights <= total_found)%nat
  /\ length (flight (session w'))
     = (length (flight (session w)) + new_flights)%nat
  /\ (durable w = session w -> durable w' = session w').
Proof.
  intros Hok w'. subst w'. apply run_ok in Hok.
  unfold scrape_day, get_daily_flights in *.
  apply page_loop_counts in Hok as (_ & _ & Hle & Hlen & Hdur).
  repeat split; [lia | | done]. rewrite Hlen. lia.
Qed.

Lemma scrape_day_counts_witness :
  let run := scrape_day season_env ["traces"] (Date 2023 5 17) 2 empty_world in
  fst run = Ok (3%nat, 2%nat)
  /\ (2 <= 3)%nat
  /\ length (flight (session (snd run)))
     = (length (flight (session empty_world)) + 2)%nat
  /\ (durable empty_world = session empty_world ->
      durable (snd run) = session (snd run)).
Proof.
  intros run.
  assert (fst run = Ok (3%nat, 2%nat)) as Hok by (vm_compute; reflexivity).
  split; [exact Hok|].
  exact (scrape_day_counts season_env ["traces"] (Date 2023 5 17) 2
           empty_world 3 2 Hok).
Defined.

(* ===================================================================== *)
(** * Further properties: the requests of a season's scrape               *)
(* ===================================================================== *)

Lemma same_pages_trans w1 w2 w3 :
  same_pages w1 w2 -> same_pages w2 w3 -> same_pages w1 w3.
Proof. unfold same_pages. congruence. Qed.

Lemma same_pages_bind {A B} (m : M A) (k : A -> M B) :
  respects same_pages m -> (forall a, respects same_pages (k a)) ->
  respects same_pages (bind m k).
Proof. apply respects_bind, same_pages_trans. Qed.

Lemma same_pages_ret {A} (a : A) : respects same_pages (ret a).
Proof. by intros w r w' [= <- <-]. Qed.

Lemma same_pages_raise {A} e : respects same_pages (@raise A e).
Proof. by intros w r w' [= <- <-]. Qed.

Lemma same_pages_getitem fd key : respects same_pages (getitem fd key).
Proof.
  unfold getitem.
  destruct (fd !! key); [apply same_pages_ret | apply same_pages_raise].
Qed.

Lemma same_pages_pilot f s l : respects same_pages (get_or_create_pilot f s l).
Proof.
  intros w r w'. rewrite get_or_create_pilot_run.
  by repeat case_match; intros [= <- <-].
Qed.

Lemma same_pages_club c : respects same_pages (get_or_create_club c).
Proof.
  intros w r w'. rewrite get_or_create_club_run.
  by repeat case_match; intros [= <- <-].
Qed.

Lemma same_pages_glider_model n c :
  respects same_pages (get_or_create_glider_model n c).
Proof.
  intros w r w'. rewrite get_or_create_glider_model_run.
  by repeat case_match; intros [= <- <-].
Qed.

Lemma same_pages_glider g m : respects same_pages (get_or_create_glider g m).
Proof.
  intros w r w'. rewrite get_or_create_glider_run.
  by repeat case_match; intros [= <- <-].
Qed.

Lemma same_pages_archive root t0 name data :
  respects same_pages (archive_trace root t0 name data).
Proof.
  intros w r w'. rewrite archive_trace_run.
  by case_match; intros [= <- <-].
Qed.

(** The address of a trace is never that of the scoring endpoint. *)
Lemma trace_url_not_base E v : trace_url E v <> base_url.
Proof. unfold trace_url, base_url. simpl. discriminate. Qed.

Lemma same_pages_download E root fd :
  respects same_pages (download_and_archive_trace E root fd).
Proof.
  unfold download_and_archive_trace.
  apply same_pages_bind; [apply same_pages_getitem | intros flight_id].
  apply same_pages_bind; [apply same_pages_getitem | intros name].
  apply same_pages_bind; [by intros w r w' [= <- <-] | intros t0].
  apply same_pages_bind.
  - intros w r w'. unfold try_except, bind, requests_get, ret.
    assert (same_pages w
              (World (durable w) (session w) (files w) (dirs w)
                     (requests w ++ [(trace_url E flight_id, ∅)]) (ticks w)))
      as Hsame.
    { unfold same_pages, page_requests. simpl_world.
      rewrite filter_app, filter_cons_False, filter_nil, app_nil_r; [done|].
      apply trace_url_not_base. }
    destruct (http E _ _); simpl; by intros [= <- <-].
  - intros [r|]; [apply same_pages_archive | apply same_pages_ret].
Qed.

Lemma same_pages_insert_task fd : respects same_pages (insert_task fd).
Proof.
  intros w r w'. destruct (insert_task_run fd w) as (codes & _ & ->).
  by intros [= <- <-].
Qed.

Lemma same_pages_insert_bga_flight E root fd t :
  respects same_pages (insert_bga_flight E root fd t).
Proof.
  unfold insert_bga_flight.
  apply same_pages_bind; [apply same_pages_getitem | intros v].
  apply same_pages_bind; [by intros w r w' [= <- <-] | intros tb].
  destruct (select_flight _ _); [apply same_pages_raise|].
  repeat (apply same_pages_bind;
          [first [ apply same_pages_getitem
                 | apply same_pages_pilot
                 | apply same_pages_club
                 | apply same_pages_glider_model
                 | apply same_pages_glider
                 | apply same_pages_download
                 | apply same_pages_insert_task ]
          | intros ? ]).
  apply same_pages_bind.
  { unfold parse_flight_date. repeat case_match;
      first [apply same_pages_ret | apply same_pages_raise]. }
  intros flight_date.
  repeat (apply same_pages_bind; [apply same_pages_getitem | intros ?]).
  apply same_pages_bind.
  { case_match; [apply same_pages_ret | apply same_pages_getitem]. }
  intros wooden.
  repeat (apply same_pages_bind; [apply same_pages_getitem | intros ?]).
  apply same_pages_bind; [|intros _; by intros w r w' [= <- <-]].
  intros w r w'. unfold insert_flight, bind, get_session, put_session.
  by case_match; intros [= <- <-].
Qed.

Lemma same_pages_process_flight E root t fd n :
  respects same_pages (process_flight E root t fd n).
Proof.
  intros w r w'. unfold process_flight, try_except. rewrite bind_run.
  destruct (insert_bga_flight E root fd t w) as [[[]|e|] w1] eqn:Hrun;
    apply same_pages_insert_bga_flight in Hrun.
  - by intros [= <- <-].
  - by destruct (decide (e = ExistingFlight)); intros [= <- <-].
  - by intros [= <- <-].
Qed.

Lemma same_pages_for_flights E root t :
  forall fl n, respects same_pages (for_flights (process_flight E root) t fl n).
Proof.
  induction fl as [|fd fl IH]; intros n; simpl; [apply same_pages_ret|].
  apply same_pages_bind; [apply same_pages_process_flight | intros n1; apply IH].
Qed.

Lemma page_loop_page_requests E root size base :
  forall fuel params page total n w,
    (forall i, <["page" := i]> params = <["page" := i]> base) ->
    exists k,
      (Nat.min 1 fuel <= k <= fuel)%nat
      /\ page_requests
           (snd (page_loop E (process_flight E root) fuel params size page
                           total n w))
         = page_requests w
           ++ ((fun i => (base_url, <["page" := Z.of_nat i]> base))
                 <$> seq page k).
Proof.
  induction fuel as [|fuel IH]; intros params page total n w Hparams.
  { exists 0%nat. simpl. by rewrite app_nil_r. }
  simpl. rewrite Hparams.
  set (q := <["page" := Z.of_nat page]> base).
  set (w1 := World (durable w) (session w) (files w) (dirs w)
                   (requests w ++ [(base_url, q)]) (ticks w)).
  assert (page_requests w1 = page_requests w ++ [(base_url, q)]) as Hw1.
  { unfold page_requests, w1. simpl_world.
    by rewrite filter_app, filter_cons_True, filter_nil. }
  assert (forall w2, same_pages w1 w2 ->
            exists k, (1 <= k <= S fuel)%nat /\
              page_requests w2
              = page_requests w
                ++ ((fun i => (base_url, <["page" := Z.of_nat i]> base))
                      <$> seq page k)) as Hone.
  { intros w2 Hw2. exists 1%nat. split; [lia|]. by rewrite Hw2, Hw1. }
  rewrite bind_run. unfold requests_get at 1. fold w1.
  destruct (http E base_url q) as [r|]; [|by apply Hone].
  rewrite bind_run. unfold now at 1. simpl_world.
  set (w2 := World _ _ _ _ _ (S _)).
  rewrite bind_run. unfold rows_of at 1.
  destruct (json_rows r) as [flights|]; [|by apply Hone].
  unfold ret at 1. rewrite bind_run.
  destruct (for_flights _ _ flights n w2) as [[n1|e|] w3] eqn:Hfor;
    apply same_pages_for_flights in Hfor;
    [|by apply Hone..].
  destruct (length flights <? size)%nat; [by apply Hone|].
  destruct (IH q (S page) (total + length flights)%nat n1 w3) as (k & Hk & ->).
  { intros i. unfold q. by rewrite insert_insert_eq. }
  exists (S k). split; [lia|].
  rewrite Hfor. change (page_requests w2) with (page_requests w1).
  rewrite Hw1, <- app_assoc. reflexivity.
Qed.

(** X13.  However a season's scrape ends, the requests it has sent to the
    scoring endpoint are those for the pages [1 .. k] of one query, in
    this order, for some [k] of at least one (given any fuel) and at most
    the fuel: what the ingestion of the records requests in between goes
    elsewhere.  The query asks for 100 rows of the season and carries no
    month and no day. *)
Theorem scrape_season_page_requests (E : env) (archive_root : path)
    (season : Z) (fuel : nat) (w : world) :
  exists k : nat,
    (Nat.min 1 fuel <= k <= fuel)%nat
    /\ page_requests (snd (scrape_season E archive_root season fuel w))
       = page_requests w
         ++ ((fun i => (base_url,
                        <["page" := Z.of_nat i]>
                          (<["Season" := season]> {[ "rows" := 100 ]})))
               <$> seq 1 k).
Proof.
  destruct (page_loop_page_requests E archive_root 100
              (<["Season" := season]> {[ "rows" := 100 ]}) fuel
              (query_params (Some season) None None 100) 1 0 0 w)
    as (k & Hk & Hreq); [done|].
  exists k. split; [done|]. rewrite <- Hreq.
  unfold scrape_season, get_daily_flights. rewrite bind_run.
  by destruct (page_loop _ _ _ _ _ _ _ _ _) as [[[]| |] ?].
Qed.

(* ===================================================================== *)
(** * Further properties: scraping again, and scrapes that fail           *)
(* ===================================================================== *)

Lemma process_flight_stored E root t fd n w :
  already_stored fd (session w) = true ->
  process_flight E root t fd n w = (Ok n, w).
Proof.
  unfold already_stored, has_key, is_new_flight. intros Hst.
  destruct (fd !! "FlightID") as [v|] eqn:Hv; [|done]. simpl in Hst.
  rewrite (dict_get_some _ _ _ Hv) in Hst.
  destruct (select_flight (to_sql v) (session w)) as [i|] eqn:Hsel; [|done].
  unfold process_flight, try_except. rewrite bind_run.
  by rewrite (insert_bga_flight_skip E root fd t w v i Hv Hsel).
Qed.

Lemma for_flights_stored E root t :
  forall fl n w,
    forallb (fun fd => already_stored fd (session w)) fl = true ->
    for_flights (process_flight E root) t fl n w = (Ok n, w).
Proof.
  induction fl as [|fd fl IH]; intros n w Hall; [done|].
  simpl in Hall. apply andb_true_iff in Hall as [Hfd Hall]. simpl.
  rewrite (bind_ok _ _ _ _ _ (process_flight_stored E root t fd n w Hfd)).
  by apply IH.
Qed.

Lemma visit_pages_stored E root base :
  forall pgs page total n w,
    serves E base page pgs = true ->
    forallb (fun fd => already_stored fd (session w)) (concat pgs) = true ->
    visit_pages E (process_flight E root) base (seq page (length pgs)) total n w
    = (Ok ((total + length (concat pgs))%nat, n),
       World (durable w) (session w) (files w) (dirs w)
             (requests w
              ++ ((fun i => (base_url, <["page" := Z.of_nat i]> base))
                    <$> seq page (length pgs)))
             (ticks w + length pgs)).
Proof.
  induction pgs as [|p rest IH]; intros page total n w Hserves Hall.
  - simpl. unfold ret. rewrite !app_nil_r, !Nat.add_0_r. by destruct w.
  - apply serves_cons in Hserves as (r & Hhttp & Hrows & Hserves).
    simpl in Hall. rewrite forallb_app in Hall.
    apply andb_true_iff in Hall as [Hp Hrest].
    simpl.
    rewrite (bind_ok _ _ _ _ _ (requests_get_ok _ _ _ _ _ Hhttp)).
    rewrite (bind_ok _ _ _ _ _ (now_run _ _)).
    rewrite (bind_ok _ _ _ _ _ (rows_of_ok _ _ _ Hrows)).
    match goal with
    | |- context [bind (for_flights _ ?t p n) _ ?wx] =>
        rewrite (bind_ok _ _ _ _ _ (for_flights_stored E root t p n wx Hp));
        rewrite (IH _ _ _ wx Hserves Hrest)
    end.
    simpl_world.
    rewrite length_app, <- !app_assoc, Nat.add_assoc. simpl.
    by rewrite Nat.add_succ_r.
Qed.

(** X14.  Scraping what is stored already adds nothing.  When every
    record of the pages served carries the id of a stored flight, the
    scrape returns the number of records found and leaves the count of
    new flights as it was; tables, files and directories are untouched,
    no trace is asked for, and only the page requests and the clock
    readings are added. *)
Theorem rescrape_adds_nothing (E : env) (archive_root : path)
    (query_season query_month query_day : option Z)
    (pgs : list (list flight_record)) (fuel new_flights : nat) (w : world) :
  serves E (query_params query_season query_month query_day 100) 1 pgs = true ->
  first_short_is_last 100 pgs = true ->
  (length pgs <= fuel)%nat ->
  forallb (fun fd => already_stored fd (session w)) (concat pgs) = true ->
  get_daily_flights E (process_flight E archive_root) fuel new_flights
    query_season query_month query_day 100 w
  = (Ok (length (concat pgs), new_flights),
     World (durable w) (session w) (files w) (dirs w)
           (requests w
            ++ ((fun i => (base_url,
                           <["page" := Z.of_nat i]>
                             (query_params query_season query_month
                                           query_day 100)))
                  <$> seq 1 (length pgs)))
           (ticks w + length pgs)).
Proof.
  intros Hserves Hshort Hfuel Hall. unfold get_daily_flights.
  rewrite (page_loop_pages E _ _ 100 pgs fuel _ 1 0 new_flights w
             (fun _ => eq_refl) Hserves Hshort Hfuel).
  by rewrite (visit_pages_stored E archive_root _ pgs 1 0 new_flights w
                Hserves Hall).
Qed.

Lemma rescrape_adds_nothing_witness :
  let w := snd (scrape_season season_env ["traces"] 2023 2 empty_world) in
  get_daily_flights season_env (process_flight season_env ["traces"]) 2 0%nat
    (Some 2023) None None 100 w
  = (Ok (length (concat [season_page]), 0%nat),
     World (durable w) (session w) (files w) (dirs w)
           (requests w
            ++ ((fun i => (base_url,
                           <["page" := Z.of_nat i]>
                             (query_params (Some 2023) None None 100)))
                  <$> seq 1 (length [season_page])))
           (ticks w + length [season_page])).
Proof.
  intros w.
  apply (rescrape_adds_nothing season_env ["traces"] (Some 2023) None None
           [season_page] 2%nat 0%nat w).
  - vm_compute. reflexivity.
  - vm_compute. reflexivity.
  - simpl. lia.
  - vm_compute. reflexivity.
Defined.

Lemma not_found_process_flight E root t fd n :
  never_raises NotFound (process_flight E root t fd n).
Proof.
  unfold process_flight.
  apply never_raises_try_other; [|apply never_raises_ret].
  apply never_raises_bind; [apply never_raises_insert_bga_flight|].
  intros _. apply never_raises_ret.
Qed.

Lemma not_found_for_flights E root t :
  forall fl n, never_raises NotFound (for_flights (process_flight E root) t fl n).
Proof.
  induction fl as [|fd fl IH]; intros n; simpl; [apply never_raises_ret|].
  apply never_raises_bind; [apply not_found_process_flight | intros n1; apply IH].
Qed.

Lemma page_loop_not_found E root size :
  forall fuel params page total n w w',
    page_loop E (process_flight E root) fuel params size page total n w
    = (Raise NotFound, w') ->
    (exists q, last (requests w') = Some (base_url, q)
               /\ http E base_url q = None)
    /\ (durable w = session w -> durable w' = session w').
Proof.
  induction fuel as [|fuel IH]; intros params page total n w w' H; [done|].
  simpl in H. rewrite bind_run in H. unfold requests_get at 1 in H.
  destruct (http E base_url (<["page" := Z.of_nat page]> params)) as [r|]
    eqn:Hhttp.
  2: { injection H as <-. simpl_world. split; [|done].
       eexists. by rewrite last_snoc. }
  rewrite bind_run in H. unfold now at 1 in H. simpl_world.
  rewrite bind_run in H. unfold rows_of at 1 in H.
  destruct (json_rows r) as [flights|]; [|done].
  unfold ret at 1 in H. rewrite bind_run in H.
  destruct (for_flights _ _ flights n _) as [[n1|e|] w3] eqn:Hfor.
  - apply for_flights_counts in Hfor as (_ & _ & Hdur). simpl_world.
    destruct (length flights <? size)%nat; [done|].
    apply IH in H as [Hq Hdur']. split; [done|].
    intros Hw. by apply Hdur', Hdur.
  - injection H as -> <-.
    match type of Hfor with
    | for_flights _ ?t flights n ?wx = _ =>
        pose proof (not_found_for_flights E root t flights n wx) as Hn
    end.
    by rewrite Hfor in Hn.
  - done.
Qed.

(** X15.  A season's scrape ends in [NotFound] only when the scoring
    endpoint refused a page: the last request sent is a page request that
    the service did not answer with status 200, since a trace that is not
    found is tolerated.  The flights ingested from the pages before stay:
    if nothing was uncommitted at the start, nothing is at the end. *)
Theorem scrape_season_not_found (E : env) (archive_root : path) (season : Z)
    (fuel : nat) (w : world) :
  fst (scrape_season E archive_root season fuel w) = Raise NotFound ->
  let w' := snd (scrape_season E archive_root season fuel w) in
  (exists q, last (requests w') = Some (base_url, q)
             /\ http E base_url q = None)
  /\ (durable w = session w -> durable w' = session w').
Proof.
  intros Hrun w'. subst w'. revert Hrun.
  unfold scrape_season, get_daily_flights. rewrite bind_run.
  destruct (page_loop _ _ _ _ _ _ _ _ _) as [[[]|e|] w1] eqn:Hloop;
    simpl; try done.
  intros [= ->]. by apply page_loop_not_found in Hloop.
Qed.

Lemma scrape_season_not_found_witness :
  let w' := snd (scrape_season offline_env ["traces"] 2023 3 empty_world) in
  (exists q, last (requests w') = Some (base_url, q)
             /\ http offline_env base_url q = None)
  /\ (durable empty_world = session empty_world -> durable w' = session w').
Proof.
  apply (scrape_season_not_found offline_env ["traces"] 2023 3 empty_world).
  vm_compute. reflexivity.
Defined.

(** X16.  The callback of a scrape catches [ExistingFlight] and nothing
    else: when the ingestion of a record raises anything else, say
    [KeyError] for a missing field, the loop over the page raises it too
    and the records after it are not looked at. *)
Theorem for_flights_aborts (E : env) (archive_root : path)
    (scraped_at : datetime) (fd : flight_record) (rest : list flight_record)
    (new_flights : nat) (e : exn) (w w' : world) :
  insert_bga_flight E archive_root fd scraped_at w = (Raise e, w') ->
  e <> ExistingFlight ->
  for_flights (process_flight E archive_root) scraped_at (fd :: rest)
              new_flights w
  = (Raise e, w').
Proof.
  intros Hrun Hne. simpl. apply bind_raise.
  unfold process_flight, try_except. rewrite bind_run, Hrun.
  by destruct (decide (e = ExistingFlight)).
Qed.

Lemma for_flights_aborts_witness :
  for_flights (process_flight sample_env ["traces"]) 100
    (delete "FlightID" (sample_record 7 "a.igc") :: [sample_record 8 "b.igc"])
    0%nat empty_world
  = (Raise (KeyError "FlightID"), empty_world).
Proof.
  apply (for_flights_aborts sample_env ["traces"] 100
           (delete "FlightID" (sample_record 7 "a.igc"))
           [sample_record 8 "b.igc"] 0%nat (KeyError "FlightID")
           empty_world empty_world).
  - apply bind_raise. unfold getitem.
    by assert (delete "FlightID" (sample_record 7 "a.igc") !! "FlightID" = None)
      as -> by (vm_compute; reflexivity).
  - discriminate.
Defined.

(* ===================================================================== *)
(** * Further properties: the bulk prefill                                *)
(* ===================================================================== *)

Lemma advances_insert_club_row n u c : respects advances (insert_club_row n u c).
Proof.
  intros w r w'. unfold insert_club_row, bind, get_session, put_session.
  case_match; intros [= <- <-]; solve_advances.
Qed.

Lemma advances_insert_pilot f s l : respects advances (insert_pilot f s l).
Proof.
  intros w r w'. unfold insert_pilot, bind, get_session, put_session.
  case_match; intros [= <- <-]; solve_advances.
Qed.

Lemma advances_insert_glider_model_row n s v t h l :
  respects advances (insert_glider_model_row n s v t h l).
Proof.
  intros w r w'.
  unfold insert_glider_model_row, bind, get_session, put_session.
  case_match; intros [= <- <-]; solve_advances.
Qed.

Lemma advances_json_of decode r : respects advances (json_of decode r).
Proof.
  unfold json_of.
  destruct (decode _); [apply advances_ret | apply advances_raise].
Qed.

Lemma advances_executemany_clubs data :
  respects advances (executemany_clubs data).
Proof.
  induction data as [|c rest IH]; simpl; [apply advances_ret|].
  repeat (apply advances_bind; [apply advances_getitem | intros ?]).
  apply advances_bind; [apply advances_insert_club_row | by intros _].
Qed.

Lemma advances_executemany_pilots data :
  respects advances (executemany_pilots data).
Proof.
  induction data as [|c rest IH]; simpl; [apply advances_ret|].
  repeat (apply advances_bind; [apply advances_getitem | intros ?]).
  apply advances_bind; [apply advances_insert_pilot | by intros _].
Qed.

Lemma advances_executemany_glider_models data :
  respects advances (executemany_glider_models data).
Proof.
  induction data as [|c rest IH]; simpl; [apply advances_ret|].
  repeat (apply advances_bind; [apply advances_getitem | intros ?]).
  apply advances_bind; [apply advances_insert_glider_model_row | by intros _].
Qed.

(** X17.  However a prefill ends, it has only appended rows to the
    session and sent its request: no row was removed or changed, and
    nothing was committed, which is left to the caller. *)
Theorem prefill_only_appends (decode : list byte -> option (list flight_record))
    (E : env) :
  respects advances (prefill_glider_models decode E)
  /\ respects advances (prefill_clubs decode E)
  /\ respects advances (prefill_pilots decode E).
Proof.
  unfold prefill_glider_models, prefill_clubs, prefill_pilots.
  split; [|split];
    (apply advances_bind; [apply advances_requests_get | intros r];
     apply advances_bind; [apply advances_json_of | intros data]).
  - apply advances_executemany_glider_models.
  - apply advances_executemany_clubs.
  - apply advances_executemany_pilots.
Qed.

Lemma insert_club_row_ok_inv n u c w w' :
  insert_club_row n u c w = (Ok tt, w') ->
  unique_ok Club.ladder_code c (club (session w)) = true
  /\ w' = with_session
            (set_club (club (session w)
                       ++ [Club.Row (next_rowid (Club.id <$> club (session w)))
                                    n u c]) (session w)) w.
Proof.
  unfold insert_club_row, bind, get_session, put_session, raise.
  destruct (unique_ok _ _ _); [|done]. by intros [= <-].
Qed.

(** Every item of a list that [executemany] has gone through is found
    by its code afterwards, in the row made of its three fields. *)
Lemma executemany_clubs_lookup :
  forall data w w' c,
    executemany_clubs data w = (Ok tt, w') ->
    c ∈ data ->
    to_sql (dict_get c "ID") <> VNull ->
    exists i,
      fetchone Club.id (fun r => sql_eq (Club.ladder_code r)
                                        (to_sql (dict_get c "ID")))
               (club (session w')) = Some i
      /\ club_of c i ∈ club (session w')
      /\ has_key c "Name" && has_key c "University" && has_key c "ID" = true.
Proof.
  induction data as [|d rest IH]; intros w w' c Hrun Hin Hnn.
  { by apply elem_of_nil in Hin. }
  simpl in Hrun.
  inv_getitem_as Hrun name Hname. inv_getitem_as Hrun uni Huni.
  inv_getitem_as Hrun code Hcode.
  inv_bind Hrun u w1 Hins. destruct u.
  apply insert_club_row_ok_inv in Hins as [Hu ->].
  apply elem_of_cons in Hin as [->|Hin]; [|by eapply IH].
  pose proof (advances_executemany_clubs _ _ _ _ Hrun)
    as ((_ & [more Hmore] & _) & _).
  simpl_world. unfold club_of.
  replace (dict_get d "Name") with name by done.
  replace (dict_get d "University") with uni by done.
  replace (dict_get d "ID") with code in * by done.
  exists (next_rowid (Club.id <$> club (session w))).
  rewrite Hmore. split; [|split].
  - apply fetchone_app_old.
    apply (fetchone_app_new Club.id
             (fun r => sql_eq (Club.ladder_code r) (to_sql code))).
    + by apply (unique_ok_fetchone Club.id).
    + simpl. by apply sql_eq_refl.
  - apply elem_of_app. left. apply elem_of_app. right. left.
  - unfold has_key. by rewrite Hname, Huni, Hcode.
Qed.

Lemma prefill_clubs_run decode E r data w :
  http E clubs_url ∅ = Some r ->
  decode (content r) = Some data ->
  prefill_clubs decode E w
  = executemany_clubs data
      (World (durable w) (session w) (files w) (dirs w)
             (requests w ++ [(clubs_url, ∅)]) (ticks w)).
Proof.
  intros Hr Hd. unfold prefill_clubs.
  rewrite (bind_ok _ _ _ _ _ (requests_get_ok _ _ _ _ _ Hr)).
  rewrite bind_run. unfold json_of. by rewrite Hd.
Qed.

(** X18.  Clubs that were prefilled are found again.  After a prefill of
    the clubs that returned, get-or-create of the code of any club of the
    list (a code that is not null) returns the id of the prefilled row,
    which holds the club's name, university flag and code, and changes
    nothing: no second row is made for the club. *)
Theorem prefill_clubs_then_get_or_create
    (decode : list byte -> option (list flight_record)) (E : env)
    (r : response) (data : list flight_record) (c : flight_record)
    (w : world) :
  http E clubs_url ∅ = Some r ->
  decode (content r) = Some data ->
  c ∈ data ->
  to_sql (dict_get c "ID") <> VNull ->
  fst (prefill_clubs decode E w) = Ok tt ->
  let w' := snd (prefill_clubs decode E w) in
  exists i,
    get_or_create_club (dict_get c "ID") w' = (Ok i, w')
    /\ club_of c i ∈ club (session w').
Proof.
  intros Hr Hd Hin Hnn Hok w'. subst w'. apply run_ok in Hok.
  rewrite (prefill_clubs_run _ _ _ _ _ Hr Hd) in *.
  destruct (executemany_clubs_lookup _ _ _ c Hok Hin Hnn) as (i & Hsel & Hrow & _).
  exists i. split; [|done].
  rewrite get_or_create_club_run. unfold is_club. by rewrite Hsel.
Qed.

Lemma prefill_clubs_then_get_or_create_witness :
  let c := list_to_map [("Name", PStr "Imperial College");
                        ("University", PBool true); ("ID", PStr "ICL")] in
  let w' := snd (prefill_clubs sample_decode prefill_env empty_world) in
  exists i,
    get_or_create_club (dict_get c "ID") w' = (Ok i, w')
    /\ club_of c i ∈ club (session w').
Proof.
  intros c.
  apply (prefill_clubs_then_get_or_create sample_decode prefill_env
           (Response (bytes_of "[...]") None) sample_clubs c empty_world).
  - reflexivity.
  - reflexivity.
  - unfold sample_clubs. right. left.
  - vm_compute. discriminate.
  - vm_compute. reflexivity.
Defined.

(** X19.  A prefill cannot be repeated.  After a prefill of the clubs
    that returned, over a list that starts with a club whose code is not
    null, a second prefill sends its request and raises [IntegrityError]
    at the first club, whose code is taken; it adds no row. *)
Theorem prefill_clubs_twice
    (decode : list byte -> option (list flight_record)) (E : env)
    (r : response) (c : flight_record) (data : list flight_record)
    (w : world) :
  http E clubs_url ∅ = Some r ->
  decode (content r) = Some (c :: data) ->
  to_sql (dict_get c "ID") <> VNull ->
  fst (prefill_clubs decode E w) = Ok tt ->
  let w' := snd (prefill_clubs decode E w) in
  prefill_clubs decode E w'
  = (Raise IntegrityError,
     World (durable w') (session w') (files w') (dirs w')
           (requests w' ++ [(clubs_url, ∅)]) (ticks w')).
Proof.
  intros Hr Hd Hnn Hok w'. apply run_ok in Hok. fold w' in Hok.
  clearbody w'. rewrite (prefill_clubs_run _ _ _ _ w Hr Hd) in Hok.
  rewrite (prefill_clubs_run _ _ _ _ w' Hr Hd).
  destruct (executemany_clubs_lookup _ _ _ c Hok ltac:(left) Hnn)
    as (i & Hsel & _ & Hkeys).
  apply andb_true_iff in Hkeys as [Hkeys Hcode].
  apply andb_true_iff in Hkeys as [Hname Huni].
  apply has_key_some in Hname as [name Hname].
  apply has_key_some in Huni as [uni Huni].
  apply has_key_some in Hcode as [code Hcode].
  rewrite (dict_get_some _ _ _ Hcode) in Hsel.
  simpl.
  rewrite (bind_ok _ _ _ _ _ (getitem_ok _ _ _ _ Hname)).
  rewrite (bind_ok _ _ _ _ _ (getitem_ok _ _ _ _ Huni)).
  rewrite (bind_ok _ _ _ _ _ (getitem_ok _ _ _ _ Hcode)).
  apply bind_raise.
  unfold insert_club_row, bind, get_session, put_session. simpl_world.
  destruct (unique_ok Club.ladder_code (to_sql code) _) eqn:Hu; [|done].
  apply (unique_ok_fetchone Club.id) in Hu. by rewrite Hu in Hsel.
Qed.

Lemma prefill_clubs_twice_witness :
  let w' := snd (prefill_clubs sample_decode prefill_env empty_world) in
  prefill_clubs sample_decode prefill_env w'
  = (Raise IntegrityError,
     World (durable w') (session w') (files w') (dirs w')
           (requests w' ++ [(clubs_url, ∅)]) (ticks w')).
Proof.
  apply (prefill_clubs_twice sample_decode prefill_env
           (Response (bytes_of "[...]") None)
           (list_to_map [("Name", PStr "Cambridge");
                         ("University", PBool false); ("ID", PStr "CAM")])
           (tail sample_clubs) empty_world).
  - reflexivity.
  - reflexivity.
  - vm_compute. discriminate.
  - vm_compute. reflexivity.
Defined.

Lemma executemany_clubs_app l1 l2 w :
  executemany_clubs (l1 ++ l2) w
  = (executemany_clubs l1 ;;; executemany_clubs l2) w.
Proof.
  revert w. induction l1 as [|c l1 IH]; intros w; [done|].
  simpl. rewrite !bind_run.
  destruct (getitem c "Name" w) as [[name|e|] w1]; [|done..].
  rewrite !bind_run.
  destruct (getitem c "University" w1) as [[uni|e|] w2]; [|done..].
  rewrite !bind_run.
  destruct (getitem c "ID" w2) as [[code|e|] w3]; [|done..].
  rewrite !bind_run.
  destruct (insert_club_row _ _ _ w3) as [[[]|e|] w4]; [|done..].
  rewrite IH. by rewrite bind_run.
Qed.

(** X20.  The bulk insert is not atomic.  When the items before one that
    lacks a field have been inserted, the insert raises [KeyError] for
    the first field that is missing, and the rows of the items before
    stay in the session, one row each, uncommitted; the items after it
    are not looked at. *)
Theorem executemany_clubs_partial (good rest : list flight_record)
    (bad : flight_record) (w w1 : world) :
  executemany_clubs good w = (Ok tt, w1) ->
  has_key bad "Name" && has_key bad "University" && has_key bad "ID" = false ->
  executemany_clubs (good ++ bad :: rest) w
  = (Raise (KeyError (if has_key bad "Name"
                      then if has_key bad "University" then "ID"
                           else "University"
                      else "Name")), w1)
  /\ length (club (session w1))
     = (length (club (session w)) + length good)%nat
  /\ durable w1 = durable w.
Proof.
  intros Hgood Hbad. split; [|split].
  - rewrite executemany_clubs_app. rewrite (bind_ok _ _ _ _ _ Hgood).
    simpl. unfold has_key in *. unfold getitem, bind, ret, raise.
    by destruct (bad !! "Name"), (bad !! "University"), (bad !! "ID").
  - clear Hbad. revert w Hgood.
    induction good as [|c good IH]; intros w Hgood; simpl in Hgood.
    + injection Hgood as <-. simpl. lia.
    + inv_getitem Hgood name. inv_getitem Hgood uni. inv_getitem Hgood code.
      inv_bind Hgood u w2 Hins. destruct u.
      apply insert_club_row_ok_inv in Hins as [_ ->].
      rewrite (IH _ Hgood). simpl_world. rewrite length_app. simpl. lia.
  - by destruct (advances_executemany_clubs _ _ _ _ Hgood) as (_ & Hd & _).
Qed.

Lemma executemany_clubs_partial_witness :
  let w1 := snd (executemany_clubs sample_clubs empty_world) in
  let bad := list_to_map [("Name", PStr "Lasham")] in
  executemany_clubs (sample_clubs ++ bad :: sample_clubs) empty_world
  = (Raise (KeyError (if has_key bad "Name"
                      then if has_key bad "University" then "ID"
                           else "University"
                      else "Name")), w1)
  /\ length (club (session w1))
     = (length (club (session empty_world)) + length sample_clubs)%nat
  /\ durable w1 = durable empty_world.
Proof.
  intros w1 bad.
  apply (executemany_clubs_partial sample_clubs sample_clubs bad empty_world w1).
  - subst w1. apply run_ok. vm_compute. reflexivity.
  - vm_compute. reflexivity.
Defined.

Lemma insert_pilot_ok_inv f s l w w' :
  insert_pilot f s l w = (Ok tt, w') ->
  unique_ok Pilot.ladder_id l (pilot (session w)) = true
  /\ w' = with_session
            (set_pilot (pilot (session w)
                        ++ [Pilot.Row (next_rowid (Pilot.id <$> pilot (session w)))
                                      f s l]) (session w)) w.
Proof.
  unfold insert_pilot, bind, get_session, put_session, raise.
  destruct (unique_ok _ _ _); [|done]. by intros [= <-].
Qed.

Lemma executemany_pilots_lookup :
  forall data w w' p,
    executemany_pilots data w = (Ok tt, w') ->
    p ∈ data ->
    to_sql (dict_get p "ForeName") <> VNull ->
    to_sql (dict_get p "Surname") <> VNull ->
    to_sql (dict_get p "ID") <> VNull ->
    exists i,
      fetchone Pilot.id
        (is_pilot (to_sql (dict_get p "ForeName"))
                  (to_sql (dict_get p "Surname")) (to_sql (dict_get p "ID")))
        (pilot (session w')) = Some i
      /\ pilot_of p i ∈ pilot (session w').
Proof.
  induction data as [|d rest IH]; intros w w' p Hrun Hin Hf Hs Hl.
  { by apply elem_of_nil in Hin. }
  simpl in Hrun.
  inv_getitem_as Hrun forename Hforename. inv_getitem_as Hrun surname Hsurname.
  inv_getitem_as Hrun lid Hlid.
  inv_bind Hrun u w1 Hins. destruct u.
  apply insert_pilot_ok_inv in Hins as [Hu ->].
  apply elem_of_cons in Hin as [->|Hin]; [|by eapply IH].
  pose proof (advances_executemany_pilots _ _ _ _ Hrun)
    as (([more Hmore] & _) & _).
  simpl_world. unfold pilot_of.
  replace (dict_get d "ForeName") with forename in * by done.
  replace (dict_get d "Surname") with surname in * by done.
  replace (dict_get d "ID") with lid in * by done.
  exists (next_rowid (Pilot.id <$> pilot (session w))).
  rewrite Hmore. split.
  - apply fetchone_app_old.
    apply (fetchone_app_new Pilot.id).
    + apply fetchone_None.
      apply (unique_ok_fetchone Pilot.id), fetchone_None in Hu.
      eapply Forall_impl; [exact Hu|]. intros row Hrow. unfold is_pilot.
      simpl in Hrow. by rewrite Hrow, andb_false_r.
    + unfold is_pilot. simpl. by rewrite !sql_eq_refl.
  - apply elem_of_app. left. apply elem_of_app. right. left.
Qed.

(** X21.  Pilots that were prefilled are found again.  After a prefill
    of the pilots that returned, get-or-create with the forename, surname
    and id of any pilot of the list (none of them null) returns the id of
    the prefilled row and changes nothing. *)
Theorem prefill_pilots_then_get_or_create
    (decode : list byte -> option (list flight_record)) (E : env)
    (r : response) (data : list flight_record) (p : flight_record)
    (w : world) :
  http E pilots_url ∅ = Some r ->
  decode (content r) = Some data ->
  p ∈ data ->
  to_sql (dict_get p "ForeName") <> VNull ->
  to_sql (dict_get p "Surname") <> VNull ->
  to_sql (dict_get p "ID") <> VNull ->
  fst (prefill_pilots decode E w) = Ok tt ->
  let w' := snd (prefill_pilots decode E w) in
  exists i,
    get_or_create_pilot (dict_get p "ForeName") (dict_get p "Surname")
                        (dict_get p "ID") w' = (Ok i, w')
    /\ pilot_of p i ∈ pilot (session w').
Proof.
  intros Hr Hd Hin Hf Hs Hl Hok w'. apply run_ok in Hok. fold w' in Hok.
  clearbody w'. unfold prefill_pilots in Hok.
  rewrite (bind_ok _ _ _ _ _ (requests_get_ok _ _ _ _ _ Hr)) in Hok.
  rewrite bind_run in Hok. unfold json_of in Hok. rewrite Hd in Hok.
  destruct (executemany_pilots_lookup _ _ _ p Hok Hin Hf Hs Hl)
    as (i & Hsel & Hrow).
  exists i. split; [|done].
  rewrite get_or_create_pilot_run. by rewrite Hsel.
Qed.

Lemma prefill_pilots_then_get_or_create_witness :
  let p := list_to_map [("ForeName", PStr "Bob"); ("Surname", PStr "Day");
                        ("ID", PInt 4)] in
  let w' := snd (prefill_pilots (fun _ => Some sample_pilots) prefill_env
                   empty_world) in
  exists i,
    get_or_create_pilot (dict_get p "ForeName") (dict_get p "Surname")
                        (dict_get p "ID") w' = (Ok i, w')
    /\ pilot_of p i ∈ pilot (session w').
Proof.
  intros p.
  apply (prefill_pilots_then_get_or_create (fun _ => Some sample_pilots)
           prefill_env (Response (bytes_of "[...]") None) sample_pilots p
           empty_world).
  - reflexivity.
  - reflexivity.
  - unfold sample_pilots. right. left.
  - vm_compute. discriminate.
  - vm_compute. discriminate.
  - vm_compute. discriminate.
  - vm_compute. reflexivity.
Defined.

Lemma executemany_glider_models_rows :
  forall data w w' g,
    executemany_glider_models data w = (Ok tt, w') ->
    g ∈ data ->
    exists i, glider_model_of g i ∈ glider_model (session w').
Proof.
  induction data as [|d rest IH]; intros w w' g Hrun Hin.
  { by apply elem_of_nil in Hin. }
  simpl in Hrun.
  inv_getitem_as Hrun glider_type Htype. inv_getitem_as Hrun seats Hseats.
  inv_getitem_as Hrun vintage Hvintage. inv_getitem_as Hrun turbo Hturbo.
  inv_getitem_as Hrun handicap Hhandicap. inv_getitem_as Hrun lid Hlid.
  inv_bind Hrun u w1 Hins.
  apply elem_of_cons in Hin as [->|Hin]; [|by eapply IH].
  pose proof (advances_executemany_glider_models _ _ _ _ Hrun)
    as ((_ & _ & [more Hmore] & _) & _).
  unfold insert_glider_model_row, bind, get_session, put_session, raise in Hins.
  destruct (unique_ok _ _ _); [|done]. injection Hins as _ <-.
  simpl_world. unfold glider_model_of.
  replace (dict_get d "GliderType") with glider_type by done.
  replace (dict_get d "Seats") with seats by done.
  replace (dict_get d "Vintage") with vintage by done.
  replace (dict_get d "Turbo") with turbo by done.
  replace (dict_get d "Handicap") with handicap by done.
  replace (dict_get d "GliderID") with lid by done.
  eexists. rewrite Hmore.
  apply elem_of_app. left. apply elem_of_app. right. left.
Qed.

(** X22.  Glider models that were prefilled are not created again.
    After a prefill of the glider models that returned, every item of the
    list has its row, with all six fields; and get-or-create of the name
    of any of them (a name that is not null) returns the id of a stored
    model and changes nothing, whatever ladder id comes with the name. *)
Theorem prefill_glider_models_then_get_or_create
    (decode : list byte -> option (list flight_record)) (E : env)
    (r : response) (data : list flight_record) (g : flight_record)
    (bgal_model_id : pyval) (w : world) :
  http E gliders_url ∅ = Some r ->
  decode (content r) = Some data ->
  g ∈ data ->
  to_sql (dict_get g "GliderType") <> VNull ->
  fst (prefill_glider_models decode E w) = Ok tt ->
  let w' := snd (prefill_glider_models decode E w) in
  (exists i, glider_model_of g i ∈ glider_model (session w'))
  /\ exists i,
       get_or_create_glider_model (dict_get g "GliderType") bgal_model_id w'
       = (Ok i, w')
       /\ i ∈ (GliderModel.id <$> glider_model (session w')).
Proof.
  intros Hr Hd Hin Hnn Hok w'. apply run_ok in Hok. fold w' in Hok.
  clearbody w'. unfold prefill_glider_models in Hok.
  rewrite (bind_ok _ _ _ _ _ (requests_get_ok _ _ _ _ _ Hr)) in Hok.
  rewrite bind_run in Hok. unfold json_of in Hok. rewrite Hd in Hok.
  destruct (executemany_glider_models_rows _ _ _ g Hok Hin) as (j & Hrow).
  split; [by exists j|].
  destruct (fetchone_found GliderModel.id
              (fun r => sql_eq (GliderModel.model_name r)
                               (to_sql (dict_get g "GliderType")))
              _ _ Hrow) as [i Hi].
  { simpl. by apply sql_eq_refl. }
  exists i. rewrite get_or_create_glider_model_run, Hi.
  split; [done|]. by eapply fetchone_some_in.
Qed.

Lemma prefill_glider_models_then_get_or_create_witness :
  let g := list_to_map [("GliderType", PStr "K 21"); ("Seats", PInt 2);
                        ("Vintage", PBool false); ("Turbo", PBool false);
                        ("Handicap", PInt 85); ("GliderID", PInt 40)] in
  let w' := snd (prefill_glider_models (fun _ => Some sample_glider_models)
                   prefill_env empty_world) in
  (exists i, glider_model_of g i ∈ glider_model (session w'))
  /\ exists i,
       get_or_create_glider_model (dict_get g "GliderType") (PInt 99) w'
       = (Ok i, w')
       /\ i ∈ (GliderModel.id <$> glider_model (session w')).
Proof.
  intros g.
  apply (prefill_glider_models_then_get_or_create
           (fun _ => Some sample_glider_models) prefill_env
           (Response (bytes_of "[...]") None) sample_glider_models g (PInt 99)
           empty_world).
  - reflexivity.
  - reflexivity.
  - unfold sample_glider_models. right. left.
  - vm_compute. discriminate.
  - vm_compute. reflexivity.
Defined.

(* ===================================================================== *)
(** * Further properties: where a uniqueness conflict can come from       *)
(* ===================================================================== *)

Lemma bind_raise_inv {A B} (m : M A) (k : A -> M B) w e w' :
  bind m k w = (Raise e, w') ->
  m w = (Raise e, w')
  \/ exists a w1, m w = (Ok a, w1) /\ k a w1 = (Raise e, w').
Proof.
  rewrite bind_run. destruct (m w) as [[a|e'|] w1]; [eauto | | done].
  intros [= -> ->]. by left.
Qed.

Lemma getitem_raise_inv fd key e w w' :
  getitem fd key w = (Raise e, w') -> e = KeyError key.
Proof.
  unfold getitem, ret, raise. destruct (fd !! key); [done | by intros [= <-]].
Qed.

Ltac raise_getitem H x Hx :=
  let w0 := fresh "w" in
  apply bind_raise_inv in H as [H | (x & w0 & Hx & H)];
  [ by apply getitem_raise_inv in H
  | apply getitem_ok_inv in Hx as [Hx ->];
    pose proof (dict_get_some _ _ _ Hx) ].

Lemma get_or_create_pilot_models f s l w r w' :
  get_or_create_pilot f s l w = (r, w') ->
  glider_model (session w') = glider_model (session w).
Proof.
  rewrite get_or_create_pilot_run. by repeat case_match; intros [= <- <-].
Qed.

Lemma get_or_create_club_models c w r w' :
  get_or_create_club c w = (r, w') ->
  glider_model (session w') = glider_model (session w).
Proof.
  rewrite get_or_create_club_run. by repeat case_match; intros [= <- <-].
Qed.

Lemma no_integrity_download E root fd :
  never_raises IntegrityError (download_and_archive_trace E root fd).
Proof.
  unfold download_and_archive_trace.
  assert (forall key, never_raises IntegrityError (getitem fd key)) as Hget.
  { intros key w. unfold getitem. by destruct (fd !! key). }
  apply never_raises_bind; [apply Hget | intros flight_id].
  apply never_raises_bind; [apply Hget | intros name].
  apply never_raises_bind; [by intros w | intros t0].
  apply never_raises_bind.
  - apply never_raises_try_other; [|apply never_raises_ret].
    apply never_raises_bind; [|intros r; apply never_raises_ret].
    intros w. unfold requests_get. by case_match.
  - intros [r|]; [|apply never_raises_ret].
    intros w. rewrite archive_trace_run. by repeat case_match.
Qed.

(** X23.  The only uniqueness conflicts an ingestion can run into are
    those of the two resolvers that look a row up by more, or by other,
    columns than the unique one.  When an ingestion ends in
    [IntegrityError], either the pilot's ladder id is stored under
    another forename or surname, or the glider model's ladder id is
    stored under another name.  Clubs, gliders, traces and flights are
    looked up by their unique column before they are inserted, so their
    inserts never conflict. *)
Theorem ingestion_integrity_error (E : env) (archive_root : path)
    (fd : flight_record) (scraped_at : datetime) (w : world) :
  fst (insert_bga_flight E archive_root fd scraped_at w) = Raise IntegrityError ->
  id_taken Pilot.id
    (is_pilot (to_sql (dict_get fd "Forename")) (to_sql (dict_get fd "Surname"))
              (to_sql (dict_get fd "PilotID")))
    Pilot.ladder_id (to_sql (dict_get fd "PilotID")) (pilot (session w)) = true
  \/ id_taken GliderModel.id
       (fun r => sql_eq (GliderModel.model_name r) (to_sql (dict_get fd "Glider")))
       GliderModel.ladder_id (to_sql (dict_get fd "GliderCode"))
       (glider_model (session w)) = true.
Proof.
  destruct (insert_bga_flight E archive_root fd scraped_at w) as [r w'] eqn:H.
  simpl. intros ->. unfold insert_bga_flight in H.
  raise_getitem H v Hv.
  rewrite bind_run in H. unfold get_session at 1 in H.
  destruct (select_flight (to_sql v) (session w)) eqn:Hsel; [discriminate|].
  raise_getitem H forename Hforename. raise_getitem H surname Hsurname.
  raise_getitem H pid Hpid.
  apply bind_raise_inv in H as [H | (pilot_id & wa & Ha & H)].
  { left. unfold id_taken.
    replace (dict_get fd "Forename") with forename by done.
    replace (dict_get fd "Surname") with surname by done.
    replace (dict_get fd "PilotID") with pid by done.
    revert H. rewrite get_or_create_pilot_run.
    destruct (fetchone _ _ _); [done|].
    destruct (unique_ok _ _ _); [|done].
    cbv zeta. by destruct (decide _). }
  raise_getitem H club_code Hclub.
  apply bind_raise_inv in H as [H | (club_id & wb & Hb & H)].
  { revert H. rewrite get_or_create_club_run.
    destruct (fetchone _ _ _); [done|]. cbv zeta. by destruct (decide _). }
  raise_getitem H glider_name Hglider. raise_getitem H glider_code Hcode.
  apply bind_raise_inv in H as [H | (model_id & wc & Hc & H)].
  { right. unfold id_taken.
    replace (dict_get fd "Glider") with glider_name by done.
    replace (dict_get fd "GliderCode") with glider_code by done.
    rewrite <- (get_or_create_pilot_models _ _ _ _ _ _ Ha).
    rewrite <- (get_or_create_club_models _ _ _ _ Hb).
    revert H. rewrite get_or_create_glider_model_run.
    destruct (fetchone _ _ _); [done|].
    destruct (unique_ok _ _ _); [|done].
    cbv zeta. by destruct (decide _). }
  exfalso.
  apply get_or_create_pilot_keeps in Ha. apply get_or_create_club_keeps in Hb.
  apply get_or_create_glider_model_keeps in Hc.
  raise_getitem H registration Hreg.
  apply bind_raise_inv in H as [H | (glider_id & wd & Hd & H)].
  { revert H. rewrite get_or_create_glider_run.
    destruct (fetchone _ _ _); [done|]. cbv zeta. by destruct (decide _). }
  apply get_or_create_glider_keeps in Hd.
  apply bind_raise_inv in H as [H | (trace_id & we & He & H)].
  { by destruct (no_integrity_download E archive_root fd wd); rewrite H. }
  apply download_keeps in He.
  assert (keeps w we) as (Hfl & _ & _) by eauto using keeps_trans.
  clear Ha Hb Hc Hd He.
  apply bind_raise_inv in H as [H | (task_id & wf & Hf & H)].
  { by destruct (insert_task_run fd we) as (codes & _ & Hrun); rewrite Hrun in H. }
  destruct (insert_task_run fd we) as (codes & _ & Hrun).
  rewrite Hrun in Hf. injection Hf as <- <-.
  raise_getitem H date_text Hdate.
  apply bind_raise_inv in H as [H | (flight_date & wg & Hg & H)].
  { unfold parse_flight_date, ret, raise in H. by repeat case_match. }
  apply parse_flight_date_ok_inv in Hg as [-> _].
  raise_getitem H weekend Hweekend. raise_getitem H junior Hjunior.
  raise_getitem H height Hheight. raise_getitem H two_seater Htwo.
  raise_getitem H wood Hwood.
  apply bind_raise_inv in H as [H | (wooden & wh & Hh & H)].
  { destruct (truthy wood); [done | by apply getitem_raise_inv in H]. }
  assert (flight (session wh) = flight (session w)) as Hfl'.
  { destruct (truthy wood); [injection Hh as _ <- |
                             apply getitem_ok_inv in Hh as [_ ->]];
      by simpl_world. }
  raise_getitem H engine Hengine. raise_getitem H penalty Hpenalty.
  raise_getitem H speed Hspeed. raise_getitem H hspeed Hhspeed.
  raise_getitem H dist Hdist. raise_getitem H spoints Hspoints.
  raise_getitem H hgain Hhgain. raise_getitem H hpoints Hhpoints.
  raise_getitem H tpoints Htpoints.
  apply bind_raise_inv in H as [H | (u & wi & Hi & H)]; [|done].
  unfold insert_flight, bind, get_session, put_session, raise in H.
  rewrite Hfl' in H.
  apply (unique_ok_fetchone Flight.id) in Hsel. by rewrite Hsel in H.
Qed.

Lemma ingestion_integrity_error_witness :
  let w := snd (insert_bga_flight sample_env ["traces"]
                  (sample_record 7 "a.igc") 100 empty_world) in
  let fd := <["Forename" := PStr "Anne"]> (sample_record 10 "d.igc") in
  fst (insert_bga_flight sample_env ["traces"] fd 200 w) = Raise IntegrityError
  /\ (id_taken Pilot.id
        (is_pilot (to_sql (dict_get fd "Forename"))
                  (to_sql (dict_get fd "Surname"))
                  (to_sql (dict_get fd "PilotID")))
        Pilot.ladder_id (to_sql (dict_get fd "PilotID")) (pilot (session w))
      = true
      \/ id_taken GliderModel.id
           (fun r => sql_eq (GliderModel.model_name r)
                            (to_sql (dict_get fd "Glider")))
           GliderModel.ladder_id (to_sql (dict_get fd "GliderCode"))
           (glider_model (session w)) = true).
Proof.
  intros w fd.
  assert (fst (insert_bga_flight sample_env ["traces"] fd 200 w)
          = Raise IntegrityError) as Hrun by (vm_compute; reflexivity).
  split; [exact Hrun|].
  exact (ingestion_integrity_error sample_env ["traces"] fd 200 w Hrun).
Defined.
